(** * Availability and conflict resolution of the court-booking back end

    A shallow embedding of the booking engine of the dashboard back end:
    [BookingsService] (dashboard bookings), [CourtAvailabilityService]
    (blackout blocks), [PublicCourtsController] (public slot listing) and
    [PublicBookingsController] (public booking creation), followed by the
    properties of the availability engine.

    Conventions of the embedding.
    - A JavaScript [Date] is its epoch value in milliseconds, a [Z].  The
      engine treats instants as naive local time; the local zone of the
      server is taken to be UTC, so that [new Date("YYYY-MM-DD")] is the
      local midnight of that day and [setHours] works on the same clock.
    - An [HH:mm] string is kept as the pair of numbers that
      [split(':').map(Number)] reads from it.
    - A Prisma table is the list of its rows in insertion order.
    - A service method is a computation over the database that returns
      either a value or the HTTP exception it throws. *)

From Stdlib Require Import ZArith List Bool String DecimalString Lia.
From Stdlib Require Import Permutation.
From Equations Require Import Equations.
Import ListNotations.
Local Open Scope string_scope.
Local Open Scope Z_scope.

(** ** JavaScript dates *)

Module JsDate.

Definition Date := Z.

Definition msPerSecond : Z := 1000.
Definition msPerMinute : Z := 60000.
Definition msPerHour : Z := 3600000.
Definition msPerDay : Z := 86400000.

Definition getHours (d : Date) : Z := (d mod msPerDay) / msPerHour.
Definition getMinutes (d : Date) : Z := (d mod msPerHour) / msPerMinute.

(** [d.setHours(h, m, s, ms)]: the four fields of the local day of [d]
    are replaced; values out of range roll over. *)
Definition setHours (d : Date) (h m s ms : Z) : Date :=
  d - d mod msPerDay + h * msPerHour + m * msPerMinute + s * msPerSecond + ms.

(** [d.setMinutes(m)]: only the minutes field is replaced. *)
Definition setMinutes (d : Date) (m : Z) : Date :=
  d - getMinutes d * msPerMinute + m * msPerMinute.

(** Minutes since local midnight, [d.getHours() * 60 + d.getMinutes()]. *)
Definition minutesOfDay (d : Date) : Z := getHours d * 60 + getMinutes d.

End JsDate.
Import JsDate.

(** ** Interval arithmetic *)

(** An [HH:mm] time of day, as [split(':').map(Number)] reads it. *)
Record HHmm := mkHHmm { hour : Z; minute : Z }.

Definition toMinutes (t : HHmm) : Z := hour t * 60 + minute t.

(** [String(n).padStart(2, '0')]. *)
Definition padStart2 (n : Z) : string :=
  let s := NilZero.string_of_int (Z.to_int n) in
  if (String.length s <? 2)%nat then "0" ++ s else s.

(** The text of an [HH:mm] value. *)
Definition HHmm_toString (t : HHmm) : string :=
  padStart2 (hour t) ++ ":" ++ padStart2 (minute t).

(** The overlap test written out in the services:
    [(reqStart >= blockStart && reqStart < blockEnd) ||
     (reqEnd > blockStart && reqEnd <= blockEnd) ||
     (reqStart <= blockStart && reqEnd >= blockEnd)]. *)
Definition hasOverlap (reqStart reqEnd blockStart blockEnd : Z) : bool :=
  ((reqStart >=? blockStart) && (reqStart <? blockEnd))
  || ((reqEnd >? blockStart) && (reqEnd <=? blockEnd))
  || ((reqStart <=? blockStart) && (reqEnd >=? blockEnd)).

(** The symmetric half-open test [aStart < bEnd && bStart < aEnd]. *)
Definition overlaps (aStart aEnd bStart bEnd : Z) : bool :=
  (aStart <? bEnd) && (bStart <? aEnd).

(** ** Data model *)

Inductive BookingStatus :=
| StatusPending | StatusConfirmed | StatusCancelled | StatusCompleted.

Inductive PaymentStatus := PaymentPending | PaymentPaid | PaymentRefunded.

Inductive BlockReason := MAINTENANCE | PRIVATE_EVENT | WEATHER | OTHER.

Definition BlockReason_toString (r : BlockReason) : string :=
  match r with
  | MAINTENANCE => "maintenance"
  | PRIVATE_EVENT => "private_event"
  | WEATHER => "weather"
  | OTHER => "other"
  end.

(** [status: { in: ['pending', 'confirmed'] }]. *)
Definition isActiveStatus (s : BookingStatus) : bool :=
  match s with
  | StatusPending | StatusConfirmed => true
  | StatusCancelled | StatusCompleted => false
  end.

(** A court with the owner of its complex ([court.complex.userId]). *)
Module Court.
Record t := mk { id : string; complexUserId : string; isActive : bool }.
End Court.

Module Client.
Record t := mk { id : string; userId : string }.
End Client.

(** A booking row.  The columns that the engine only stores (price,
    payment method, notes, the app-native flag, timestamps) are left out. *)
Module Booking.
Record t := mk {
  id : string;
  bookingDate : Date;
  startTime : Date;
  endTime : Date;
  duration : Z;
  status : BookingStatus;
  paymentStatus : PaymentStatus;
  courtId : string;
  clientId : option string;
  userId : string }.
End Booking.

(** A blackout block of a court ([CourtAvailability]); the description
    column is left out. *)
Module Block.
Record t := mk {
  id : string;
  courtId : string;
  startDate : Date;
  endDate : Date;
  startTime : option HHmm;
  endTime : option HHmm;
  reason : BlockReason;
  isActive : bool;
  userId : string }.
End Block.

(** ** The database and the computations over it *)

Record Db := mkDb {
  courts : list Court.t;
  clients : list Client.t;
  bookings : list Booking.t;
  courtAvailabilities : list Block.t }.

Inductive HttpException :=
| NotFoundException (message : string)
| ForbiddenException (message : string)
| BadRequestException (message : string)
| ConflictException (message : string)
| InternalServerError.

(** An asynchronous service method: it runs on a database and leaves a
    database, and it either resolves to a value or rejects with an
    exception.  Writes made before a [throw] stay. *)
Definition Prisma (A : Type) : Type := Db -> (HttpException + A) * Db.

Definition ret {A} (a : A) : Prisma A := fun db => (inr a, db).
Definition throw {A} (e : HttpException) : Prisma A := fun db => (inl e, db).
Definition bind {A B} (m : Prisma A) (k : A -> Prisma B) : Prisma B :=
  fun db =>
    match m db with
    | (inl e, db') => (inl e, db')
    | (inr a, db') => k a db'
    end.
(** A read-only query. *)
Definition query {A} (q : Db -> A) : Prisma A := fun db => (inr (q db), db).
(** [if (c) throw e]. *)
Definition throwIf (c : bool) (e : HttpException) : Prisma unit :=
  if c then throw e else ret tt.

Declare Scope prisma_scope.
Delimit Scope prisma_scope with prisma.
Notation "x <- m ;; k" := (bind m (fun x => k))
  (at level 61, m at next level, right associativity) : prisma_scope.
Notation "m ;; k" := (bind m (fun _ => k))
  (at level 61, right associativity) : prisma_scope.
Local Open Scope prisma_scope.

(** JavaScript truthiness of an optional string: [undefined], [null] and
    the empty string are falsy. *)
Definition truthy (s : option string) : bool :=
  match s with
  | Some s => negb (String.eqb s "")
  | None => false
  end.

Definition isSome {A} (o : option A) : bool :=
  match o with Some _ => true | None => false end.

Definition orElse {A} (o : option A) (d : A) : A :=
  match o with Some a => a | None => d end.

(** *** Prisma primitives *)

Definition court_findUnique (id : string) (db : Db) : option Court.t :=
  find (fun c => String.eqb (Court.id c) id) (courts db).

Definition client_findUnique (id : string) (db : Db) : option Client.t :=
  find (fun c => String.eqb (Client.id c) id) (clients db).

Definition booking_findUnique (id : string) (db : Db) : option Booking.t :=
  find (fun b => String.eqb (Booking.id b) id) (bookings db).

Definition booking_findMany (where_ : Booking.t -> bool) (db : Db)
  : list Booking.t :=
  filter where_ (bookings db).

Definition booking_count (where_ : Booking.t -> bool) (db : Db) : Z :=
  Z.of_nat (List.length (filter where_ (bookings db))).

Definition booking_create (row : Booking.t) : Prisma Booking.t :=
  fun db =>
    (inr row,
     mkDb (courts db) (clients db) (bookings db ++ [row])
          (courtAvailabilities db)).

(** [booking.update({ where: { id }, data })]: the row with that id is
    rewritten in place; without such a row the call rejects. *)
Definition booking_update (id : string) (data : Booking.t -> Booking.t)
  : Prisma Booking.t :=
  fun db =>
    match booking_findUnique id db with
    | Some b =>
        (inr (data b),
         mkDb (courts db) (clients db)
              (map (fun x => if String.eqb (Booking.id x) id then data x else x)
                   (bookings db))
              (courtAvailabilities db))
    | None => (inl InternalServerError, db)
    end.

Definition courtAvailability_findUnique (id : string) (db : Db)
  : option Block.t :=
  find (fun b => String.eqb (Block.id b) id) (courtAvailabilities db).

Definition courtAvailability_findMany (where_ : Block.t -> bool) (db : Db)
  : list Block.t :=
  filter where_ (courtAvailabilities db).

Definition courtAvailability_create (row : Block.t) : Prisma Block.t :=
  fun db =>
    (inr row,
     mkDb (courts db) (clients db) (bookings db)
          (courtAvailabilities db ++ [row])).

Definition courtAvailability_update (id : string) (data : Block.t -> Block.t)
  : Prisma Block.t :=
  fun db =>
    match courtAvailability_findUnique id db with
    | Some b =>
        (inr (data b),
         mkDb (courts db) (clients db) (bookings db)
              (map (fun x => if String.eqb (Block.id x) id then data x else x)
                   (courtAvailabilities db)))
    | None => (inl InternalServerError, db)
    end.

(** [booking.delete({ where: { id } })]: the row with that id is removed;
    without such a row the call rejects. *)
Definition booking_delete (id : string) : Prisma unit :=
  fun db =>
    match booking_findUnique id db with
    | Some _ =>
        (inr tt,
         mkDb (courts db) (clients db)
              (filter (fun x => negb (String.eqb (Booking.id x) id))
                      (bookings db))
              (courtAvailabilities db))
    | None => (inl InternalServerError, db)
    end.

Definition courtAvailability_delete (id : string) : Prisma unit :=
  fun db =>
    match courtAvailability_findUnique id db with
    | Some _ =>
        (inr tt,
         mkDb (courts db) (clients db) (bookings db)
              (filter (fun x => negb (String.eqb (Block.id x) id))
                      (courtAvailabilities db)))
    | None => (inl InternalServerError, db)
    end.

(** [orderBy]: the rows in the order [le], rows with equal keys in table
    order. *)
Fixpoint insertSorted {A : Type} (le : A -> A -> bool) (a : A) (l : list A)
  : list A :=
  match l with
  | [] => [a]
  | x :: rest => if le a x then a :: l else x :: insertSorted le a rest
  end.

Definition orderBy {A : Type} (le : A -> A -> bool) (l : list A) : list A :=
  fold_right (insertSorted le) [] l.

(** [skip] and [take] of [findMany]. *)
Definition skipTake {A : Type} (skip take : Z) (l : list A) : list A :=
  firstn (Z.to_nat take) (skipn (Z.to_nat skip) l).

(** The text of a status, as the column holds it. *)
Definition BookingStatus_toString (s : BookingStatus) : string :=
  match s with
  | StatusPending => "pending"
  | StatusConfirmed => "confirmed"
  | StatusCancelled => "cancelled"
  | StatusCompleted => "completed"
  end.

(** [orderBy: [{ bookingDate: 'asc' }, { startTime: 'asc' }]]. *)
Definition byDateThenStartAsc (a b : Booking.t) : bool :=
  (Booking.bookingDate a <? Booking.bookingDate b)
  || ((Booking.bookingDate a =? Booking.bookingDate b)
      && (Booking.startTime a <=? Booking.startTime b)).

(** [orderBy: [{ bookingDate: 'desc' }, { startTime: 'desc' }]]. *)
Definition byDateThenStartDesc (a b : Booking.t) : bool :=
  byDateThenStartAsc b a.

(** Modelled from the spec: the Prisma schema, which holds the column
    defaults of [Booking], is not among the sources.  The spec has a
    booking created with [status = pending], and [CreateBookingDto]
    documents [default: 'pending'] for the status. *)
Definition defaultStatus : BookingStatus := StatusPending.

(** Modelled from the spec: the column default of [Booking.paymentStatus]
    is in the absent Prisma schema as well; the spec has a booking created
    with [paymentStatus = pending], and [CreateBookingDto] documents
    [default: 'pending'] for the payment status. *)
Definition defaultPaymentStatus : PaymentStatus := PaymentPending.

(** Modelled from the spec: the column default of
    [CourtAvailability.isActive] is in the absent Prisma schema; a block is
    taken to be active from its creation, as the spec's blackout example
    takes effect without a toggle. *)
Definition defaultIsActive : bool := true.

(** ** Loops *)

(** [for (let i = from; i < to; i += step) body(i)], where each iteration
    pushes the elements [body i] on the result array. *)
Equations? forLoop {A : Type} (from to step : Z) (Hstep : 0 < step)
  (body : Z -> list A) : list A by wf (Z.to_nat (to - from)) lt :=
  forLoop from to step Hstep body with Z_lt_dec from to := {
    | left _ => body from ++ forLoop (from + step) to step Hstep body
    | right _ => [] }.
Proof. lia. Qed.

(** ** BookingsService (dashboard bookings) *)

Module CreateBookingDto.
Record t := mk {
  bookingDate : Date;
  startTime : Date;
  endTime : Date;
  duration : Z;
  status : option BookingStatus;
  paymentStatus : option PaymentStatus;
  courtId : string;
  clientId : string }.
End CreateBookingDto.

(** [PartialType(CreateBookingDto)]: every field is optional. *)
Module UpdateBookingDto.
Record t := mk {
  bookingDate : option Date;
  startTime : option Date;
  endTime : option Date;
  duration : option Z;
  status : option BookingStatus;
  paymentStatus : option PaymentStatus;
  courtId : option string;
  clientId : option string }.
End UpdateBookingDto.

(** The DTO of the dashboard availability query; the two times are
    optional. *)
Module CheckSlotDto.
Record t := mk {
  courtId : string;
  date : Date;
  startTime : option Date;
  endTime : option Date }.
End CheckSlotDto.

(** A cell of the dashboard calendar; [startTime] and [endTime] are the
    instants that [toISOString] prints. *)
Module Slot.
Record t := mk {
  startTime : Date;
  endTime : Date;
  available : bool;
  bookingId : option string }.
End Slot.

(** The [OR] of three [AND] clauses of the booking queries, on a stored
    booking [b] and a candidate window. *)
Definition timeOverlapWhere (startTime endTime : Date) (b : Booking.t) : bool :=
  ((Booking.startTime b <=? startTime) && (startTime <? Booking.endTime b))
  || ((Booking.startTime b <? endTime) && (endTime <=? Booking.endTime b))
  || ((startTime <=? Booking.startTime b) && (Booking.endTime b <=? endTime)).

(** The [where] object of [checkTimeSlotAvailability]: the active
    bookings of the court that meet the window, and
    [where.id = { not: excludeBookingId }] when that id is truthy. *)
Definition conflictingBookingWhere (courtId : string) (startTime endTime : Date)
  (excludeBookingId : option string) (b : Booking.t) : bool :=
  String.eqb (Booking.courtId b) courtId
  && isActiveStatus (Booking.status b)
  && timeOverlapWhere startTime endTime b
  && (if truthy excludeBookingId
      then negb (String.eqb (Booking.id b) (orElse excludeBookingId ""))
      else true).

(** [courtId, isActive: true, startDate: { lte: day }, endDate: { gte: day }]. *)
Definition activeBlockWhere (courtId : string) (day : Date) (b : Block.t) : bool :=
  String.eqb (Block.courtId b) courtId
  && Block.isActive b
  && (Block.startDate b <=? day)
  && (day <=? Block.endDate b).

(** The loop over the blocks of the availability checks, up to its early
    return: [Some block] is the block on which the loop returns, [None]
    means that the loop ran to its end. *)
Fixpoint findBlocking (blocks : list Block.t) (reqStartMinutes reqEndMinutes : Z)
  : option Block.t :=
  match blocks with
  | [] => None
  | block :: rest =>
      match Block.startTime block, Block.endTime block with
      | Some blockStart, Some blockEnd =>
          if hasOverlap reqStartMinutes reqEndMinutes
               (toMinutes blockStart) (toMinutes blockEnd)
          then Some block
          else findBlocking rest reqStartMinutes reqEndMinutes
      | _, _ => Some block
      end
  end.

(** [orderBy: { startTime: 'asc' }], rows with equal keys in table order. *)
Fixpoint insertByStartTime (b : Booking.t) (l : list Booking.t) : list Booking.t :=
  match l with
  | [] => [b]
  | x :: rest =>
      if Booking.startTime b <=? Booking.startTime x then b :: l
      else x :: insertByStartTime b rest
  end.

Definition orderByStartTimeAsc (l : list Booking.t) : list Booking.t :=
  fold_right insertByStartTime [] l.

(** The filters of [BookingsService.findAll]; the texts come from the
    query string as they are. *)
Module BookingFilters.
Record t := mk {
  courtId : option string;
  clientId : option string;
  status : option string;
  dateFrom : option Date;
  dateTo : option Date }.
End BookingFilters.

(** The counts of [BookingsService.getBookingStats]; the revenue sums are
    on the price column and are left out with it. *)
Module BookingStats.
Record t := mk {
  total : Z;
  pending : Z;
  confirmed : Z;
  cancelled : Z;
  completed : Z }.
End BookingStats.

Module BookingsService.

Definition checkTimeSlotAvailability (courtId : string)
  (startTime endTime : Date) (excludeBookingId : option string) (db : Db)
  : bool :=
  let where_ :=
    conflictingBookingWhere courtId startTime endTime excludeBookingId in
  let conflictingBookings := booking_count where_ db in
  if 0 <? conflictingBookings then false
  else
    let bookingDate := setHours startTime 0 0 0 0 in
    let blocks :=
      courtAvailability_findMany (activeBlockWhere courtId bookingDate) db in
    if (Z.of_nat (List.length blocks) =? 0) then true
    else
      let reqStartMinutes := getHours startTime * 60 + getMinutes startTime in
      let reqEndMinutes := getHours endTime * 60 + getMinutes endTime in
      negb (isSome (findBlocking blocks reqStartMinutes reqEndMinutes)).

(** [uuid] is the identifier that the store gives to the new row. *)
Definition create (userId : string) (createBookingDto : CreateBookingDto.t)
  (uuid : string) : Prisma Booking.t :=
  court <- query (court_findUnique (CreateBookingDto.courtId createBookingDto)) ;;
  match court with
  | None => throw (NotFoundException "Cancha no encontrada")
  | Some court =>
  throwIf (negb (String.eqb (Court.complexUserId court) userId))
    (ForbiddenException "No tienes permiso para crear reservas en esta cancha") ;;
  client <- query (client_findUnique (CreateBookingDto.clientId createBookingDto)) ;;
  match client with
  | None => throw (NotFoundException "Cliente no encontrado")
  | Some client =>
  throwIf (negb (String.eqb (Client.userId client) userId))
    (ForbiddenException "No tienes permiso para usar este cliente") ;;
  let startTime := CreateBookingDto.startTime createBookingDto in
  let endTime := CreateBookingDto.endTime createBookingDto in
  throwIf (endTime <=? startTime)
    (BadRequestException "La hora de fin debe ser posterior a la hora de inicio") ;;
  isAvailable <- query (checkTimeSlotAvailability
                          (CreateBookingDto.courtId createBookingDto)
                          startTime endTime None) ;;
  throwIf (negb isAvailable)
    (ConflictException "La cancha no está disponible en el horario seleccionado") ;;
  booking_create
    (Booking.mk uuid
       (CreateBookingDto.bookingDate createBookingDto)
       startTime
       endTime
       (CreateBookingDto.duration createBookingDto)
       (orElse (CreateBookingDto.status createBookingDto) defaultStatus)
       (orElse (CreateBookingDto.paymentStatus createBookingDto)
               defaultPaymentStatus)
       (CreateBookingDto.courtId createBookingDto)
       (Some (CreateBookingDto.clientId createBookingDto))
       userId)
  end end.

Definition findOne (id userId : string) : Prisma Booking.t :=
  booking <- query (booking_findUnique id) ;;
  match booking with
  | None => throw (NotFoundException "Reserva no encontrada")
  | Some booking =>
  throwIf (negb (String.eqb (Booking.userId booking) userId))
    (ForbiddenException "No tienes permiso para ver esta reserva") ;;
  ret booking
  end.

(** [data = { ...updateBookingDto }]: the fields present in the DTO
    replace the stored ones. *)
Definition updateData (dto : UpdateBookingDto.t) (b : Booking.t) : Booking.t :=
  Booking.mk (Booking.id b)
    (orElse (UpdateBookingDto.bookingDate dto) (Booking.bookingDate b))
    (orElse (UpdateBookingDto.startTime dto) (Booking.startTime b))
    (orElse (UpdateBookingDto.endTime dto) (Booking.endTime b))
    (orElse (UpdateBookingDto.duration dto) (Booking.duration b))
    (orElse (UpdateBookingDto.status dto) (Booking.status b))
    (orElse (UpdateBookingDto.paymentStatus dto) (Booking.paymentStatus b))
    (orElse (UpdateBookingDto.courtId dto) (Booking.courtId b))
    (match UpdateBookingDto.clientId dto with
     | Some c => Some c
     | None => Booking.clientId b
     end)
    (Booking.userId b).

Definition update (id userId : string) (updateBookingDto : UpdateBookingDto.t)
  : Prisma Booking.t :=
  booking <- query (booking_findUnique id) ;;
  match booking with
  | None => throw (NotFoundException "Reserva no encontrada")
  | Some booking =>
  throwIf (negb (String.eqb (Booking.userId booking) userId))
    (ForbiddenException "No tienes permiso para actualizar esta reserva") ;;
  (if isSome (UpdateBookingDto.startTime updateBookingDto)
      || isSome (UpdateBookingDto.endTime updateBookingDto)
   then
     let startTime := orElse (UpdateBookingDto.startTime updateBookingDto)
                             (Booking.startTime booking) in
     let endTime := orElse (UpdateBookingDto.endTime updateBookingDto)
                           (Booking.endTime booking) in
     throwIf (endTime <=? startTime)
       (BadRequestException
          "La hora de fin debe ser posterior a la hora de inicio") ;;
     isAvailable <- query (checkTimeSlotAvailability
                             (Booking.courtId booking)
                             startTime endTime (Some id)) ;;
     throwIf (negb isAvailable)
       (ConflictException
          "La cancha no está disponible en el horario seleccionado")
   else ret tt) ;;
  booking_update id (updateData updateBookingDto)
  end.

Definition cancelBooking (id userId : string) : Prisma Booking.t :=
  booking <- findOne id userId ;;
  match Booking.status booking with
  | StatusCancelled =>
      throw (BadRequestException "La reserva ya está cancelada")
  | StatusCompleted =>
      throw (BadRequestException "No se puede cancelar una reserva completada")
  | _ =>
      booking_update id
        (fun b =>
           Booking.mk (Booking.id b) (Booking.bookingDate b)
             (Booking.startTime b) (Booking.endTime b) (Booking.duration b)
             StatusCancelled
             (match Booking.paymentStatus booking with
              | PaymentPaid => PaymentRefunded
              | _ => PaymentPending
              end)
             (Booking.courtId b) (Booking.clientId b) (Booking.userId b))
  end.

(** The body of the slot loop: the cell that starts at [currentTime]. *)
Definition slotAt (bookings : list Booking.t) (currentTime : Date) : Slot.t :=
  let slotEnd := setMinutes currentTime (getMinutes currentTime + 30) in
  let isBooked :=
    existsb
      (fun booking =>
         ((currentTime >=? Booking.startTime booking)
          && (currentTime <? Booking.endTime booking))
         || ((slotEnd >? Booking.startTime booking)
             && (slotEnd <=? Booking.endTime booking))
         || ((currentTime <=? Booking.startTime booking)
             && (slotEnd >=? Booking.endTime booking)))
      bookings in
  Slot.mk currentTime slotEnd (negb isBooked)
    (if isBooked
     then
       option_map Booking.id
         (find
            (fun b =>
               ((currentTime >=? Booking.startTime b)
                && (currentTime <? Booking.endTime b))
               || ((slotEnd >? Booking.startTime b)
                   && (slotEnd <=? Booking.endTime b)))
            bookings)
     else None).

(** [while (currentTime < dayEnd) { ...; currentTime = slotEnd }]. *)
Equations? slotsFrom (bookings : list Booking.t) (dayEnd currentTime : Date)
  : list Slot.t
  by wf (Z.to_nat ((dayEnd - currentTime + 1799999) / 1800000)) lt :=
  slotsFrom bookings dayEnd currentTime with Z_lt_dec currentTime dayEnd := {
    | left _ =>
        slotAt bookings currentTime
        :: slotsFrom bookings dayEnd
             (setMinutes currentTime (getMinutes currentTime + 30))
    | right _ => [] }.
Proof.
  unfold setMinutes, msPerMinute.
  apply Z2Nat.inj_lt; try (apply Z.div_pos; lia).
  Z.to_euclidean_division_equations. lia.
Qed.

(** The query of [getAvailableSlots]: the active bookings of the court
    whose [bookingDate] falls on the day of [date], by start time. *)
Definition bookingsOfDay (courtId : string) (date : Date) (db : Db)
  : list Booking.t :=
  let startOfDay := setHours date 0 0 0 0 in
  let endOfDay := setHours date 23 59 59 999 in
  orderByStartTimeAsc
    (booking_findMany
       (fun b =>
          String.eqb (Booking.courtId b) courtId
          && (startOfDay <=? Booking.bookingDate b)
          && (Booking.bookingDate b <=? endOfDay)
          && isActiveStatus (Booking.status b))
       db).

Definition getAvailableSlots (courtId : string) (date : Date) (db : Db)
  : list Slot.t :=
  let bookings := bookingsOfDay courtId date db in
  let dayStart := setHours date 6 0 0 0 in
  let dayEnd := setHours date 23 0 0 0 in
  slotsFrom bookings dayEnd dayStart.

(** The dashboard availability query: the answer for one window when both
    times are given ([inl available]), the slots of the day otherwise. *)
Definition checkAvailability (checkAvailabilityDto : CheckSlotDto.t) (db : Db)
  : bool + list Slot.t :=
  match CheckSlotDto.startTime checkAvailabilityDto,
        CheckSlotDto.endTime checkAvailabilityDto with
  | Some start, Some end_ =>
      inl (checkTimeSlotAvailability
             (CheckSlotDto.courtId checkAvailabilityDto) start end_ None db)
  | _, _ =>
      inr (getAvailableSlots (CheckSlotDto.courtId checkAvailabilityDto)
             (CheckSlotDto.date checkAvailabilityDto) db)
  end.

(** The [where] object of [findAll]. *)
Definition findAllWhere (userId : option string) (filters : BookingFilters.t)
  (b : Booking.t) : bool :=
  (if truthy userId
   then String.eqb (Booking.userId b) (orElse userId "") else true)
  && (if truthy (BookingFilters.courtId filters)
      then String.eqb (Booking.courtId b)
             (orElse (BookingFilters.courtId filters) "")
      else true)
  && (if truthy (BookingFilters.clientId filters)
      then match Booking.clientId b with
           | Some c => String.eqb c (orElse (BookingFilters.clientId filters) "")
           | None => false
           end
      else true)
  && (if truthy (BookingFilters.status filters)
      then String.eqb (BookingStatus_toString (Booking.status b))
             (orElse (BookingFilters.status filters) "")
      else true)
  && (match BookingFilters.dateFrom filters with
      | Some dateFrom => dateFrom <=? Booking.bookingDate b
      | None => true
      end)
  && (match BookingFilters.dateTo filters with
      | Some dateTo => Booking.bookingDate b <=? dateTo
      | None => true
      end).

Definition findAll (userId : option string) (filters : BookingFilters.t)
  (db : Db) : list Booking.t :=
  orderBy byDateThenStartDesc
    (booking_findMany (findAllWhere userId filters) db).

Definition remove (id userId : string) : Prisma string :=
  booking <- query (booking_findUnique id) ;;
  match booking with
  | None => throw (NotFoundException "Reserva no encontrada")
  | Some booking =>
  throwIf (negb (String.eqb (Booking.userId booking) userId))
    (ForbiddenException "No tienes permiso para eliminar esta reserva") ;;
  booking_delete id ;;
  ret "Reserva eliminada exitosamente"
  end.

(** The [where] object of [getBookingStats]. *)
Definition statsWhere (userId : string) (dateFrom dateTo : option Date)
  (b : Booking.t) : bool :=
  String.eqb (Booking.userId b) userId
  && (match dateFrom with
      | Some dateFrom => dateFrom <=? Booking.bookingDate b
      | None => true
      end)
  && (match dateTo with
      | Some dateTo => Booking.bookingDate b <=? dateTo
      | None => true
      end).

Definition getBookingStats (userId : string) (dateFrom dateTo : option Date)
  (db : Db) : BookingStats.t :=
  let where_ := statsWhere userId dateFrom dateTo in
  let withStatus (status : BookingStatus) (b : Booking.t) :=
    where_ b
    && String.eqb (BookingStatus_toString (Booking.status b))
         (BookingStatus_toString status) in
  BookingStats.mk
    (booking_count where_ db)
    (booking_count (withStatus StatusPending) db)
    (booking_count (withStatus StatusConfirmed) db)
    (booking_count (withStatus StatusCancelled) db)
    (booking_count (withStatus StatusCompleted) db).

Definition getCourtBookings (courtId userId : string) (date : option Date)
  : Prisma (list Booking.t) :=
  court <- query (court_findUnique courtId) ;;
  match court with
  | None => throw (NotFoundException "Cancha no encontrada")
  | Some court =>
  throwIf (negb (String.eqb (Court.complexUserId court) userId))
    (ForbiddenException
       "No tienes permiso para ver las reservas de esta cancha") ;;
  query (fun db =>
           orderBy byDateThenStartAsc
             (booking_findMany
                (fun b =>
                   String.eqb (Booking.courtId b) courtId
                   && match date with
                      | Some targetDate =>
                          (setHours targetDate 0 0 0 0 <=? Booking.bookingDate b)
                          && (Booking.bookingDate b
                              <=? setHours targetDate 23 59 59 999)
                      | None => true
                      end)
                db))
  end.

End BookingsService.

(** ** CourtAvailabilityService (blackout blocks) *)

Module CreateCourtAvailabilityDto.
Record t := mk {
  courtId : string;
  startDate : Date;
  endDate : Date;
  startTime : option HHmm;
  endTime : option HHmm;
  reason : BlockReason }.
End CreateCourtAvailabilityDto.

(** [PartialType(CreateCourtAvailabilityDto)].  For the two times, [None]
    is [undefined] and [Some None] is [null], which clears the column. *)
Module UpdateCourtAvailabilityDto.
Record t := mk {
  courtId : option string;
  startDate : option Date;
  endDate : option Date;
  startTime : option (option HHmm);
  endTime : option (option HHmm);
  reason : option BlockReason }.
End UpdateCourtAvailabilityDto.

Module CheckAvailabilityDto.
Record t := mk {
  courtId : string;
  date : Date;
  startTime : HHmm;
  endTime : HHmm }.
End CheckAvailabilityDto.

(** The object returned by [CourtAvailabilityService.checkAvailability]. *)
Module AvailabilityCheck.
Record t := mk {
  available : bool;
  message : string;
  reason : option BlockReason;
  blockId : option string;
  blockedFrom : option HHmm;
  blockedTo : option HHmm }.
End AvailabilityCheck.

Definition join {A} (o : option (option A)) : option A :=
  match o with Some (Some a) => Some a | _ => None end.

Module CourtAvailabilityService.

Definition create (userId : string) (createDto : CreateCourtAvailabilityDto.t)
  (uuid : string) : Prisma Block.t :=
  court <- query (court_findUnique (CreateCourtAvailabilityDto.courtId createDto)) ;;
  match court with
  | None =>
      throw (NotFoundException
               ("Cancha con ID " ++ CreateCourtAvailabilityDto.courtId createDto
                ++ " no encontrada"))
  | Some court =>
  throwIf (negb (String.eqb (Court.complexUserId court) userId))
    (ForbiddenException "No tienes permiso para bloquear esta cancha") ;;
  let startDate := CreateCourtAvailabilityDto.startDate createDto in
  let endDate := CreateCourtAvailabilityDto.endDate createDto in
  throwIf (endDate <? startDate)
    (BadRequestException
       "La fecha de fin debe ser posterior a la fecha de inicio") ;;
  match CreateCourtAvailabilityDto.startTime createDto,
        CreateCourtAvailabilityDto.endTime createDto with
  | Some startTime, Some endTime =>
      let startMinutes := hour startTime * 60 + minute startTime in
      let endMinutes := hour endTime * 60 + minute endTime in
      throwIf (endMinutes <=? startMinutes)
        (BadRequestException
           "La hora de fin debe ser posterior a la hora de inicio")
  | _, _ => ret tt
  end ;;
  courtAvailability_create
    (Block.mk uuid
       (CreateCourtAvailabilityDto.courtId createDto)
       startDate endDate
       (CreateCourtAvailabilityDto.startTime createDto)
       (CreateCourtAvailabilityDto.endTime createDto)
       (CreateCourtAvailabilityDto.reason createDto)
       defaultIsActive
       userId)
  end.

Definition findOne (id userId : string) : Prisma Block.t :=
  availability <- query (courtAvailability_findUnique id) ;;
  match availability with
  | None =>
      throw (NotFoundException ("Bloqueo con ID " ++ id ++ " no encontrado"))
  | Some availability =>
  court <- query (court_findUnique (Block.courtId availability)) ;;
  match court with
  | None => throw InternalServerError
  | Some court =>
  throwIf (negb (String.eqb (Court.complexUserId court) userId))
    (ForbiddenException "No tienes permiso para ver este bloqueo") ;;
  ret availability
  end end.

(** The [data] object of [update]: dates and reason are copied when
    truthy, the times whenever they are not [undefined]. *)
Definition updateData (updateDto : UpdateCourtAvailabilityDto.t)
  (b : Block.t) : Block.t :=
  Block.mk (Block.id b) (Block.courtId b)
    (orElse (UpdateCourtAvailabilityDto.startDate updateDto) (Block.startDate b))
    (orElse (UpdateCourtAvailabilityDto.endDate updateDto) (Block.endDate b))
    (orElse (UpdateCourtAvailabilityDto.startTime updateDto) (Block.startTime b))
    (orElse (UpdateCourtAvailabilityDto.endTime updateDto) (Block.endTime b))
    (orElse (UpdateCourtAvailabilityDto.reason updateDto) (Block.reason b))
    (Block.isActive b) (Block.userId b).

Definition update (id userId : string)
  (updateDto : UpdateCourtAvailabilityDto.t) : Prisma Block.t :=
  findOne id userId ;;
  match UpdateCourtAvailabilityDto.startDate updateDto,
        UpdateCourtAvailabilityDto.endDate updateDto with
  | Some startDate, Some endDate =>
      throwIf (endDate <? startDate)
        (BadRequestException
           "La fecha de fin debe ser posterior a la fecha de inicio")
  | _, _ => ret tt
  end ;;
  match join (UpdateCourtAvailabilityDto.startTime updateDto),
        join (UpdateCourtAvailabilityDto.endTime updateDto) with
  | Some startTime, Some endTime =>
      let startMinutes := hour startTime * 60 + minute startTime in
      let endMinutes := hour endTime * 60 + minute endTime in
      throwIf (endMinutes <=? startMinutes)
        (BadRequestException
           "La hora de fin debe ser posterior a la hora de inicio")
  | _, _ => ret tt
  end ;;
  courtAvailability_update id (updateData updateDto).

Definition toggleActive (id userId : string) : Prisma Block.t :=
  availability <- findOne id userId ;;
  courtAvailability_update id
    (fun b =>
       Block.mk (Block.id b) (Block.courtId b) (Block.startDate b)
         (Block.endDate b) (Block.startTime b) (Block.endTime b)
         (Block.reason b) (negb (Block.isActive availability))
         (Block.userId b)).

Definition checkAvailability (checkDto : CheckAvailabilityDto.t) (db : Db)
  : AvailabilityCheck.t :=
  let courtId := CheckAvailabilityDto.courtId checkDto in
  let bookingDate := CheckAvailabilityDto.date checkDto in
  let blocks :=
    courtAvailability_findMany (activeBlockWhere courtId bookingDate) db in
  let availableResult :=
    AvailabilityCheck.mk true "Cancha disponible" None None None None in
  if (Z.of_nat (List.length blocks) =? 0) then availableResult
  else
    let reqStartMinutes :=
      hour (CheckAvailabilityDto.startTime checkDto) * 60
      + minute (CheckAvailabilityDto.startTime checkDto) in
    let reqEndMinutes :=
      hour (CheckAvailabilityDto.endTime checkDto) * 60
      + minute (CheckAvailabilityDto.endTime checkDto) in
    match findBlocking blocks reqStartMinutes reqEndMinutes with
    | None => availableResult
    | Some block =>
        match Block.startTime block, Block.endTime block with
        | Some blockStart, Some blockEnd =>
            AvailabilityCheck.mk false
              ("Cancha bloqueada de " ++ HHmm_toString blockStart ++ " a "
               ++ HHmm_toString blockEnd ++ ": "
               ++ BlockReason_toString (Block.reason block))
              (Some (Block.reason block)) (Some (Block.id block))
              (Some blockStart) (Some blockEnd)
        | _, _ =>
            AvailabilityCheck.mk false
              ("Cancha bloqueada: " ++ BlockReason_toString (Block.reason block))
              (Some (Block.reason block)) (Some (Block.id block)) None None
        end
    end.

(** The [where] object of [findAll]: the blocks of the courts of the
    complexes of [userId]. *)
Definition findAllWhere (userId : string) (courtId : option string)
  (isActive : option bool) (db : Db) (b : Block.t) : bool :=
  match court_findUnique (Block.courtId b) db with
  | Some court => String.eqb (Court.complexUserId court) userId
  | None => false
  end
  && (if truthy courtId
      then String.eqb (Block.courtId b) (orElse courtId "") else true)
  && (match isActive with
      | Some flag => Bool.eqb (Block.isActive b) flag
      | None => true
      end).

Definition findAll (userId : string) (courtId : option string)
  (isActive : option bool) (db : Db) : list Block.t :=
  orderBy (fun a b => Block.startDate b <=? Block.startDate a)
    (courtAvailability_findMany (findAllWhere userId courtId isActive db) db).

Definition remove (id userId : string) : Prisma string :=
  findOne id userId ;;
  courtAvailability_delete id ;;
  ret "Bloqueo eliminado exitosamente".

(** The [where] object of [getActiveBlocks]. *)
Definition activeBlocksWhere (courtId : string) (start end_ : Date)
  (b : Block.t) : bool :=
  String.eqb (Block.courtId b) courtId
  && Block.isActive b
  && (((start <=? Block.startDate b) && (Block.startDate b <=? end_))
      || ((start <=? Block.endDate b) && (Block.endDate b <=? end_))
      || ((Block.startDate b <=? start) && (end_ <=? Block.endDate b))).

Definition getActiveBlocks (courtId : string) (startDate endDate : Date)
  (db : Db) : list Block.t :=
  orderBy (fun a b => Block.startDate a <=? Block.startDate b)
    (courtAvailability_findMany (activeBlocksWhere courtId startDate endDate) db).

End CourtAvailabilityService.

(** ** PublicCourtsController (public slot listing) *)

(** A cell of the public calendar, labelled by [HH:mm] times. *)
Module PublicSlot.
Record t := mk {
  startTime : HHmm;
  endTime : HHmm;
  available : bool;
  reason : option string }.
End PublicSlot.

Definition zero_lt_one : 0 < 1 := eq_refl.
Definition zero_lt_thirty : 0 < 30 := eq_refl.

Module PublicCourtsController.

(** The body of the two nested loops: the cell of [hour] and [minute]. *)
Definition slotAt (date : Date) (bookings : list Booking.t)
  (blocks : list Block.t) (hour minute : Z) : PublicSlot.t :=
  let slotStart := setHours date hour minute 0 0 in
  let slotEnd := setMinutes slotStart (getMinutes slotStart + 30) in
  let startTime := mkHHmm hour minute in
  let endMinute := minute + 30 in
  let endHour := if endMinute >=? 60 then hour + 1 else hour in
  let endTime := mkHHmm endHour (endMinute mod 60) in
  let slotStartMinutes := hour * 60 + minute in
  let slotEndMinutes := slotStartMinutes + 30 in
  match findBlocking blocks slotStartMinutes slotEndMinutes with
  | Some block =>
      PublicSlot.mk startTime endTime false
        (Some ("Bloqueado: " ++ BlockReason_toString (Block.reason block)))
  | None =>
      if existsb
           (fun booking =>
              let bookingStart := Booking.startTime booking in
              let bookingEnd := Booking.endTime booking in
              ((slotStart >=? bookingStart) && (slotStart <? bookingEnd))
              || ((slotEnd >? bookingStart) && (slotEnd <=? bookingEnd))
              || ((slotStart <=? bookingStart) && (slotEnd >=? bookingEnd)))
           bookings
      then PublicSlot.mk startTime endTime false (Some "Reserva existente")
      else PublicSlot.mk startTime endTime true None
  end.

Definition getAvailableSlots (courtId : string) (date : Date)
  : Prisma (list PublicSlot.t) :=
  court <- query (court_findUnique courtId) ;;
  match court with
  | None =>
      throw (NotFoundException ("Cancha con ID " ++ courtId ++ " no encontrada"))
  | Some court =>
  let startOfDay := setHours date 0 0 0 0 in
  let endOfDay := setHours date 23 59 59 999 in
  bookings <- query (booking_findMany
                       (fun b =>
                          String.eqb (Booking.courtId b) courtId
                          && (startOfDay <=? Booking.bookingDate b)
                          && (Booking.bookingDate b <=? endOfDay)
                          && isActiveStatus (Booking.status b))) ;;
  blocks <- query (courtAvailability_findMany
                     (activeBlockWhere courtId startOfDay)) ;;
  ret (forLoop 6 23 1 zero_lt_one
         (fun hour =>
            forLoop 0 60 30 zero_lt_thirty
              (fun minute => [slotAt date bookings blocks hour minute])))
  end.

(** The public availability query; of the returned object the court
    summary is left out. *)
Definition checkAvailability (courtId : string) (date : Date)
  (startTime endTime : HHmm) (checkBookings : option string)
  : Prisma AvailabilityCheck.t :=
  court <- query (court_findUnique courtId) ;;
  match court with
  | None =>
      throw (NotFoundException ("Cancha con ID " ++ courtId ++ " no encontrada"))
  | Some court =>
  if negb (Court.isActive court)
  then ret (AvailabilityCheck.mk false
              "Esta cancha no está disponible actualmente" None None None None)
  else
  availabilityCheck <-
    query (CourtAvailabilityService.checkAvailability
             (CheckAvailabilityDto.mk courtId date startTime endTime)) ;;
  if negb (AvailabilityCheck.available availabilityCheck)
  then ret availabilityCheck
  else
  conflict <-
    (if match checkBookings with
        | Some text => String.eqb text "true"
        | None => false
        end
     then
       let bookingDate := date in
       let startDateTime :=
         setHours bookingDate (hour startTime) (minute startTime) 0 0 in
       let endDateTime :=
         setHours bookingDate (hour endTime) (minute endTime) 0 0 in
       conflictingBookings <-
         query (booking_count
                  (fun b =>
                     String.eqb (Booking.courtId b) courtId
                     && isActiveStatus (Booking.status b)
                     && timeOverlapWhere startDateTime endDateTime b)) ;;
       ret (0 <? conflictingBookings)
     else ret false) ;;
  if (conflict : bool)
  then ret (AvailabilityCheck.mk false "Ya hay una reserva en este horario"
              None None None None)
  else ret (AvailabilityCheck.mk true "Cancha disponible" None None None None)
  end.

End PublicCourtsController.

(** ** PublicBookingsController (bookings from the native app) *)

Module CreatePublicBookingDto.
Record t := mk {
  courtId : string;
  date : Date;
  startTime : HHmm;
  endTime : HHmm;
  isAppNative : bool;
  userId : option string;
  clientId : option string }.
End CreatePublicBookingDto.

Module QueryPublicBookingsDto.
Record t := mk {
  courtId : option string;
  date : option Date;
  startTime : option HHmm;
  endTime : option HHmm;
  status : option BookingStatus;
  page : option Z;
  limit : option Z }.
End QueryPublicBookingsDto.

(** The page of bookings that [queryBookings] returns. *)
Module BookingsPage.
Record t := mk {
  data : list Booking.t;
  page : Z;
  limit : Z;
  total : Z;
  totalPages : Z }.
End BookingsPage.

(** [n || d] on an optional number: [undefined] and 0 give [d]. *)
Definition orDefault (n : option Z) (d : Z) : Z :=
  match n with
  | Some n => if n =? 0 then d else n
  | None => d
  end.

(** [Math.ceil(a / b)]. *)
Definition ceilDiv (a b : Z) : Z := - ((- a) / b).

Module PublicBookingsController.

Definition createBooking (dto : CreatePublicBookingDto.t) (uuid : string)
  : Prisma Booking.t :=
  court <- query (court_findUnique (CreatePublicBookingDto.courtId dto)) ;;
  match court with
  | None => throw (NotFoundException "Cancha no encontrada")
  | Some court =>
  throwIf (negb (Court.isActive court))
    (BadRequestException "La cancha no está activa") ;;
  let bookingDate := CreatePublicBookingDto.date dto in
  let startDateTime :=
    setHours bookingDate (hour (CreatePublicBookingDto.startTime dto))
      (minute (CreatePublicBookingDto.startTime dto)) 0 0 in
  let endDateTime :=
    setHours bookingDate (hour (CreatePublicBookingDto.endTime dto))
      (minute (CreatePublicBookingDto.endTime dto)) 0 0 in
  let duration := (endDateTime - startDateTime) / (1000 * 60) in
  throwIf (duration <=? 0)
    (BadRequestException
       "La hora de fin debe ser posterior a la hora de inicio") ;;
  availabilityCheck <-
    query (CourtAvailabilityService.checkAvailability
             (CheckAvailabilityDto.mk
                (CreatePublicBookingDto.courtId dto)
                (CreatePublicBookingDto.date dto)
                (CreatePublicBookingDto.startTime dto)
                (CreatePublicBookingDto.endTime dto))) ;;
  throwIf (negb (AvailabilityCheck.available availabilityCheck))
    (BadRequestException
       ("Cancha no disponible: "
        ++ AvailabilityCheck.message availabilityCheck)) ;;
  conflictingBookings <-
    query (booking_findMany
             (fun b =>
                String.eqb (Booking.courtId b)
                  (CreatePublicBookingDto.courtId dto)
                && isActiveStatus (Booking.status b)
                && timeOverlapWhere startDateTime endDateTime b)) ;;
  throwIf (0 <? Z.of_nat (List.length conflictingBookings))
    (BadRequestException "Ya existe una reserva en ese horario") ;;
  ids <-
    (if CreatePublicBookingDto.isAppNative dto
     then
       throwIf (negb (truthy (CreatePublicBookingDto.userId dto)))
         (BadRequestException
            "userId es requerido para reservas desde app nativa") ;;
       ret (orElse (CreatePublicBookingDto.userId dto) "",
            if truthy (CreatePublicBookingDto.clientId dto)
            then CreatePublicBookingDto.clientId dto else None)
     else
       throwIf (negb (truthy (CreatePublicBookingDto.clientId dto)))
         (BadRequestException
            "clientId es requerido para reservas desde dashboard") ;;
       ret (if truthy (CreatePublicBookingDto.userId dto)
            then orElse (CreatePublicBookingDto.userId dto) ""
            else Court.complexUserId court,
            CreatePublicBookingDto.clientId dto)) ;;
  let finalUserId := fst ids in
  let finalClientId := snd ids in
  booking_create
    (Booking.mk uuid bookingDate startDateTime endDateTime duration
       StatusPending PaymentPending
       (CreatePublicBookingDto.courtId dto)
       (if truthy finalClientId then finalClientId else None)
       finalUserId)
  end.

(** The [where] object of [queryBookings]. *)
Definition queryWhere (query_ : QueryPublicBookingsDto.t) (b : Booking.t)
  : bool :=
  (match QueryPublicBookingsDto.status query_ with
   | Some status =>
       String.eqb (BookingStatus_toString (Booking.status b))
         (BookingStatus_toString status)
   | None => isActiveStatus (Booking.status b)
   end)
  && (if truthy (QueryPublicBookingsDto.courtId query_)
      then String.eqb (Booking.courtId b)
             (orElse (QueryPublicBookingsDto.courtId query_) "")
      else true)
  && (match QueryPublicBookingsDto.date query_ with
      | Some date =>
          (setHours date 0 0 0 0 <=? Booking.bookingDate b)
          && (Booking.bookingDate b <=? setHours date 23 59 59 999)
      | None => true
      end)
  && (match QueryPublicBookingsDto.startTime query_,
            QueryPublicBookingsDto.date query_ with
      | Some t, Some date =>
          setHours date (hour t) (minute t) 0 0 <=? Booking.startTime b
      | _, _ => true
      end)
  && (match QueryPublicBookingsDto.endTime query_,
            QueryPublicBookingsDto.date query_ with
      | Some t, Some date =>
          Booking.endTime b <=? setHours date (hour t) (minute t) 0 0
      | _, _ => true
      end).

Definition queryBookings (query_ : QueryPublicBookingsDto.t) (db : Db)
  : BookingsPage.t :=
  let page := orDefault (QueryPublicBookingsDto.page query_) 1 in
  let limit := orDefault (QueryPublicBookingsDto.limit query_) 10 in
  let skip := (page - 1) * limit in
  let total := booking_count (queryWhere query_) db in
  let bookings :=
    skipTake skip limit
      (orderBy byDateThenStartAsc (booking_findMany (queryWhere query_) db)) in
  BookingsPage.mk bookings page limit total (ceilDiv total limit).

Definition getBookingsByCourt (courtId : string)
  (startDate endDate : option Date) (db : Db) : list Booking.t :=
  orderBy byDateThenStartAsc
    (booking_findMany
       (fun b =>
          String.eqb (Booking.courtId b) courtId
          && isActiveStatus (Booking.status b)
          && match startDate, endDate with
             | Some startDate, Some endDate =>
                 (startDate <=? Booking.bookingDate b)
                 && (Booking.bookingDate b <=? endDate)
             | _, _ => true
             end)
       db).

End PublicBookingsController.

(** ** Vocabulary of the properties *)

(** A list of cells [(start, end)] tiles the window
    [[windowStart, windowEnd)] with [count] cells of [width]: the first
    cell starts at [windowStart], every cell starts where the previous one
    ends, every cell is [width] long, the last one ends at [windowEnd], and
    no cell ends after [windowEnd]. *)
Definition Tiles (width windowStart windowEnd : Z) (count : nat)
  (cells : list (Z * Z)) : Prop :=
  List.length cells = count
  /\ option_map fst (hd_error cells) = Some windowStart
  /\ (forall i a b,
        nth_error cells i = Some a -> nth_error cells (S i) = Some b ->
        fst b = snd a)
  /\ Forall (fun c => snd c = fst c + width) cells
  /\ snd (last cells (windowStart, windowStart)) = windowEnd
  /\ Forall (fun c => snd c <= windowEnd) cells.

Definition slotCell (s : Slot.t) : Z * Z := (Slot.startTime s, Slot.endTime s).

Definition publicSlotCell (s : PublicSlot.t) : Z * Z :=
  (toMinutes (PublicSlot.startTime s), toMinutes (PublicSlot.endTime s)).

(** The cells [(start + width * k, start + width * (k + 1))], [k < n]. *)
Definition grid (start width : Z) (n : nat) : list (Z * Z) :=
  map (fun k => (start + width * Z.of_nat k, start + width * (Z.of_nat k + 1)))
      (seq 0 n).

(** The row that [cancelBooking] writes for a booking. *)
Definition cancelledRow (b : Booking.t) : Booking.t :=
  Booking.mk (Booking.id b) (Booking.bookingDate b) (Booking.startTime b)
    (Booking.endTime b) (Booking.duration b) StatusCancelled
    (match Booking.paymentStatus b with
     | PaymentPaid => PaymentRefunded
     | _ => PaymentPending
     end)
    (Booking.courtId b) (Booking.clientId b) (Booking.userId b).

(** The database with one more booking row. *)
Definition withNewBooking (db : Db) (row : Booking.t) : Db :=
  mkDb (courts db) (clients db) (bookings db ++ [row]) (courtAvailabilities db).

(** The outcome of a creation is a booking stored as pending, with a
    pending payment. *)
Definition CreatedAsPending (r : (HttpException + Booking.t) * Db) : Prop :=
  match fst r with
  | inr row =>
      Booking.status row = StatusPending
      /\ Booking.paymentStatus row = PaymentPending
  | inl _ => True
  end.

(** The outcome is a rejection with the conflict error. *)
Definition SignalsConflict {A} (r : (HttpException + A) * Db) : Prop :=
  exists message, fst r = inl (ConflictException message).

(** The window of a public creation: [startDateTime] and [endDateTime]. *)
Definition publicStart (dto : CreatePublicBookingDto.t) : Date :=
  setHours (CreatePublicBookingDto.date dto)
    (hour (CreatePublicBookingDto.startTime dto))
    (minute (CreatePublicBookingDto.startTime dto)) 0 0.

Definition publicEnd (dto : CreatePublicBookingDto.t) : Date :=
  setHours (CreatePublicBookingDto.date dto)
    (hour (CreatePublicBookingDto.endTime dto))
    (minute (CreatePublicBookingDto.endTime dto)) 0 0.

(** The first check of the public creation, on the blocks. *)
Definition publicBlockCheck (dto : CreatePublicBookingDto.t) (db : Db)
  : AvailabilityCheck.t :=
  CourtAvailabilityService.checkAvailability
    (CheckAvailabilityDto.mk
       (CreatePublicBookingDto.courtId dto)
       (CreatePublicBookingDto.date dto)
       (CreatePublicBookingDto.startTime dto)
       (CreatePublicBookingDto.endTime dto)) db.

(** The [where] object of the second check, on the bookings. *)
Definition publicConflictWhere (dto : CreatePublicBookingDto.t)
  (b : Booking.t) : bool :=
  String.eqb (Booking.courtId b) (CreatePublicBookingDto.courtId dto)
  && isActiveStatus (Booking.status b)
  && timeOverlapWhere (publicStart dto) (publicEnd dto) b.

(** The two availability checks of the public creation, together. *)
Definition publicAvailable (dto : CreatePublicBookingDto.t) (db : Db) : bool :=
  AvailabilityCheck.available (publicBlockCheck dto db)
  && negb (existsb (publicConflictWhere dto) (bookings db)).

(** [where: { id }] on the bookings. *)
Definition hasId (id : string) (b : Booking.t) : bool :=
  String.eqb (Booking.id b) id.

(** The row that the dashboard creation stores. *)
Definition dashboardRow (userId : string) (dto : CreateBookingDto.t)
  (uuid : string) : Booking.t :=
  Booking.mk uuid
    (CreateBookingDto.bookingDate dto)
    (CreateBookingDto.startTime dto)
    (CreateBookingDto.endTime dto)
    (CreateBookingDto.duration dto)
    (orElse (CreateBookingDto.status dto) StatusPending)
    (orElse (CreateBookingDto.paymentStatus dto) PaymentPending)
    (CreateBookingDto.courtId dto)
    (Some (CreateBookingDto.clientId dto))
    userId.

(** The identifiers that the public creation needs: the user for a
    booking of the native app, the client otherwise. *)
Definition publicIdsGiven (dto : CreatePublicBookingDto.t) : bool :=
  if CreatePublicBookingDto.isAppNative dto
  then truthy (CreatePublicBookingDto.userId dto)
  else truthy (CreatePublicBookingDto.clientId dto).

(** The row that the public creation stores for a court. *)
Definition publicRow (dto : CreatePublicBookingDto.t) (uuid : string)
  (court : Court.t) : Booking.t :=
  Booking.mk uuid (CreatePublicBookingDto.date dto)
    (publicStart dto) (publicEnd dto)
    ((publicEnd dto - publicStart dto) / (1000 * 60))
    StatusPending PaymentPending
    (CreatePublicBookingDto.courtId dto)
    (if truthy (CreatePublicBookingDto.clientId dto)
     then CreatePublicBookingDto.clientId dto else None)
    (if CreatePublicBookingDto.isAppNative dto
     then orElse (CreatePublicBookingDto.userId dto) ""
     else if truthy (CreatePublicBookingDto.userId dto)
          then orElse (CreatePublicBookingDto.userId dto) ""
          else Court.complexUserId court).

(** *** Conflicts *)

Definition ActiveBooking (b : Booking.t) : Prop :=
  Booking.status b = StatusPending \/ Booking.status b = StatusConfirmed.

(** Some active booking of the court, other than the excluded one,
    overlaps the half-open window [[s, e)]. *)
Definition BookingConflict (db : Db) (courtId : string) (s e : Date)
  (exclude : option string) : Prop :=
  exists b : Booking.t,
    In b (bookings db)
    /\ Booking.courtId b = courtId
    /\ ActiveBooking b
    /\ exclude <> Some (Booking.id b)
    /\ Booking.startTime b < e /\ s < Booking.endTime b.

(** Some active block of the court, whose inclusive date range contains
    the day of [s], has no time bounds, or has time bounds that overlap
    the window in minutes since midnight. *)
Definition BlackoutConflict (db : Db) (courtId : string) (s e : Date) : Prop :=
  exists k : Block.t,
    In k (courtAvailabilities db)
    /\ Block.courtId k = courtId
    /\ Block.isActive k = true
    /\ Block.startDate k <= setHours s 0 0 0 0 <= Block.endDate k
    /\ ((Block.startTime k = None \/ Block.endTime k = None)
        \/ exists blockStart blockEnd : HHmm,
            Block.startTime k = Some blockStart
            /\ Block.endTime k = Some blockEnd
            /\ toMinutes blockStart < minutesOfDay e
            /\ minutesOfDay s < toMinutes blockEnd).

(** The availability check answers false exactly on a conflict. *)
Definition AvailabilityClaim (db : Db) (courtId : string) (s e : Date)
  (exclude : option string) : Prop :=
  BookingsService.checkTimeSlotAvailability courtId s e exclude db = false
  <-> BookingConflict db courtId s e exclude \/ BlackoutConflict db courtId s e.

(** *** Invariants of the stored rows *)

Definition OrderedBooking (b : Booking.t) : Prop :=
  Booking.startTime b < Booking.endTime b.

Definition OrderedDates (k : Block.t) : Prop :=
  Block.startDate k <= Block.endDate k.

Definition OrderedTimes (k : Block.t) : Prop :=
  forall blockStart blockEnd : HHmm,
    Block.startTime k = Some blockStart ->
    Block.endTime k = Some blockEnd ->
    toMinutes blockStart < toMinutes blockEnd.

Definition BlockInvariant (k : Block.t) : Prop :=
  OrderedDates k /\ OrderedTimes k.

(** No court holds two active bookings with overlapping windows. *)
Definition NoDoubleBooking (db : Db) : Prop :=
  forall a b : Booking.t,
    In a (bookings db) -> In b (bookings db) ->
    Booking.id a <> Booking.id b ->
    Booking.courtId a = Booking.courtId b ->
    ActiveBooking a -> ActiveBooking b ->
    overlaps (Booking.startTime a) (Booking.endTime a)
      (Booking.startTime b) (Booking.endTime b) = false.

(** The test on one block inside the loop of the availability checks. *)
Definition blocksWindow (reqStartMinutes reqEndMinutes : Z) (k : Block.t) : bool :=
  match Block.startTime k, Block.endTime k with
  | Some blockStart, Some blockEnd =>
      hasOverlap reqStartMinutes reqEndMinutes
        (toMinutes blockStart) (toMinutes blockEnd)
  | _, _ => true
  end.

(** *** Runs of operations *)

Definition bookingIds (db : Db) : list string := map Booking.id (bookings db).

Definition blockIds (db : Db) : list string :=
  map Block.id (courtAvailabilities db).

(** An update of a booking that carries neither a status nor a court. *)
Definition WindowOnly (dto : UpdateBookingDto.t) : Prop :=
  UpdateBookingDto.status dto = None /\ UpdateBookingDto.courtId dto = None.

Definition AnyUpdate (dto : UpdateBookingDto.t) : Prop := True.

(** One successful operation on the bookings; a creation receives an
    identifier that no stored booking has, and an update is one that
    [allowed] admits. *)
Inductive BookingStep (allowed : UpdateBookingDto.t -> Prop) : Db -> Db -> Prop :=
| StepCreate (userId : string) (dto : CreateBookingDto.t) (uuid : string)
    (db db' : Db) (row : Booking.t) :
    ~ In uuid (bookingIds db) ->
    BookingsService.create userId dto uuid db = (inr row, db') ->
    BookingStep allowed db db'
| StepPublicCreate (dto : CreatePublicBookingDto.t) (uuid : string)
    (db db' : Db) (row : Booking.t) :
    ~ In uuid (bookingIds db) ->
    PublicBookingsController.createBooking dto uuid db = (inr row, db') ->
    BookingStep allowed db db'
| StepUpdate (id userId : string) (dto : UpdateBookingDto.t)
    (db db' : Db) (row : Booking.t) :
    allowed dto ->
    BookingsService.update id userId dto db = (inr row, db') ->
    BookingStep allowed db db'
| StepCancel (id userId : string) (db db' : Db) (row : Booking.t) :
    BookingsService.cancelBooking id userId db = (inr row, db') ->
    BookingStep allowed db db'
| StepRemove (id userId : string) (db db' : Db) (message : string) :
    BookingsService.remove id userId db = (inr message, db') ->
    BookingStep allowed db db'.

(** Any number of successful operations, one after the other. *)
Inductive BookingRun (allowed : UpdateBookingDto.t -> Prop) : Db -> Db -> Prop :=
| RunDone (db : Db) : BookingRun allowed db db
| RunStep (db db' db'' : Db) :
    BookingRun allowed db db' ->
    BookingStep allowed db' db'' ->
    BookingRun allowed db db''.

(** An update of a block that carries both dates or none, and that does
    not carry one time without the other. *)
Definition WholeFields (dto : UpdateCourtAvailabilityDto.t) : Prop :=
  (isSome (UpdateCourtAvailabilityDto.startDate dto)
   = isSome (UpdateCourtAvailabilityDto.endDate dto))
  /\ (isSome (UpdateCourtAvailabilityDto.startTime dto)
      = isSome (UpdateCourtAvailabilityDto.endTime dto)).

Inductive BlockStep : Db -> Db -> Prop :=
| BlockCreate (userId : string) (dto : CreateCourtAvailabilityDto.t)
    (uuid : string) (db db' : Db) (row : Block.t) :
    ~ In uuid (blockIds db) ->
    CourtAvailabilityService.create userId dto uuid db = (inr row, db') ->
    BlockStep db db'
| BlockUpdate (id userId : string) (dto : UpdateCourtAvailabilityDto.t)
    (db db' : Db) (row : Block.t) :
    WholeFields dto ->
    CourtAvailabilityService.update id userId dto db = (inr row, db') ->
    BlockStep db db'
| BlockToggle (id userId : string) (db db' : Db) (row : Block.t) :
    CourtAvailabilityService.toggleActive id userId db = (inr row, db') ->
    BlockStep db db'
| BlockRemove (id userId : string) (db db' : Db) (message : string) :
    CourtAvailabilityService.remove id userId db = (inr message, db') ->
    BlockStep db db'.

Inductive BlockRun : Db -> Db -> Prop :=
| BlockRunDone (db : Db) : BlockRun db db
| BlockRunStep (db db' db'' : Db) :
    BlockRun db db' -> BlockStep db' db'' -> BlockRun db db''.

(** The outcome is a rejection with the forbidden error, and the database
    is as it was. *)
Definition Forbidden {A} (r : (HttpException + A) * Db) (db : Db) : Prop :=
  exists message, r = (inl (ForbiddenException message), db).

Definition NotFound {A} (r : (HttpException + A) * Db) (db : Db) : Prop :=
  exists message, r = (inl (NotFoundException message), db).

(** The database without the bookings of an id. *)
Definition withoutBooking (db : Db) (id : string) : Db :=
  mkDb (courts db) (clients db)
    (filter (fun x => negb (hasId id x)) (bookings db))
    (courtAvailabilities db).

(** The database without the blocks of an id. *)
Definition withoutBlock (db : Db) (id : string) : Db :=
  mkDb (courts db) (clients db) (bookings db)
    (filter (fun x => negb (String.eqb (Block.id x) id))
       (courtAvailabilities db)).

(** A list is in the order [le]. *)
Fixpoint InOrder {A : Type} (le : A -> A -> bool) (l : list A) : Prop :=
  match l with
  | [] => True
  | a :: rest => (forall x, In x rest -> le a x = true) /\ InOrder le rest
  end.

(** Two dates fall on the same local day. *)
Definition sameDay (a b : Date) : Prop :=
  setHours a 0 0 0 0 = setHours b 0 0 0 0.

(** The query [query_] asked for page [p]. *)
Definition withPage (query_ : QueryPublicBookingsDto.t) (p : Z)
  : QueryPublicBookingsDto.t :=
  QueryPublicBookingsDto.mk
    (QueryPublicBookingsDto.courtId query_)
    (QueryPublicBookingsDto.date query_)
    (QueryPublicBookingsDto.startTime query_)
    (QueryPublicBookingsDto.endTime query_)
    (QueryPublicBookingsDto.status query_)
    (Some p)
    (QueryPublicBookingsDto.limit query_).

(** The rows of the pages 1 to [totalPages] of [queryBookings], one page
    after the other. *)
Definition pagesOf (query_ : QueryPublicBookingsDto.t) (db : Db)
  : list Booking.t :=
  List.concat
    (map (fun p : nat =>
            BookingsPage.data
              (PublicBookingsController.queryBookings
                 (withPage query_ (Z.of_nat p + 1)) db))
         (seq 0 (Z.to_nat
                   (BookingsPage.totalPages
                      (PublicBookingsController.queryBookings query_ db))))).

(** The query without its two time filters. *)
Definition withoutTimes (query_ : QueryPublicBookingsDto.t)
  : QueryPublicBookingsDto.t :=
  QueryPublicBookingsDto.mk
    (QueryPublicBookingsDto.courtId query_)
    (QueryPublicBookingsDto.date query_)
    None None
    (QueryPublicBookingsDto.status query_)
    (QueryPublicBookingsDto.page query_)
    (QueryPublicBookingsDto.limit query_).

(** A block with its [isActive] flag set to [flag]. *)
Definition withActive (flag : bool) (b : Block.t) : Block.t :=
  Block.mk (Block.id b) (Block.courtId b) (Block.startDate b)
    (Block.endDate b) (Block.startTime b) (Block.endTime b)
    (Block.reason b) flag (Block.userId b).

(** The database with the blocks of an id rewritten by [g]. *)
Definition withBlocksUpdated (db : Db) (id : string)
  (g : Block.t -> Block.t) : Db :=
  mkDb (courts db) (clients db) (bookings db)
    (map (fun x => if String.eqb (Block.id x) id then g x else x)
       (courtAvailabilities db)).

(** An active booking of the court that is dated on the day of [date]. *)
Definition BookedOn (db : Db) (courtId : string) (date : Date)
  (b : Booking.t) : Prop :=
  In b (bookings db)
  /\ Booking.courtId b = courtId
  /\ ActiveBooking b
  /\ sameDay (Booking.bookingDate b) date.

(** The start of the slot of index [k] of the day of [date]; the slots
    start at 06:00 and are 30 minutes long. *)
Definition slotStartOf (date : Date) (k : nat) : Date :=
  setHours date 6 0 0 0 + 30 * msPerMinute * Z.of_nat k.

(** ** Sample data *)

Module Sample.

(** 2024-12-25, local midnight. *)
Definition day : Date := 1735084800000.

(** The instant [h:m] of [day]. *)
Definition at_ (h m : Z) : Date := day + h * msPerHour + m * msPerMinute.

Definition owner : string := "owner-1".
Definition court1 : Court.t := Court.mk "court-1" owner true.
Definition court2 : Court.t := Court.mk "court-2" owner true.
Definition client1 : Client.t := Client.mk "client-1" owner.

(** Two courts and a client of one owner, no booking, no block. *)
Definition emptyDb : Db := mkDb [court1; court2] [client1] [] [].

Definition booking (id : string) (startTime endTime : Date)
  (status : BookingStatus) : Booking.t :=
  Booking.mk id day startTime endTime
    ((endTime - startTime) / msPerMinute) status PaymentPending
    "court-1" (Some "client-1") owner.

Definition withBookings (l : list Booking.t) : Db :=
  mkDb [court1; court2] [client1] l [].

Definition block (id : string) (startDate endDate : Date)
  (startTime endTime : option HHmm) : Block.t :=
  Block.mk id "court-1" startDate endDate startTime endTime MAINTENANCE
    true owner.

Definition withBlocks (l : list Block.t) : Db :=
  mkDb [court1; court2] [client1] [] l.

Definition createDtoOn (courtId : string) (startTime endTime : Date)
  (status : option BookingStatus) (paymentStatus : option PaymentStatus)
  : CreateBookingDto.t :=
  CreateBookingDto.mk day startTime endTime
    ((endTime - startTime) / msPerMinute) status paymentStatus
    courtId "client-1".

Definition createDto := createDtoOn "court-1".

(** Court 1 with a pending booking from 14:00 to 15:00. *)
Definition bookedDb : Db :=
  withBookings [booking "booking-1" (at_ 14 0) (at_ 15 0) StatusPending].

(** Court 1 with a whole-day maintenance block on the sample day. *)
Definition blockedDb : Db := withBlocks [block "block-1" day day None None].

(** Court 1 with a block from 00:10 to 00:40 on the sample day. *)
Definition nightBlockDb : Db :=
  withBlocks
    [block "block-1" day day (Some (mkHHmm 0 10)) (Some (mkHHmm 0 40))].

Definition publicDto (startTime endTime : HHmm) : CreatePublicBookingDto.t :=
  CreatePublicBookingDto.mk "court-1" day startTime endTime true
    (Some "app-user-1") None.

(** A confirmed and paid booking, and court 1 with it. *)
Definition paidBooking : Booking.t :=
  Booking.mk "booking-1" day (at_ 14 0) (at_ 15 0) 60
    StatusConfirmed PaymentPaid "court-1" (Some "client-1") owner.

Definition paidDb : Db := withBookings [paidBooking].

(** An update of the status alone. *)
Definition statusUpdate (status : BookingStatus) : UpdateBookingDto.t :=
  UpdateBookingDto.mk None None None None (Some status) None None None.

(** An update of the court alone. *)
Definition courtUpdate (courtId : string) : UpdateBookingDto.t :=
  UpdateBookingDto.mk None None None None None None (Some courtId) None.

(** A maintenance block of court 1 from the sample day to five days
    later, from 10:00 to 12:00. *)
Definition blockDto : CreateCourtAvailabilityDto.t :=
  CreateCourtAvailabilityDto.mk "court-1" day (day + 5 * msPerDay)
    (Some (mkHHmm 10 0)) (Some (mkHHmm 12 0)) MAINTENANCE.

(** An update of the end date alone, to ten days before the sample day. *)
Definition endDateUpdate : UpdateCourtAvailabilityDto.t :=
  UpdateCourtAvailabilityDto.mk None None (Some (day - 10 * msPerDay))
    None None None.

(** An update of the end time alone, to 08:00. *)
Definition endTimeUpdate : UpdateCourtAvailabilityDto.t :=
  UpdateCourtAvailabilityDto.mk None None None None
    (Some (Some (mkHHmm 8 0))) None.

(** An update of the window alone. *)
Definition windowUpdate (startTime endTime : Date) : UpdateBookingDto.t :=
  UpdateBookingDto.mk None (Some startTime) (Some endTime) None None None
    None None.

(** The sample data after three operations: booking 1 is created from
    14:00 to 15:00, moved to 15:00-16:00 and cancelled. *)
Definition afterRun : Db :=
  Eval vm_compute in
    snd (BookingsService.cancelBooking "booking-1" owner
           (snd (BookingsService.update "booking-1" owner
                   (windowUpdate (at_ 15 0) (at_ 16 0))
                   (snd (BookingsService.create owner
                           (createDto (at_ 14 0) (at_ 15 0) None None)
                           "booking-1" emptyDb))))).

(** Court 1 with three bookings of the sample day: 14:00-15:00 pending,
    10:00-11:00 confirmed and 18:00-19:00 cancelled. *)
Definition threeBookingsDb : Db :=
  withBookings
    [booking "booking-1" (at_ 14 0) (at_ 15 0) StatusPending;
     booking "booking-2" (at_ 10 0) (at_ 11 0) StatusConfirmed;
     booking "booking-3" (at_ 18 0) (at_ 19 0) StatusCancelled].

(** The public query for the bookings of court 1. *)
Definition pageQuery (status : option BookingStatus) (page limit : option Z)
  : QueryPublicBookingsDto.t :=
  QueryPublicBookingsDto.mk (Some "court-1") None None None status page limit.

(** An update of both dates and both times of a block. *)
Definition wholeUpdate : UpdateCourtAvailabilityDto.t :=
  UpdateCourtAvailabilityDto.mk None (Some day) (Some (day + msPerDay))
    (Some (Some (mkHHmm 8 0))) (Some (Some (mkHHmm 9 30))) None.

(** The sample data after three operations on the blocks: block 1 is
    created, moved to two days from 08:00 to 09:30 and switched off. *)
Definition afterBlockRun : Db :=
  Eval vm_compute in
    snd (CourtAvailabilityService.toggleActive "block-1" owner
           (snd (CourtAvailabilityService.update "block-1" owner wholeUpdate
                   (snd (CourtAvailabilityService.create owner blockDto
                           "block-1" emptyDb))))).

End Sample.

(** ** Properties of the interval arithmetic *)

(** Case analysis on every integer comparison of the goal, then linear
    arithmetic. *)
Ltac zcases :=
  rewrite ?Z.geb_leb, ?Z.gtb_ltb;
  repeat match goal with
    | |- context [?a <=? ?b] => destruct (Z.leb_spec a b)
    | |- context [?a <? ?b] => destruct (Z.ltb_spec a b)
    | |- context [?a =? ?b] => destruct (Z.eqb_spec a b)
    end.
Ltac zbool := zcases; cbn; try reflexivity; try congruence; try lia.

(** C3: for well-formed intervals [aStart < aEnd] and [bStart < bEnd], the
    three-case disjunction of the services (which [hasOverlap] computes:
    b starts inside a, b ends inside a, b contains a) is equivalent to the
    symmetric half-open test [aStart < bEnd /\ bStart < aEnd] (which
    [overlaps] computes). *)
Theorem hasOverlap_three_cases_iff_half_open :
  forall aStart aEnd bStart bEnd : Z,
    aStart < aEnd -> bStart < bEnd ->
    (hasOverlap bStart bEnd aStart aEnd = true
     <-> (bStart >= aStart /\ bStart < aEnd)
         \/ (bEnd > aStart /\ bEnd <= aEnd)
         \/ (bStart <= aStart /\ bEnd >= aEnd))
    /\ ((bStart >= aStart /\ bStart < aEnd)
        \/ (bEnd > aStart /\ bEnd <= aEnd)
        \/ (bStart <= aStart /\ bEnd >= aEnd)
        <-> aStart < bEnd /\ bStart < aEnd)
    /\ hasOverlap bStart bEnd aStart aEnd = overlaps aStart aEnd bStart bEnd.
Proof.
  intros aStart aEnd bStart bEnd Ha Hb. split; [| split].
  - unfold hasOverlap. zcases; cbn; split; intros; try lia; congruence.
  - lia.
  - unfold hasOverlap, overlaps. zbool.
Qed.

(** Block 14:00-15:00 against request 14:30-15:30, in minutes. *)
Lemma hasOverlap_three_cases_witness :
  hasOverlap 870 930 840 900 = overlaps 840 900 870 930.
Proof.
  apply (hasOverlap_three_cases_iff_half_open 840 900 870 930); lia.
Defined.

(** The query form of the test is the same expression. *)
Lemma timeOverlapWhere_hasOverlap (startTime endTime : Date) (b : Booking.t) :
  timeOverlapWhere startTime endTime b
  = hasOverlap startTime endTime (Booking.startTime b) (Booking.endTime b).
Proof.
  unfold timeOverlapWhere, hasOverlap.
  now rewrite !Z.geb_leb, Z.gtb_ltb.
Qed.

Lemma hasOverlap_overlaps (reqStart reqEnd blockStart blockEnd : Z) :
  reqStart < reqEnd -> blockStart < blockEnd ->
  hasOverlap reqStart reqEnd blockStart blockEnd
  = overlaps blockStart blockEnd reqStart reqEnd.
Proof. intros. unfold hasOverlap, overlaps. zbool. Qed.

(** ** Dates *)

Lemma setMinutes_plus_30 (d : Date) :
  setMinutes d (getMinutes d + 30) = d + 30 * msPerMinute.
Proof. unfold setMinutes, msPerMinute. lia. Qed.

(** [getHours] and [getMinutes] read back the fields that [setHours]
    wrote. *)
Lemma minutesOfDay_setHours (d : Date) (h m : Z) :
  0 <= h < 24 -> 0 <= m < 60 ->
  minutesOfDay (setHours d h m 0 0) = h * 60 + m.
Proof.
  intros Hh Hm.
  unfold minutesOfDay, getHours, getMinutes, setHours,
    msPerDay, msPerHour, msPerMinute, msPerSecond.
  Z.to_euclidean_division_equations. lia.
Qed.

(** ** Lists *)

Lemma count_positive_existsb {A : Type} (f : A -> bool) (l : list A) :
  (0 <? Z.of_nat (List.length (filter f l))) = existsb f l.
Proof.
  induction l as [| a l IH]; cbn; [reflexivity |].
  destruct (f a); cbn [orb]; [| exact IH].
  cbn [List.length]. apply Z.ltb_lt. lia.
Qed.

Lemma isSome_find_existsb {A : Type} (f : A -> bool) (l : list A) :
  isSome (find f l) = existsb f l.
Proof.
  induction l as [| a l IH]; cbn; [reflexivity |].
  destruct (f a); [reflexivity | exact IH].
Qed.

Lemma find_all_false {A : Type} (f : A -> bool) (l : list A) :
  (forall x, In x l -> f x = false) -> find f l = None.
Proof.
  induction l as [| a l IH]; intros H; cbn; [reflexivity |].
  rewrite (H a (or_introl eq_refl)). apply IH. intros x Hx. apply H. now right.
Qed.

(** ** Loops in closed form *)

Lemma forLoop_step {A : Type} (from to step : Z) (H : 0 < step)
  (body : Z -> list A) :
  forLoop from to step H body =
  if from <? to
  then (body from ++ forLoop (from + step) to step H body)%list
  else [].
Proof.
  etransitivity; [apply forLoop_equation_1 |].
  destruct (Z_lt_dec from to), (Z.ltb_spec from to); cbn;
    try reflexivity; lia.
Qed.

(** A loop that runs [n] times visits [from], [from + step], ... *)
Lemma forLoop_iterations {A : Type} (to step : Z) (H : 0 < step)
  (body : Z -> list A) (n : nat) :
  forall from : Z,
    to <= from + step * Z.of_nat n ->
    from + step * (Z.of_nat n - 1) < to ->
    forLoop from to step H body
    = flat_map body (map (fun k => from + step * Z.of_nat k) (seq 0 n)).
Proof.
  induction n as [| n IH]; intros from Hhi Hlo; rewrite forLoop_step.
  - destruct (Z.ltb_spec from to); [lia | reflexivity].
  - destruct (Z.ltb_spec from to); [| lia].
    cbn [seq map flat_map]. f_equal.
    + f_equal. lia.
    + rewrite IH by lia. rewrite <- seq_shift, map_map.
      f_equal. apply map_ext. intros k. lia.
Qed.

Lemma slotsFrom_step (bookings : list Booking.t) (dayEnd currentTime : Date) :
  BookingsService.slotsFrom bookings dayEnd currentTime =
  if currentTime <? dayEnd
  then BookingsService.slotAt bookings currentTime
       :: BookingsService.slotsFrom bookings dayEnd
            (currentTime + 30 * msPerMinute)
  else [].
Proof.
  etransitivity; [apply BookingsService.slotsFrom_equation_1 |].
  destruct (Z_lt_dec currentTime dayEnd), (Z.ltb_spec currentTime dayEnd);
    cbn; rewrite ?setMinutes_plus_30; try reflexivity; lia.
Qed.

Lemma slotsFrom_iterations (bookings : list Booking.t) (dayEnd : Date)
  (n : nat) :
  forall currentTime : Date,
    dayEnd <= currentTime + 30 * msPerMinute * Z.of_nat n ->
    currentTime + 30 * msPerMinute * (Z.of_nat n - 1) < dayEnd ->
    BookingsService.slotsFrom bookings dayEnd currentTime
    = map (fun k => BookingsService.slotAt bookings
                      (currentTime + 30 * msPerMinute * Z.of_nat k))
          (seq 0 n).
Proof.
  unfold msPerMinute.
  induction n as [| n IH]; intros cur Hhi Hlo; rewrite slotsFrom_step;
    unfold msPerMinute.
  - destruct (Z.ltb_spec cur dayEnd); [lia | reflexivity].
  - destruct (Z.ltb_spec cur dayEnd); [| lia].
    cbn [seq map]. f_equal.
    + f_equal. lia.
    + rewrite IH by lia. rewrite <- seq_shift, map_map.
      apply map_ext. intros k. f_equal. lia.
Qed.

(** ** Slot tiling *)

Lemma grid_Tiles (start width : Z) (n : nat) :
  0 < width ->
  Tiles width start (start + width * Z.of_nat (S n)) (S n) (grid start width (S n)).
Proof.
  intros Hw. unfold Tiles, grid. repeat split.
  - now rewrite length_map, length_seq.
  - cbn. f_equal. lia.
  - intros i a b Ha Hb.
    rewrite nth_error_map, nth_error_seq in Ha, Hb.
    destruct (Nat.ltb_spec i (S n)); [| discriminate].
    destruct (Nat.ltb_spec (S i) (S n)); [| discriminate].
    cbn in Ha, Hb. injection Ha as <-. injection Hb as <-. cbn [fst snd]. lia.
  - apply Forall_map, Forall_forall. intros k _. cbn [fst snd]. lia.
  - rewrite seq_S, map_app. cbn [map]. rewrite last_last. cbn [snd]. lia.
  - apply Forall_map, Forall_forall. intros k Hk. apply in_seq in Hk.
    cbn [snd]. nia.
Qed.

(** The dashboard listing is the body of its loop on the 34 half hours
    from 06:00. *)
Lemma dashboard_slots_closed_form (courtId : string) (date : Date) (db : Db) :
  BookingsService.getAvailableSlots courtId date db
  = map (fun k =>
           BookingsService.slotAt
             (BookingsService.bookingsOfDay courtId date db)
             (setHours date 6 0 0 0 + 30 * msPerMinute * Z.of_nat k))
        (seq 0 34).
Proof.
  unfold BookingsService.getAvailableSlots.
  apply slotsFrom_iterations;
    unfold setHours, msPerHour, msPerMinute, msPerSecond; lia.
Qed.

Lemma dashboard_slot_cell (bookings : list Booking.t) (currentTime : Date) :
  slotCell (BookingsService.slotAt bookings currentTime)
  = (currentTime, currentTime + 30 * msPerMinute).
Proof.
  unfold slotCell, BookingsService.slotAt. cbn.
  now rewrite setMinutes_plus_30.
Qed.

Lemma dashboard_cells (courtId : string) (date : Date) (db : Db) :
  map slotCell (BookingsService.getAvailableSlots courtId date db)
  = grid (setHours date 6 0 0 0) (30 * msPerMinute) 34.
Proof.
  rewrite dashboard_slots_closed_form, map_map. unfold grid.
  apply map_ext. intros k. rewrite dashboard_slot_cell.
  f_equal. unfold msPerMinute. lia.
Qed.

(** The inner loop of the public listing runs for minutes 0 and 30. *)
Lemma public_minute_loop {A : Type} (cell : Z -> A) :
  forLoop 0 60 30 zero_lt_thirty (fun minute => [cell minute])
  = [cell 0; cell 30].
Proof. now rewrite (forLoop_iterations 60 30 _ _ 2). Qed.

(** The outer loop runs for the hours 6 to 22. *)
Lemma public_hour_loop {A : Type} (row : Z -> list A) :
  forLoop 6 23 1 zero_lt_one row
  = flat_map row [6; 7; 8; 9; 10; 11; 12; 13; 14; 15; 16; 17; 18; 19; 20; 21; 22].
Proof. now rewrite (forLoop_iterations 23 1 _ _ 17). Qed.

Lemma public_slots_closed_form (court : Court.t) (courtId : string)
  (date : Date) (db : Db) :
  court_findUnique courtId db = Some court ->
  PublicCourtsController.getAvailableSlots courtId date db
  = (inr (flat_map
            (fun hour =>
               let cell :=
                 PublicCourtsController.slotAt date
                   (booking_findMany
                      (fun b =>
                         String.eqb (Booking.courtId b) courtId
                         && (setHours date 0 0 0 0 <=? Booking.bookingDate b)
                         && (Booking.bookingDate b <=? setHours date 23 59 59 999)
                         && isActiveStatus (Booking.status b)) db)
                   (courtAvailability_findMany
                      (activeBlockWhere courtId (setHours date 0 0 0 0)) db)
                   hour in
               [cell 0; cell 30])
            [6; 7; 8; 9; 10; 11; 12; 13; 14; 15; 16; 17; 18; 19; 20; 21; 22]),
     db).
Proof.
  intros Hcourt.
  unfold PublicCourtsController.getAvailableSlots, bind, query, ret.
  rewrite Hcourt, public_hour_loop.
  erewrite flat_map_ext; [reflexivity |].
  intros hour. apply public_minute_loop.
Qed.

Lemma public_slot_cell (date : Date) (bookings : list Booking.t)
  (blocks : list Block.t) (hour minute : Z) :
  publicSlotCell (PublicCourtsController.slotAt date bookings blocks hour minute)
  = (hour * 60 + minute,
     (if minute + 30 >=? 60 then hour + 1 else hour) * 60 + (minute + 30) mod 60).
Proof.
  unfold publicSlotCell, PublicCourtsController.slotAt.
  destruct (findBlocking _ _ _); [reflexivity |].
  destruct (existsb _ _); reflexivity.
Qed.

(** C5: slot projection produces exactly 34 contiguous 30-minute slots
    that tile [[06:00, 23:00)] of the day: on the dashboard listing, as
    instants, and on the public listing (for an existing court), as
    minutes since midnight of the [HH:mm] labels.  The first slot starts
    at 06:00, each slot starts where the previous one ends, the last one
    ends at 23:00, and none ends after 23:00. *)
Theorem slot_projection_tiles_operating_window :
  forall (courtId : string) (date : Date) (db : Db),
    Tiles (30 * msPerMinute) (setHours date 6 0 0 0) (setHours date 23 0 0 0) 34
      (map slotCell (BookingsService.getAvailableSlots courtId date db))
    /\ (forall court : Court.t,
          court_findUnique courtId db = Some court ->
          exists slots : list PublicSlot.t,
            PublicCourtsController.getAvailableSlots courtId date db
            = (inr slots, db)
            /\ Tiles 30 (6 * 60) (23 * 60) 34 (map publicSlotCell slots)).
Proof.
  intros courtId date db. split.
  - rewrite dashboard_cells.
    replace (setHours date 23 0 0 0)
      with (setHours date 6 0 0 0 + 30 * msPerMinute * Z.of_nat 34)
      by (unfold setHours, msPerHour, msPerMinute, msPerSecond; lia).
    apply grid_Tiles. reflexivity.
  - intros court Hcourt. eexists. split.
    + apply (public_slots_closed_form court _ _ _ Hcourt).
    + cbn [flat_map app map]. rewrite !public_slot_cell.
      change (Tiles 30 (6 * 60) (6 * 60 + 30 * Z.of_nat 34) 34
                (grid (6 * 60) 30 34)).
      apply grid_Tiles. reflexivity.
Qed.

(** The listings of court 1 on the sample day. *)
Lemma slot_projection_tiles_witness :
  Tiles (30 * msPerMinute) (Sample.at_ 6 0) (Sample.at_ 23 0) 34
    (map slotCell
       (BookingsService.getAvailableSlots "court-1" Sample.day Sample.emptyDb))
  /\ exists slots : list PublicSlot.t,
      PublicCourtsController.getAvailableSlots "court-1" Sample.day Sample.emptyDb
      = (inr slots, Sample.emptyDb)
      /\ Tiles 30 (6 * 60) (23 * 60) 34 (map publicSlotCell slots).
Proof.
  destruct (slot_projection_tiles_operating_window
              "court-1" Sample.day Sample.emptyDb) as [Hdash Hpub].
  split.
  - exact Hdash.
  - apply (Hpub Sample.court1). reflexivity.
Defined.

(** ** The dashboard listing *)

(** C10: in the dashboard slot listing, a slot is marked unavailable
    without a [bookingId] when a fetched booking lies strictly inside it
    and every fetched booking that overlaps the slot lies strictly inside
    it: the occupancy test has the containment case, the lookup of the
    booking id has not. *)
Theorem dashboard_slot_booked_without_bookingId :
  forall (courtId : string) (date : Date) (db : Db) (k : nat) (b : Booking.t),
    (k < 34)%nat ->
    let currentTime := setHours date 6 0 0 0 + 30 * msPerMinute * Z.of_nat k in
    let slotEnd := currentTime + 30 * msPerMinute in
    In b (BookingsService.bookingsOfDay courtId date db) ->
    currentTime < Booking.startTime b ->
    Booking.endTime b < slotEnd ->
    (forall b' : Booking.t,
        In b' (BookingsService.bookingsOfDay courtId date db) ->
        overlaps currentTime slotEnd
          (Booking.startTime b') (Booking.endTime b') = true ->
        currentTime < Booking.startTime b' /\ Booking.endTime b' < slotEnd) ->
    nth_error (BookingsService.getAvailableSlots courtId date db) k
    = Some (Slot.mk currentTime slotEnd false None).
Proof.
  intros courtId date db k b Hk currentTime slotEnd Hin Hstart Hend Hall.
  rewrite dashboard_slots_closed_form, nth_error_map, nth_error_seq.
  destruct (Nat.ltb_spec k 34) as [_ | ?]; [| lia].
  cbn [option_map Nat.add]. f_equal.
  unfold BookingsService.slotAt. rewrite setMinutes_plus_30.
  fold currentTime. fold slotEnd.
  assert (Hlt : currentTime < slotEnd)
    by (subst slotEnd; unfold msPerMinute; lia).
  set (booked := existsb _ _).
  assert (Hbooked : booked = true).
  { apply existsb_exists. exists b. split; [exact Hin |]. zbool. }
  rewrite Hbooked. cbn [negb]. f_equal.
  rewrite find_all_false; [reflexivity |].
  intros b' Hb'. specialize (Hall b' Hb'). unfold overlaps in Hall.
  destruct (Z.ltb_spec currentTime (Booking.endTime b'));
    destruct (Z.ltb_spec (Booking.startTime b') slotEnd);
    cbn in Hall; try specialize (Hall eq_refl); zbool.
Qed.

(** C4 fails on the dashboard listing: [getAvailableSlots] never reads the
    blocks, so the listing is the same whatever the blocks are.  With a
    whole-day maintenance block on the court and no booking, the dashboard
    query without times returns the 34 slots of the day, all of them marked
    available, while the same query with the times of any of these slots
    answers unavailable, and the public listing marks the slots of the
    same court and day as blocked. *)
Theorem dashboard_slots_ignore_blackouts :
  (forall (courtId : string) (date : Date) (db : Db) (blocks : list Block.t),
      BookingsService.getAvailableSlots courtId date
        (mkDb (courts db) (clients db) (bookings db) blocks)
      = BookingsService.getAvailableSlots courtId date db)
  /\ (exists slots : list Slot.t,
        BookingsService.checkAvailability
          (CheckSlotDto.mk "court-1" Sample.day None None) Sample.blockedDb
        = inr slots
        /\ List.length slots = 34%nat
        /\ forallb Slot.available slots = true
        /\ forallb
             (fun s =>
                match BookingsService.checkAvailability
                        (CheckSlotDto.mk "court-1" Sample.day
                           (Some (Slot.startTime s)) (Some (Slot.endTime s)))
                        Sample.blockedDb with
                | inl available => negb available
                | inr _ => false
                end)
             slots = true)
  /\ (exists slots : list PublicSlot.t,
        PublicCourtsController.getAvailableSlots "court-1" Sample.day
          Sample.blockedDb
        = (inr slots, Sample.blockedDb)
        /\ forallb
             (fun s =>
                negb (PublicSlot.available s)
                && match PublicSlot.reason s with
                   | Some r => String.eqb r "Bloqueado: maintenance"
                   | None => false
                   end)
             slots = true).
Proof.
  split; [| split].
  - intros courtId date db blocks. reflexivity.
  - eexists. split; [reflexivity |].
    split; [| split]; vm_compute; reflexivity.
  - eexists. split; vm_compute; reflexivity.
Qed.

(** A ten-minute booking inside the 14:00 slot of the sample day. *)
Lemma dashboard_slot_booked_without_bookingId_witness :
  nth_error
    (BookingsService.getAvailableSlots "court-1" Sample.day
       (Sample.withBookings
          [Sample.booking "booking-1" (Sample.at_ 14 10) (Sample.at_ 14 20)
             StatusPending]))
    16
  = Some (Slot.mk (Sample.at_ 14 0) (Sample.at_ 14 30) false None).
Proof.
  apply (dashboard_slot_booked_without_bookingId "court-1" Sample.day
           (Sample.withBookings
              [Sample.booking "booking-1" (Sample.at_ 14 10) (Sample.at_ 14 20)
                 StatusPending])
           16
           (Sample.booking "booking-1" (Sample.at_ 14 10) (Sample.at_ 14 20)
              StatusPending)).
  - lia.
  - left. reflexivity.
  - reflexivity.
  - reflexivity.
  - intros b' [<- | []] _. split; reflexivity.
Defined.

(** ** The lifecycle of a booking *)

(** Runs the sequencing of a service method. *)
Ltac run := unfold bind, query, throwIf, throw, ret in *; cbn beta iota in *.

(** The row found under [id] after an update in place of the rows of [id]
    that keeps the identifiers. *)
Lemma find_updated (id : string) (g : Booking.t -> Booking.t)
  (l : list Booking.t) (b : Booking.t) :
  (forall x, Booking.id (g x) = Booking.id x) ->
  find (hasId id) l = Some b ->
  find (hasId id) (map (fun x => if hasId id x then g x else x) l) = Some (g b).
Proof.
  intros Hg. induction l as [| a l IH]; cbn; [discriminate |].
  destruct (hasId id a) eqn:Ha.
  - intros [= <-]. unfold hasId in *. now rewrite Hg, Ha.
  - rewrite Ha. exact IH.
Qed.

Lemma find_not_updated (id id' : string) (g : Booking.t -> Booking.t)
  (l : list Booking.t) :
  (forall x, Booking.id (g x) = Booking.id x) ->
  id' <> id ->
  find (hasId id') (map (fun x => if hasId id x then g x else x) l)
  = find (hasId id') l.
Proof.
  intros Hg Hne. induction l as [| a l IH]; cbn; [reflexivity |].
  destruct (hasId id a) eqn:Ha.
  - unfold hasId in *. rewrite Hg. apply String.eqb_eq in Ha. rewrite Ha.
    destruct (String.eqb_spec id id'); [congruence | exact IH].
  - destruct (hasId id' a); [reflexivity | exact IH].
Qed.

(** C8: for a booking of the caller, [cancelBooking] is rejected with a
    bad-request error, and changes nothing, when the booking is cancelled
    or completed; otherwise the booking becomes cancelled, its payment
    status refunded if it was paid and pending if not, and no other
    booking changes. *)
Theorem cancelBooking_transitions :
  forall (id userId : string) (db : Db) (b : Booking.t),
    booking_findUnique id db = Some b ->
    Booking.userId b = userId ->
    (Booking.status b = StatusCancelled \/ Booking.status b = StatusCompleted ->
     exists message,
       BookingsService.cancelBooking id userId db
       = (inl (BadRequestException message), db))
    /\ (Booking.status b = StatusPending \/ Booking.status b = StatusConfirmed ->
        exists db',
          BookingsService.cancelBooking id userId db = (inr (cancelledRow b), db')
          /\ Booking.status (cancelledRow b) = StatusCancelled
          /\ Booking.paymentStatus (cancelledRow b)
             = (match Booking.paymentStatus b with
                | PaymentPaid => PaymentRefunded
                | _ => PaymentPending
                end)
          /\ booking_findUnique id db' = Some (cancelledRow b)
          /\ (forall id', id' <> id ->
                booking_findUnique id' db' = booking_findUnique id' db)
          /\ List.length (bookings db') = List.length (bookings db)
          /\ courts db' = courts db
          /\ clients db' = clients db
          /\ courtAvailabilities db' = courtAvailabilities db).
Proof.
  intros id userId db b Hfind Howner.
  assert (Heq : String.eqb (Booking.userId b) userId = true)
    by now apply String.eqb_eq.
  unfold BookingsService.cancelBooking, BookingsService.findOne. run.
  rewrite Hfind. cbn. rewrite Heq. cbn. split.
  - intros [Hs | Hs]; rewrite Hs; eexists; reflexivity.
  - set (g := fun x : Booking.t => Booking.mk _ _ _ _ _ _ _ _ _ _).
    assert (Hg : forall x, Booking.id (g x) = Booking.id x) by reflexivity.
    intros Hs. eexists. split; [| split; [| split; [| split; [| split]]]].
    + destruct Hs as [Hs | Hs]; rewrite Hs; unfold booking_update;
        rewrite Hfind; reflexivity.
    + reflexivity.
    + reflexivity.
    + apply (find_updated id g _ _ Hg Hfind).
    + intros id' Hne. apply (find_not_updated id id' g _ Hg Hne).
    + cbn. rewrite length_map. repeat split.
Qed.

(** A confirmed and paid booking of the sample data: it is cancelled and
    refunded. *)
Lemma cancelBooking_transitions_witness :
  exists db',
    BookingsService.cancelBooking "booking-1" Sample.owner Sample.paidDb
    = (inr (cancelledRow Sample.paidBooking), db')
    /\ Booking.status (cancelledRow Sample.paidBooking) = StatusCancelled
    /\ Booking.paymentStatus (cancelledRow Sample.paidBooking)
       = PaymentRefunded.
Proof.
  destruct (cancelBooking_transitions "booking-1" Sample.owner
              Sample.paidDb Sample.paidBooking eq_refl eq_refl)
    as [_ Hcancel].
  destruct (Hcancel (or_intror eq_refl)) as [db' [Hrun [Hst [Hpay _]]]].
  exists db'. repeat split; assumption.
Defined.

(** ** Creation of a booking *)

(** The dashboard creation, as the cascade of its checks. *)
Lemma dashboard_create_run (userId : string) (dto : CreateBookingDto.t)
  (uuid : string) (db : Db) :
  BookingsService.create userId dto uuid db =
  match court_findUnique (CreateBookingDto.courtId dto) db with
  | None => (inl (NotFoundException "Cancha no encontrada"), db)
  | Some court =>
  if negb (String.eqb (Court.complexUserId court) userId)
  then (inl (ForbiddenException
               "No tienes permiso para crear reservas en esta cancha"), db)
  else
  match client_findUnique (CreateBookingDto.clientId dto) db with
  | None => (inl (NotFoundException "Cliente no encontrado"), db)
  | Some client =>
  if negb (String.eqb (Client.userId client) userId)
  then (inl (ForbiddenException "No tienes permiso para usar este cliente"), db)
  else
  if CreateBookingDto.endTime dto <=? CreateBookingDto.startTime dto
  then (inl (BadRequestException
               "La hora de fin debe ser posterior a la hora de inicio"), db)
  else
  if BookingsService.checkTimeSlotAvailability (CreateBookingDto.courtId dto)
       (CreateBookingDto.startTime dto) (CreateBookingDto.endTime dto) None db
  then (inr (dashboardRow userId dto uuid),
        withNewBooking db (dashboardRow userId dto uuid))
  else (inl (ConflictException
               "La cancha no está disponible en el horario seleccionado"), db)
  end end.
Proof.
  unfold BookingsService.create. run.
  destruct (court_findUnique _ db) as [court |]; [| reflexivity].
  destruct (negb (String.eqb (Court.complexUserId court) userId));
    [reflexivity |].
  destruct (client_findUnique _ db) as [client |]; [| reflexivity].
  destruct (negb (String.eqb (Client.userId client) userId)); [reflexivity |].
  destruct (_ <=? _); [reflexivity |].
  destruct (BookingsService.checkTimeSlotAvailability _ _ _ _ db); reflexivity.
Qed.

(** The public creation, as the cascade of its checks. *)
Lemma public_create_run (dto : CreatePublicBookingDto.t) (uuid : string)
  (db : Db) :
  PublicBookingsController.createBooking dto uuid db =
  match court_findUnique (CreatePublicBookingDto.courtId dto) db with
  | None => (inl (NotFoundException "Cancha no encontrada"), db)
  | Some court =>
  if negb (Court.isActive court)
  then (inl (BadRequestException "La cancha no está activa"), db)
  else
  if (publicEnd dto - publicStart dto) / (1000 * 60) <=? 0
  then (inl (BadRequestException
               "La hora de fin debe ser posterior a la hora de inicio"), db)
  else
  if negb (AvailabilityCheck.available (publicBlockCheck dto db))
  then (inl (BadRequestException
               ("Cancha no disponible: "
                ++ AvailabilityCheck.message (publicBlockCheck dto db))), db)
  else
  if existsb (publicConflictWhere dto) (bookings db)
  then (inl (BadRequestException "Ya existe una reserva en ese horario"), db)
  else
  if publicIdsGiven dto
  then (inr (publicRow dto uuid court),
        withNewBooking db (publicRow dto uuid court))
  else (inl (BadRequestException
               (if CreatePublicBookingDto.isAppNative dto
                then "userId es requerido para reservas desde app nativa"
                else "clientId es requerido para reservas desde dashboard")),
        db)
  end.
Proof.
  unfold PublicBookingsController.createBooking, publicIdsGiven, publicRow.
  run. fold (publicStart dto) (publicEnd dto) (publicBlockCheck dto db).
  destruct (court_findUnique _ db) as [court |]; [| reflexivity].
  destruct (negb (Court.isActive court)); [reflexivity |].
  destruct (_ <=? 0); [reflexivity |].
  destruct (negb (AvailabilityCheck.available _)); [reflexivity |].
  unfold booking_findMany. rewrite count_positive_existsb.
  fold (publicConflictWhere dto).
  destruct (existsb (publicConflictWhere dto) (bookings db)); [reflexivity |].
  destruct (CreatePublicBookingDto.isAppNative dto).
  - destruct (truthy (CreatePublicBookingDto.userId dto)); [| reflexivity].
    cbn. destruct (truthy (CreatePublicBookingDto.clientId dto)) eqn:Hc;
      [rewrite Hc |]; reflexivity.
  - destruct (truthy (CreatePublicBookingDto.clientId dto)) eqn:Hc;
      [| reflexivity].
    cbn. rewrite Hc. reflexivity.
Qed.

(** The public creation either rejects and leaves the database as it was,
    or stores one pending row on an available window. *)
Lemma public_create_outcome (dto : CreatePublicBookingDto.t) (uuid : string)
  (db : Db) :
  (exists e, PublicBookingsController.createBooking dto uuid db = (inl e, db))
  \/ (exists court,
        PublicBookingsController.createBooking dto uuid db
        = (inr (publicRow dto uuid court),
           withNewBooking db (publicRow dto uuid court))
        /\ publicAvailable dto db = true).
Proof.
  rewrite public_create_run. unfold publicAvailable.
  destruct (court_findUnique _ db) as [court |]; [| left; eexists; reflexivity].
  destruct (negb (Court.isActive court)); [left; eexists; reflexivity |].
  destruct (_ <=? 0); [left; eexists; reflexivity |].
  destruct (AvailabilityCheck.available _); cbn [negb andb];
    [| left; eexists; reflexivity].
  destruct (existsb _ _); cbn [negb]; [left; eexists; reflexivity |].
  destruct (publicIdsGiven dto); [| left; eexists; reflexivity].
  right. exists court. split; reflexivity.
Qed.

(** A public creation that passes its checks stores [publicRow]. *)
Lemma public_create_success (dto : CreatePublicBookingDto.t) (uuid : string)
  (db : Db) (court : Court.t) :
  court_findUnique (CreatePublicBookingDto.courtId dto) db = Some court ->
  Court.isActive court = true ->
  Booking.duration (publicRow dto uuid court) > 0 ->
  publicAvailable dto db = true ->
  publicIdsGiven dto = true ->
  PublicBookingsController.createBooking dto uuid db
  = (inr (publicRow dto uuid court), withNewBooking db (publicRow dto uuid court)).
Proof.
  unfold publicAvailable. cbn [Booking.duration publicRow].
  intros Hcourt Hactive Hduration Havailable Hids.
  apply andb_prop in Havailable. destruct Havailable as [Hblocks Hbookings].
  apply negb_true_iff in Hbookings.
  rewrite public_create_run, Hcourt, Hactive, Hblocks, Hbookings, Hids.
  cbn [negb].
  destruct (Z.leb_spec ((publicEnd dto - publicStart dto) / (1000 * 60)) 0);
    [lia | reflexivity].
Qed.

(** A public creation for a court that is blocked by a blackout is
    rejected with a bad-request error. *)
Lemma public_create_blocked (dto : CreatePublicBookingDto.t) (uuid : string)
  (db : Db) (court : Court.t) :
  court_findUnique (CreatePublicBookingDto.courtId dto) db = Some court ->
  Court.isActive court = true ->
  Booking.duration (publicRow dto uuid court) > 0 ->
  AvailabilityCheck.available (publicBlockCheck dto db) = false ->
  exists message,
    PublicBookingsController.createBooking dto uuid db
    = (inl (BadRequestException message), db).
Proof.
  cbn [Booking.duration publicRow].
  intros Hcourt Hactive Hduration Hblocked.
  rewrite public_create_run, Hcourt, Hactive, Hblocked. cbn [negb].
  destruct (Z.leb_spec ((publicEnd dto - publicStart dto) / (1000 * 60)) 0);
    [lia | eexists; reflexivity].
Qed.

(** C6, as the code has it: a booking created on the public path is
    stored with [status = pending] and [paymentStatus = pending]; a booking
    created on the dashboard path is stored with the status and the
    payment status that the caller supplied, and with [pending] for the
    one that the caller left out. *)
Theorem created_booking_status :
  (forall (userId : string) (dto : CreateBookingDto.t) (uuid : string)
          (db db' : Db) (row : Booking.t),
      BookingsService.create userId dto uuid db = (inr row, db') ->
      Booking.status row = orElse (CreateBookingDto.status dto) StatusPending
      /\ Booking.paymentStatus row
         = orElse (CreateBookingDto.paymentStatus dto) PaymentPending
      /\ db' = withNewBooking db row)
  /\ (forall (dto : CreatePublicBookingDto.t) (uuid : string)
             (db db' : Db) (row : Booking.t),
        PublicBookingsController.createBooking dto uuid db = (inr row, db') ->
        Booking.status row = StatusPending
        /\ Booking.paymentStatus row = PaymentPending
        /\ db' = withNewBooking db row).
Proof.
  split.
  - intros userId dto uuid db db' row. rewrite dashboard_create_run.
    destruct (court_findUnique _ db) as [court |]; [| discriminate].
    destruct (negb _); [discriminate |].
    destruct (client_findUnique _ db) as [client |]; [| discriminate].
    destruct (negb _); [discriminate |].
    destruct (_ <=? _); [discriminate |].
    destruct (BookingsService.checkTimeSlotAvailability _ _ _ _ db);
      [| discriminate].
    intros [= <- <-]. repeat split.
  - intros dto uuid db db' row Hrun.
    destruct (public_create_outcome dto uuid db)
      as [[e He] | [court [Hrow _]]]; rewrite Hrun in *.
    + discriminate.
    + injection Hrow as -> ->. repeat split.
Qed.

(** A dashboard creation without status and a public creation, on the
    sample data. *)
Lemma created_booking_status_witness :
  Booking.status
    (dashboardRow Sample.owner
       (Sample.createDto (Sample.at_ 14 0) (Sample.at_ 15 0) None None)
       "booking-1") = StatusPending
  /\ Booking.status
       (publicRow (Sample.publicDto (mkHHmm 14 0) (mkHHmm 15 0)) "booking-1"
          Sample.court1) = StatusPending.
Proof.
  destruct created_booking_status as [Hdash Hpub]. split.
  - apply (Hdash Sample.owner
             (Sample.createDto (Sample.at_ 14 0) (Sample.at_ 15 0) None None)
             "booking-1" Sample.emptyDb
             (withNewBooking Sample.emptyDb
                (dashboardRow Sample.owner
                   (Sample.createDto (Sample.at_ 14 0) (Sample.at_ 15 0)
                      None None) "booking-1"))).
    vm_compute. reflexivity.
  - apply (Hpub (Sample.publicDto (mkHHmm 14 0) (mkHHmm 15 0)) "booking-1"
             Sample.emptyDb
             (withNewBooking Sample.emptyDb
                (publicRow (Sample.publicDto (mkHHmm 14 0) (mkHHmm 15 0))
                   "booking-1" Sample.court1))).
    vm_compute. reflexivity.
Defined.

(** C6 fails on the dashboard path: a creation that supplies
    [status = confirmed] and [paymentStatus = paid] is stored with them. *)
Lemma dashboard_create_keeps_supplied_status :
  ~ CreatedAsPending
      (BookingsService.create Sample.owner
         (Sample.createDto (Sample.at_ 14 0) (Sample.at_ 15 0)
            (Some StatusConfirmed) (Some PaymentPaid))
         "booking-1" Sample.emptyDb).
Proof. vm_compute. intros [H _]. discriminate H. Qed.

(** C7, as the code has it.  On the dashboard path, once the other
    validations have passed, an availability check that returns false makes
    the creation reject with the conflict error and store nothing, and one
    that returns true stores the booking.  On the public path an
    unavailable slot makes the creation reject and store nothing as well,
    a court blocked by a blackout is reported there as a bad request, and
    an available slot with the needed identifiers stores the booking. *)
Theorem unavailable_create_persists_nothing :
  (forall (userId : string) (dto : CreateBookingDto.t) (uuid : string)
          (db : Db) (court : Court.t) (client : Client.t),
      court_findUnique (CreateBookingDto.courtId dto) db = Some court ->
      Court.complexUserId court = userId ->
      client_findUnique (CreateBookingDto.clientId dto) db = Some client ->
      Client.userId client = userId ->
      CreateBookingDto.startTime dto < CreateBookingDto.endTime dto ->
      let available :=
        BookingsService.checkTimeSlotAvailability (CreateBookingDto.courtId dto)
          (CreateBookingDto.startTime dto) (CreateBookingDto.endTime dto)
          None db in
      (available = false ->
       SignalsConflict (BookingsService.create userId dto uuid db)
       /\ snd (BookingsService.create userId dto uuid db) = db)
      /\ (available = true ->
          BookingsService.create userId dto uuid db
          = (inr (dashboardRow userId dto uuid),
             withNewBooking db (dashboardRow userId dto uuid))))
  /\ (forall (dto : CreatePublicBookingDto.t) (uuid : string) (db : Db)
             (court : Court.t),
        court_findUnique (CreatePublicBookingDto.courtId dto) db = Some court ->
        Court.isActive court = true ->
        Booking.duration (publicRow dto uuid court) > 0 ->
        (publicAvailable dto db = false ->
         exists e,
           PublicBookingsController.createBooking dto uuid db = (inl e, db))
        /\ (AvailabilityCheck.available (publicBlockCheck dto db) = false ->
            exists message,
              PublicBookingsController.createBooking dto uuid db
              = (inl (BadRequestException message), db))
        /\ (publicAvailable dto db = true ->
            publicIdsGiven dto = true ->
            PublicBookingsController.createBooking dto uuid db
            = (inr (publicRow dto uuid court),
               withNewBooking db (publicRow dto uuid court)))).
Proof.
  split.
  - intros userId dto uuid db court client Hcourt Hco Hclient Hcl Htimes available.
    rewrite dashboard_create_run, Hcourt, Hclient, Hco, Hcl.
    rewrite String.eqb_refl. cbn [negb].
    destruct (Z.leb_spec (CreateBookingDto.endTime dto)
                (CreateBookingDto.startTime dto)); [lia |].
    fold available. split; intros ->.
    + split; [eexists |]; reflexivity.
    + reflexivity.
  - intros dto uuid db court Hcourt Hactive Hduration. split; [| split].
    + intros Hno.
      destruct (public_create_outcome dto uuid db)
        as [He | [court' [_ Hyes]]]; [exact He | congruence].
    + apply (public_create_blocked dto uuid db court Hcourt Hactive Hduration).
    + apply (public_create_success dto uuid db court Hcourt Hactive Hduration).
Qed.

(** The sample court with a booking from 14:00 to 15:00: a dashboard
    creation from 14:30 to 15:30 is a conflict and stores nothing. *)
Lemma unavailable_create_witness :
  SignalsConflict
    (BookingsService.create Sample.owner
       (Sample.createDto (Sample.at_ 14 30) (Sample.at_ 15 30) None None)
       "booking-2" Sample.bookedDb)
  /\ snd (BookingsService.create Sample.owner
            (Sample.createDto (Sample.at_ 14 30) (Sample.at_ 15 30) None None)
            "booking-2" Sample.bookedDb)
     = Sample.bookedDb.
Proof.
  destruct unavailable_create_persists_nothing as [Hdash _].
  destruct (Hdash Sample.owner
              (Sample.createDto (Sample.at_ 14 30) (Sample.at_ 15 30) None None)
              "booking-2" Sample.bookedDb Sample.court1 Sample.client1
              eq_refl eq_refl eq_refl eq_refl eq_refl) as [Hconflict _].
  apply Hconflict. vm_compute. reflexivity.
Defined.

(** C7 fails on the public path: with a whole-day block on the court the
    public check is negative, and the creation is rejected with a bad
    request, not with the conflict error of the dashboard path. *)
Lemma public_create_unavailable_not_conflict :
  ~ (publicAvailable (Sample.publicDto (mkHHmm 14 0) (mkHHmm 15 0))
       Sample.blockedDb = false ->
     SignalsConflict
       (PublicBookingsController.createBooking
          (Sample.publicDto (mkHHmm 14 0) (mkHHmm 15 0)) "booking-1"
          Sample.blockedDb)).
Proof.
  intros H.
  destruct (H eq_refl) as [message Hmessage].
  vm_compute in Hmessage. discriminate Hmessage.
Qed.

(** ** The availability check *)

Lemma isActiveStatus_ActiveBooking (b : Booking.t) :
  isActiveStatus (Booking.status b) = true <-> ActiveBooking b.
Proof.
  unfold ActiveBooking. destruct (Booking.status b); cbn; split;
    intros H; try reflexivity; try discriminate; auto;
    destruct H; discriminate.
Qed.

(** The loop over the blocks stops on the first block that meets the
    window. *)
Lemma findBlocking_find (blocks : list Block.t) (reqStart reqEnd : Z) :
  findBlocking blocks reqStart reqEnd
  = find (blocksWindow reqStart reqEnd) blocks.
Proof.
  induction blocks as [| k blocks IH]; cbn; [reflexivity |].
  unfold blocksWindow at 1.
  destruct (Block.startTime k), (Block.endTime k); try reflexivity.
  destruct (hasOverlap _ _ _ _); [reflexivity | exact IH].
Qed.

(** The check as one boolean formula on the two tables. *)
Lemma checkTimeSlotAvailability_formula (courtId : string) (s e : Date)
  (exclude : option string) (db : Db) :
  BookingsService.checkTimeSlotAvailability courtId s e exclude db
  = negb (existsb (conflictingBookingWhere courtId s e exclude) (bookings db))
    && negb (existsb (blocksWindow (minutesOfDay s) (minutesOfDay e))
               (filter (activeBlockWhere courtId (setHours s 0 0 0 0))
                  (courtAvailabilities db))).
Proof.
  unfold BookingsService.checkTimeSlotAvailability, booking_count,
    courtAvailability_findMany, minutesOfDay.
  rewrite count_positive_existsb.
  destruct (existsb (conflictingBookingWhere _ _ _ _) _); cbn [negb andb];
    [reflexivity |].
  rewrite findBlocking_find, isSome_find_existsb.
  destruct (filter _ (courtAvailabilities db)); reflexivity.
Qed.

Lemma conflictingBookingWhere_spec (courtId : string) (s e : Date)
  (exclude : option string) (b : Booking.t) :
  s < e -> OrderedBooking b -> exclude <> Some "" ->
  conflictingBookingWhere courtId s e exclude b = true
  <-> Booking.courtId b = courtId
      /\ ActiveBooking b
      /\ exclude <> Some (Booking.id b)
      /\ Booking.startTime b < e /\ s < Booking.endTime b.
Proof.
  intros Hse Hb Hex. unfold conflictingBookingWhere, OrderedBooking in *.
  rewrite !andb_true_iff, String.eqb_eq, isActiveStatus_ActiveBooking,
    timeOverlapWhere_hasOverlap, hasOverlap_overlaps by assumption.
  unfold overlaps. rewrite andb_true_iff, !Z.ltb_lt.
  assert (Hexcl :
            (if truthy exclude
             then negb (String.eqb (Booking.id b) (orElse exclude ""))
             else true) = true
            <-> exclude <> Some (Booking.id b)).
  { destruct exclude as [x |]; cbn.
    - destruct (String.eqb_spec x ""); [congruence |]. cbn.
      destruct (String.eqb_spec (Booking.id b) x); cbn; split; congruence.
    - split; [discriminate | reflexivity]. }
  rewrite Hexcl. tauto.
Qed.

Lemma blocksWindow_spec (reqStart reqEnd : Z) (k : Block.t) :
  reqStart < reqEnd -> OrderedTimes k ->
  blocksWindow reqStart reqEnd k = true
  <-> (Block.startTime k = None \/ Block.endTime k = None)
      \/ exists blockStart blockEnd : HHmm,
          Block.startTime k = Some blockStart
          /\ Block.endTime k = Some blockEnd
          /\ toMinutes blockStart < reqEnd
          /\ reqStart < toMinutes blockEnd.
Proof.
  intros Hreq Hk. unfold blocksWindow, OrderedTimes in *.
  destruct (Block.startTime k) as [bs |], (Block.endTime k) as [be |].
  - rewrite hasOverlap_overlaps by auto. unfold overlaps.
    rewrite andb_true_iff, !Z.ltb_lt. split.
    + intros [H1 H2]. right. exists bs, be. auto.
    + intros [[H | H] | [bs' [be' [[= <-] [[= <-] H]]]]];
        [discriminate | discriminate | exact H].
  - split; auto.
  - split; auto.
  - split; auto.
Qed.

Lemma activeBlockWhere_spec (courtId : string) (day : Date) (k : Block.t) :
  activeBlockWhere courtId day k = true
  <-> Block.courtId k = courtId
      /\ Block.isActive k = true
      /\ Block.startDate k <= day <= Block.endDate k.
Proof.
  unfold activeBlockWhere.
  rewrite !andb_true_iff, String.eqb_eq, !Z.leb_le. tauto.
Qed.

(** C2, as the code has it: for a window [[s, e)] whose minutes since
    midnight are in order (the window lies within one day), on stored
    bookings and block times that are in order, and for an excluded id
    that is not the empty string, the availability check returns false
    exactly when an active booking of the court other than the excluded
    one overlaps the window, or an active block whose dates contain the
    day of [s] has no time bounds or time bounds that overlap the window
    in minutes since midnight.  A booking that ends at [s] or starts at
    [e] is never counted as a conflict: against a booking from 14:00 to
    15:00 the window from 15:00 to 16:00 is available, and the window from
    14:30 to 15:30 is not. *)
Theorem checkTimeSlotAvailability_false_iff_conflict :
  (forall (db : Db) (courtId : string) (s e : Date) (exclude : option string),
      s < e ->
      minutesOfDay s < minutesOfDay e ->
      Forall OrderedBooking (bookings db) ->
      Forall OrderedTimes (courtAvailabilities db) ->
      exclude <> Some "" ->
      AvailabilityClaim db courtId s e exclude)
  /\ (forall (courtId : string) (s e : Date) (exclude : option string)
             (b : Booking.t),
        s < e -> OrderedBooking b ->
        Booking.endTime b = s \/ Booking.startTime b = e ->
        conflictingBookingWhere courtId s e exclude b = false)
  /\ BookingsService.checkTimeSlotAvailability "court-1"
       (Sample.at_ 15 0) (Sample.at_ 16 0) None Sample.bookedDb = true
  /\ BookingsService.checkTimeSlotAvailability "court-1"
       (Sample.at_ 14 30) (Sample.at_ 15 30) None Sample.bookedDb = false.
Proof.
  split; [| split; [| split; vm_compute; reflexivity]].
  2: { intros courtId s e exclude b Hse Hb Hadjacent.
       unfold conflictingBookingWhere, OrderedBooking in *.
       rewrite timeOverlapWhere_hasOverlap, hasOverlap_overlaps by assumption.
       replace (overlaps _ _ s e) with false
         by (unfold overlaps; destruct Hadjacent; zbool).
       now rewrite andb_false_r. }
  intros db courtId s e exclude Hse Hmin Hbookings Hblocks Hex.
  rewrite Forall_forall in Hbookings, Hblocks.
  unfold AvailabilityClaim, BookingConflict, BlackoutConflict.
  rewrite checkTimeSlotAvailability_formula.
  rewrite andb_false_iff, !negb_false_iff, !existsb_exists.
  split.
  - intros [[b [Hin Hb]] | [k [Hin Hk]]].
    + left. exists b. split; [exact Hin |].
      apply conflictingBookingWhere_spec in Hb; auto.
    + right. exists k. apply filter_In in Hin. destruct Hin as [Hin Hactive].
      apply activeBlockWhere_spec in Hactive.
      apply blocksWindow_spec in Hk; auto. tauto.
  - intros [[b [Hin Hb]] | [k [Hin [Hc [Ha [Hd Hk]]]]]].
    + left. exists b. split; [exact Hin |].
      apply conflictingBookingWhere_spec; auto.
    + right. exists k. split.
      * apply filter_In. split; [exact Hin |].
        apply activeBlockWhere_spec. auto.
      * apply blocksWindow_spec; auto.
Qed.

(** The window from 14:30 to 15:30 against the booking from 14:00 to
    15:00 of the sample data. *)
Lemma checkTimeSlotAvailability_witness :
  AvailabilityClaim Sample.bookedDb "court-1"
    (Sample.at_ 14 30) (Sample.at_ 15 30) None.
Proof.
  destruct checkTimeSlotAvailability_false_iff_conflict as [Hclaim _].
  apply Hclaim.
  - reflexivity.
  - reflexivity.
  - repeat constructor.
  - constructor.
  - discriminate.
Defined.

(** C2 fails for a window that runs over midnight: with a block from
    00:10 to 00:40 on the sample day only, the window from 23:00 of that
    day to 00:30 of the next day meets no booking and no block, and the
    check returns false. *)
Lemma availability_claim_fails_over_midnight :
  Sample.at_ 23 0 < Sample.at_ 24 30
  /\ Forall OrderedBooking (bookings Sample.nightBlockDb)
  /\ Forall OrderedTimes (courtAvailabilities Sample.nightBlockDb)
  /\ ~ AvailabilityClaim Sample.nightBlockDb "court-1"
         (Sample.at_ 23 0) (Sample.at_ 24 30) None.
Proof.
  split; [reflexivity |]. split; [constructor |].
  split; [repeat constructor; intros bs be [= <-] [= <-]; reflexivity |].
  intros [Hfalse _].
  destruct (Hfalse eq_refl) as [[b [[] _]] | [k [Hin [_ [_ [_ Hk]]]]]].
  destruct Hin as [<- | []].
  destruct Hk as [[Hk | Hk] | [bs [be [Hs [He [_ Hlt]]]]]];
    try discriminate.
  injection He as <-. vm_compute in Hlt. discriminate.
Qed.

(** ** The invariants under creation *)

(** Two windows that overlap meet one of the three cases, whatever their
    order. *)
Lemma overlaps_hasOverlap (reqStart reqEnd blockStart blockEnd : Z) :
  overlaps blockStart blockEnd reqStart reqEnd = true ->
  hasOverlap reqStart reqEnd blockStart blockEnd = true.
Proof. unfold overlaps, hasOverlap. zbool. Qed.

Lemma overlaps_sym (aStart aEnd bStart bEnd : Z) :
  overlaps aStart aEnd bStart bEnd = overlaps bStart bEnd aStart aEnd.
Proof. unfold overlaps. apply andb_comm. Qed.

(** A window that passes the availability check overlaps no active
    booking of the court, the excluded one apart. *)
Lemma available_window_is_free (courtId : string) (s e : Date)
  (exclude : option string) (db : Db) (a : Booking.t) :
  BookingsService.checkTimeSlotAvailability courtId s e exclude db = true ->
  In a (bookings db) ->
  Booking.courtId a = courtId ->
  ActiveBooking a ->
  (forall x, exclude = Some x -> x <> "" -> Booking.id a <> x) ->
  overlaps (Booking.startTime a) (Booking.endTime a) s e = false.
Proof.
  intros Hcheck Hin Hcourt Hactive Hexclude.
  rewrite checkTimeSlotAvailability_formula in Hcheck.
  apply andb_prop in Hcheck. destruct Hcheck as [Hbookings _].
  apply negb_true_iff in Hbookings.
  destruct (overlaps _ _ s e) eqn:Hov; [| reflexivity].
  assert (Hwhere : conflictingBookingWhere courtId s e exclude a = true).
  { unfold conflictingBookingWhere.
    rewrite timeOverlapWhere_hasOverlap, (overlaps_hasOverlap _ _ _ _ Hov).
    apply isActiveStatus_ActiveBooking in Hactive. rewrite Hactive.
    apply String.eqb_eq in Hcourt. rewrite Hcourt. cbn.
    destruct exclude as [x |]; cbn; [| reflexivity].
    destruct (String.eqb_spec x ""); cbn; [reflexivity |].
    destruct (String.eqb_spec (Booking.id a) x); [| reflexivity].
    exfalso. now apply (Hexclude x eq_refl). }
  assert (Hex : existsb (conflictingBookingWhere courtId s e exclude)
                  (bookings db) = true)
    by (apply existsb_exists; exists a; auto).
  congruence.
Qed.

(** The dashboard creation keeps the courts free of double bookings. *)
Lemma dashboard_create_preserves_NoDoubleBooking (userId : string)
  (dto : CreateBookingDto.t) (uuid : string) (db db' : Db) (row : Booking.t) :
  NoDoubleBooking db ->
  BookingsService.create userId dto uuid db = (inr row, db') ->
  NoDoubleBooking db'.
Proof.
  intros Hinv. rewrite dashboard_create_run.
  destruct (court_findUnique _ db) as [court |]; [| discriminate].
  destruct (negb _); [discriminate |].
  destruct (client_findUnique _ db) as [client |]; [| discriminate].
  destruct (negb _); [discriminate |].
  destruct (_ <=? _); [discriminate |].
  destruct (BookingsService.checkTimeSlotAvailability _ _ _ _ db) eqn:Hcheck;
    [| discriminate].
  intros [= <- <-].
  assert (Hfree : forall a,
             In a (bookings db) ->
             Booking.courtId a = CreateBookingDto.courtId dto ->
             ActiveBooking a ->
             overlaps (Booking.startTime a) (Booking.endTime a)
               (CreateBookingDto.startTime dto) (CreateBookingDto.endTime dto)
             = false).
  { intros a Hin Hcourt Hactive.
    apply (available_window_is_free _ _ _ None db a Hcheck Hin Hcourt Hactive).
    discriminate. }
  intros a b Ha Hb Hid Hcourt Hacta Hactb.
  cbn [withNewBooking bookings] in Ha, Hb.
  apply in_app_or in Ha, Hb.
  destruct Ha as [Ha | [<- | []]], Hb as [Hb | [<- | []]].
  - now apply Hinv.
  - apply (Hfree a Ha Hcourt Hacta).
  - rewrite overlaps_sym. apply (Hfree b Hb (eq_sym Hcourt) Hactb).
  - congruence.
Qed.

(** The public creation keeps the courts free of double bookings. *)
Lemma public_create_preserves_NoDoubleBooking
  (dto : CreatePublicBookingDto.t) (uuid : string) (db db' : Db)
  (row : Booking.t) :
  NoDoubleBooking db ->
  PublicBookingsController.createBooking dto uuid db = (inr row, db') ->
  NoDoubleBooking db'.
Proof.
  intros Hinv Hrun.
  destruct (public_create_outcome dto uuid db)
    as [[e He] | [court [Hrow Havailable]]]; rewrite Hrun in *;
    [discriminate |].
  injection Hrow as -> ->.
  apply andb_prop in Havailable. destruct Havailable as [_ Hnone].
  apply negb_true_iff in Hnone.
  assert (Hfree : forall a,
             In a (bookings db) ->
             Booking.courtId a = CreatePublicBookingDto.courtId dto ->
             ActiveBooking a ->
             overlaps (Booking.startTime a) (Booking.endTime a)
               (publicStart dto) (publicEnd dto) = false).
  { intros a Hin Hcourt Hactive.
    destruct (overlaps _ _ _ _) eqn:Hov; [| reflexivity].
    apply overlaps_hasOverlap in Hov.
    rewrite <- timeOverlapWhere_hasOverlap in Hov.
    apply isActiveStatus_ActiveBooking in Hactive.
    apply String.eqb_eq in Hcourt.
    assert (Hex : existsb (publicConflictWhere dto) (bookings db) = true).
    { apply existsb_exists. exists a. split; [exact Hin |].
      unfold publicConflictWhere. now rewrite Hcourt, Hactive, Hov. }
    congruence. }
  intros a b Ha Hb Hid Hcourt Hacta Hactb.
  cbn [withNewBooking bookings] in Ha, Hb.
  apply in_app_or in Ha, Hb.
  destruct Ha as [Ha | [<- | []]], Hb as [Hb | [<- | []]].
  - now apply Hinv.
  - apply (Hfree a Ha Hcourt Hacta).
  - rewrite overlaps_sym. apply (Hfree b Hb (eq_sym Hcourt) Hactb).
  - congruence.
Qed.

(** A block that [create] stores satisfies the invariant of the blocks. *)
Lemma blackout_create_establishes_invariant (userId : string)
  (dto : CreateCourtAvailabilityDto.t) (uuid : string) (db db' : Db)
  (k : Block.t) :
  CourtAvailabilityService.create userId dto uuid db = (inr k, db') ->
  BlockInvariant k
  /\ courtAvailabilities db' = (courtAvailabilities db ++ [k])%list.
Proof.
  unfold CourtAvailabilityService.create. run.
  destruct (court_findUnique _ db) as [court |]; [| discriminate].
  destruct (negb _); [discriminate |].
  destruct (Z.ltb_spec (CreateCourtAvailabilityDto.endDate dto)
              (CreateCourtAvailabilityDto.startDate dto)) as [| Hdates];
    [discriminate |].
  unfold BlockInvariant, OrderedDates, OrderedTimes, toMinutes.
  destruct (CreateCourtAvailabilityDto.startTime dto) as [bs |] eqn:Hs;
    destruct (CreateCourtAvailabilityDto.endTime dto) as [be |] eqn:He;
    cbn.
  1: destruct (Z.leb_spec (hour be * 60 + minute be)
                 (hour bs * 60 + minute bs)) as [| Htimes]; [discriminate |].
  all: unfold courtAvailability_create; intros [= <- <-]; cbn;
    (split; [split; [lia |] | reflexivity]);
    intros bs' be'; rewrite ?Hs, ?He; intros Hbs Hbe;
    try discriminate; injection Hbs as <-; injection Hbe as <-; lia.
Qed.

(** ** Updates of a booking *)

(** The dashboard update, as the cascade of its checks. *)
Lemma dashboard_update_run (id userId : string) (dto : UpdateBookingDto.t)
  (db : Db) :
  BookingsService.update id userId dto db =
  match booking_findUnique id db with
  | None => (inl (NotFoundException "Reserva no encontrada"), db)
  | Some booking =>
  if negb (String.eqb (Booking.userId booking) userId)
  then (inl (ForbiddenException
               "No tienes permiso para actualizar esta reserva"), db)
  else
  let startTime :=
    orElse (UpdateBookingDto.startTime dto) (Booking.startTime booking) in
  let endTime :=
    orElse (UpdateBookingDto.endTime dto) (Booking.endTime booking) in
  if isSome (UpdateBookingDto.startTime dto)
     || isSome (UpdateBookingDto.endTime dto)
  then
    if endTime <=? startTime
    then (inl (BadRequestException
                 "La hora de fin debe ser posterior a la hora de inicio"), db)
    else
    if BookingsService.checkTimeSlotAvailability (Booking.courtId booking)
         startTime endTime (Some id) db
    then booking_update id (BookingsService.updateData dto) db
    else (inl (ConflictException
                 "La cancha no está disponible en el horario seleccionado"), db)
  else booking_update id (BookingsService.updateData dto) db
  end.
Proof.
  unfold BookingsService.update. run.
  destruct (booking_findUnique id db) as [booking |]; [| reflexivity].
  destruct (negb _); [reflexivity |].
  destruct (isSome _ || isSome _); [| reflexivity].
  cbn zeta. destruct (_ <=? _); [reflexivity |].
  destruct (BookingsService.checkTimeSlotAvailability _ _ _ _ db); reflexivity.
Qed.

(** Identifiers are keys: two rows of a table without duplicate ids that
    carry the same id are the same row. *)
Lemma same_id_same_row (l : list Booking.t) (a b : Booking.t) :
  NoDup (map Booking.id l) ->
  In a l -> In b l -> Booking.id a = Booking.id b -> a = b.
Proof.
  induction l as [| x l IH]; cbn; [intros _ [] |].
  intros Hnd Ha Hb Hid. inversion Hnd as [| ? ? Hnotin Hnd']; subst.
  destruct Ha as [-> | Ha], Hb as [-> | Hb].
  - reflexivity.
  - exfalso. apply Hnotin. rewrite Hid. now apply in_map.
  - exfalso. apply Hnotin. rewrite <- Hid. now apply in_map.
  - now apply IH.
Qed.

(** An update that carries neither a status nor a court keeps the courts
    free of double bookings: the window that it writes has passed the
    availability check, with the booking itself excluded. *)
Lemma dashboard_update_preserves_NoDoubleBooking (id userId : string)
  (dto : UpdateBookingDto.t) (db db' : Db) (row : Booking.t) :
  NoDup (map Booking.id (bookings db)) ->
  UpdateBookingDto.status dto = None ->
  UpdateBookingDto.courtId dto = None ->
  NoDoubleBooking db ->
  BookingsService.update id userId dto db = (inr row, db') ->
  NoDoubleBooking db'.
Proof.
  intros Hnodup Hstatus Hcourt Hinv. rewrite dashboard_update_run.
  destruct (booking_findUnique id db) as [booking |] eqn:Hfind; [| discriminate].
  destruct (negb _); [discriminate |].
  cbn zeta.
  set (g := BookingsService.updateData dto).
  assert (Hgid : forall x, Booking.id (g x) = Booking.id x) by reflexivity.
  assert (Hgcourt : forall x, Booking.courtId (g x) = Booking.courtId x)
    by (intros x; cbn; now rewrite Hcourt).
  assert (Hgstatus : forall x, Booking.status (g x) = Booking.status x)
    by (intros x; cbn; now rewrite Hstatus).
  assert (Hbin : In booking (bookings db) /\ Booking.id booking = id).
  { apply find_some in Hfind. destruct Hfind as [Hin Heq].
    apply String.eqb_eq in Heq. auto. }
  destruct Hbin as [Hbin Hbid].
  assert (Hwindow : forall Hrun : booking_update id g db = (inr row, db'),
             (forall other,
                 In other (bookings db) ->
                 Booking.id other <> id ->
                 Booking.courtId other = Booking.courtId booking ->
                 ActiveBooking other ->
                 ActiveBooking booking ->
                 overlaps (Booking.startTime other) (Booking.endTime other)
                   (Booking.startTime (g booking)) (Booking.endTime (g booking))
                 = false) ->
             NoDoubleBooking db').
  { intros Hrun Hother. unfold booking_update in Hrun. rewrite Hfind in Hrun.
    injection Hrun as <- <-.
    intros a' b' Ha' Hb' Hid' Hcourt' Hacta' Hactb'.
    cbn [bookings] in Ha', Hb'.
    apply in_map_iff in Ha', Hb'.
    destruct Ha' as [a [<- Ha]], Hb' as [b [<- Hb]].
    destruct (String.eqb_spec (Booking.id a) id) as [Haid | Haid];
      destruct (String.eqb_spec (Booking.id b) id) as [Hbid' | Hbid'].
    - exfalso. apply Hid'. rewrite !Hgid. congruence.
    - assert (a = booking)
        by (apply (same_id_same_row _ _ _ Hnodup Ha Hbin); congruence).
      subst a. rewrite overlaps_sym. apply Hother; auto.
      + rewrite Hgcourt in Hcourt'. auto.
      + unfold ActiveBooking in *. now rewrite Hgstatus in Hacta'.
    - assert (b = booking)
        by (apply (same_id_same_row _ _ _ Hnodup Hb Hbin); congruence).
      subst b. apply Hother; auto.
      + rewrite Hgcourt in Hcourt'. auto.
      + unfold ActiveBooking in *. now rewrite Hgstatus in Hactb'.
    - apply Hinv; auto. }
  destruct (isSome _ || isSome _) eqn:Htimes.
  - destruct (_ <=? _); [discriminate |].
    destruct (BookingsService.checkTimeSlotAvailability _ _ _ _ db) eqn:Hcheck;
      [| discriminate].
    intros Hrun. apply (Hwindow Hrun).
    intros other Hin Hoid Hocourt Hoact _.
    apply (available_window_is_free _ _ _ (Some id) db other Hcheck Hin
             Hocourt Hoact).
    intros x [= <-] _. exact Hoid.
  - intros Hrun. apply (Hwindow Hrun).
    intros other Hin Hoid Hocourt Hoact Hbact.
    apply orb_false_elim in Htimes. destruct Htimes as [Hs He].
    subst g. cbn.
    destruct (UpdateBookingDto.startTime dto); [discriminate |].
    destruct (UpdateBookingDto.endTime dto); [discriminate |].
    cbn. apply Hinv; auto. congruence.
Qed.

(** ** The public listing and the blocks *)

(** On the public listing a cell that meets a block of the court and day
    is marked unavailable, with the reason of the first such block. *)
Lemma public_slot_blocked (date : Date) (bookings : list Booking.t)
  (blocks : list Block.t) (hour minute : Z) (k : Block.t) :
  In k blocks ->
  blocksWindow (hour * 60 + minute) (hour * 60 + minute + 30) k = true ->
  let slot := PublicCourtsController.slotAt date bookings blocks hour minute in
  PublicSlot.available slot = false
  /\ exists k' : Block.t,
      In k' blocks
      /\ blocksWindow (hour * 60 + minute) (hour * 60 + minute + 30) k' = true
      /\ PublicSlot.reason slot
         = Some ("Bloqueado: " ++ BlockReason_toString (Block.reason k')).
Proof.
  intros Hin Hk. unfold PublicCourtsController.slotAt.
  rewrite findBlocking_find.
  destruct (find _ blocks) as [k' |] eqn:Hfind.
  - apply find_some in Hfind. destruct Hfind as [Hin' Hk'].
    cbn. split; [reflexivity |]. exists k'. auto.
  - apply find_none with (x := k) in Hfind; [congruence | exact Hin].
Qed.

(** ** The invariants under updates *)

(** C1 fails on the code: [update] checks the availability only when the
    DTO carries a time, so an update of the status alone, or of the court
    alone, goes through unchecked.  From the sample data without bookings,
    (1) creating booking 1 from 14:00 to 15:00 on court 1, setting it to
    cancelled, creating booking 2 in the same window on court 1 and
    setting booking 1 to confirmed, and (2) creating the same window on
    court 1 and on court 2 and moving the second booking to court 1, are
    runs of successful operations that end with two overlapping active
    bookings on court 1. *)
Theorem update_without_times_allows_double_booking :
  NoDoubleBooking Sample.emptyDb
  /\ (exists (r1 r2 r3 r4 : Booking.t) (db1 db2 db3 db4 : Db),
        BookingsService.create Sample.owner
          (Sample.createDto (Sample.at_ 14 0) (Sample.at_ 15 0) None None)
          "booking-1" Sample.emptyDb = (inr r1, db1)
        /\ BookingsService.update "booking-1" Sample.owner
             (Sample.statusUpdate StatusCancelled) db1 = (inr r2, db2)
        /\ BookingsService.create Sample.owner
             (Sample.createDto (Sample.at_ 14 0) (Sample.at_ 15 0) None None)
             "booking-2" db2 = (inr r3, db3)
        /\ BookingsService.update "booking-1" Sample.owner
             (Sample.statusUpdate StatusConfirmed) db3 = (inr r4, db4)
        /\ ~ NoDoubleBooking db4)
  /\ (exists (r1 r2 r3 : Booking.t) (db1 db2 db3 : Db),
        BookingsService.create Sample.owner
          (Sample.createDtoOn "court-1" (Sample.at_ 14 0) (Sample.at_ 15 0)
             None None)
          "booking-1" Sample.emptyDb = (inr r1, db1)
        /\ BookingsService.create Sample.owner
             (Sample.createDtoOn "court-2" (Sample.at_ 14 0) (Sample.at_ 15 0)
                None None)
             "booking-2" db1 = (inr r2, db2)
        /\ BookingsService.update "booking-2" Sample.owner
             (Sample.courtUpdate "court-1") db2 = (inr r3, db3)
        /\ ~ NoDoubleBooking db3).
Proof.
  split; [| split].
  - intros a b [].
  - do 8 eexists.
    split; [vm_compute; reflexivity |].
    split; [vm_compute; reflexivity |].
    split; [vm_compute; reflexivity |].
    split; [vm_compute; reflexivity |].
    intros H.
    pose proof (H _ _ (or_introl eq_refl) (or_intror (or_introl eq_refl)))
      as H'.
    enough (true = false) by discriminate.
    apply H'; [discriminate | reflexivity | right | left]; reflexivity.
  - do 6 eexists.
    split; [vm_compute; reflexivity |].
    split; [vm_compute; reflexivity |].
    split; [vm_compute; reflexivity |].
    intros H.
    pose proof (H _ _ (or_introl eq_refl) (or_intror (or_introl eq_refl)))
      as H'.
    enough (true = false) by discriminate.
    apply H'; [discriminate | reflexivity | left | left]; reflexivity.
Qed.

(** C9 fails on the code: [update] compares the dates, and the times, only
    when the DTO carries both of them.  A block created from the sample
    day to five days later, from 10:00 to 12:00, satisfies the invariant;
    an update of its end date alone to an earlier day, and an update of
    its end time alone to 08:00, are accepted and leave a stored block
    that ends before it starts. *)
Theorem partial_blackout_update_breaks_invariant :
  exists (k1 : Block.t) (db1 : Db),
    CourtAvailabilityService.create Sample.owner Sample.blockDto "block-1"
      Sample.emptyDb = (inr k1, db1)
    /\ BlockInvariant k1
    /\ (exists (k2 : Block.t) (db2 : Db),
          CourtAvailabilityService.update "block-1" Sample.owner
            Sample.endDateUpdate db1 = (inr k2, db2)
          /\ courtAvailabilities db2 = [k2]
          /\ ~ OrderedDates k2)
    /\ (exists (k2 : Block.t) (db2 : Db),
          CourtAvailabilityService.update "block-1" Sample.owner
            Sample.endTimeUpdate db1 = (inr k2, db2)
          /\ courtAvailabilities db2 = [k2]
          /\ ~ OrderedTimes k2).
Proof.
  do 2 eexists. split; [vm_compute; reflexivity |]. split; [| split].
  - split.
    + unfold OrderedDates. cbn. unfold Sample.day, msPerDay. lia.
    + intros bs be [= <-] [= <-]. reflexivity.
  - do 2 eexists. split; [vm_compute; reflexivity |].
    split; [reflexivity |].
    unfold OrderedDates. cbn. lia.
  - do 2 eexists. split; [vm_compute; reflexivity |].
    split; [reflexivity |].
    intros H. specialize (H _ _ eq_refl eq_refl). vm_compute in H.
    discriminate H.
Qed.

(** ** Successful operations on the bookings *)

Lemma dashboard_create_success (userId : string) (dto : CreateBookingDto.t)
  (uuid : string) (db db' : Db) (row : Booking.t) :
  BookingsService.create userId dto uuid db = (inr row, db') ->
  row = dashboardRow userId dto uuid
  /\ db' = withNewBooking db row
  /\ CreateBookingDto.startTime dto < CreateBookingDto.endTime dto
  /\ BookingsService.checkTimeSlotAvailability (CreateBookingDto.courtId dto)
       (CreateBookingDto.startTime dto) (CreateBookingDto.endTime dto) None db
     = true
  /\ exists court client,
      court_findUnique (CreateBookingDto.courtId dto) db = Some court
      /\ Court.complexUserId court = userId
      /\ client_findUnique (CreateBookingDto.clientId dto) db = Some client
      /\ Client.userId client = userId.
Proof.
  rewrite dashboard_create_run.
  destruct (court_findUnique _ db) as [court |]; [| discriminate].
  destruct (String.eqb_spec (Court.complexUserId court) userId);
    [| discriminate].
  destruct (client_findUnique _ db) as [client |]; [| discriminate].
  destruct (String.eqb_spec (Client.userId client) userId); [| discriminate].
  cbn [negb].
  destruct (Z.leb_spec (CreateBookingDto.endTime dto)
              (CreateBookingDto.startTime dto)); [discriminate |].
  destruct (BookingsService.checkTimeSlotAvailability _ _ _ _ db);
    [| discriminate].
  intros [= <- <-]. repeat split; try assumption.
  exists court, client. auto.
Qed.

Lemma public_create_success_inv (dto : CreatePublicBookingDto.t)
  (uuid : string) (db db' : Db) (row : Booking.t) :
  PublicBookingsController.createBooking dto uuid db = (inr row, db') ->
  exists court,
    court_findUnique (CreatePublicBookingDto.courtId dto) db = Some court
    /\ Court.isActive court = true
    /\ row = publicRow dto uuid court
    /\ db' = withNewBooking db row
    /\ 0 < (publicEnd dto - publicStart dto) / (1000 * 60)
    /\ publicAvailable dto db = true
    /\ publicIdsGiven dto = true.
Proof.
  rewrite public_create_run. unfold publicAvailable.
  destruct (court_findUnique _ db) as [court |]; [| discriminate].
  destruct (Court.isActive court) eqn:Hactive; cbn [negb]; [| discriminate].
  destruct (Z.leb_spec ((publicEnd dto - publicStart dto) / (1000 * 60)) 0);
    [discriminate |].
  destruct (AvailabilityCheck.available _); cbn [negb andb]; [| discriminate].
  destruct (existsb _ _); [discriminate |].
  destruct (publicIdsGiven dto); [| discriminate].
  intros [= <- <-]. exists court. repeat split; assumption.
Qed.

Lemma dashboard_update_success (id userId : string) (dto : UpdateBookingDto.t)
  (db db' : Db) (row : Booking.t) :
  BookingsService.update id userId dto db = (inr row, db') ->
  exists booking,
    booking_findUnique id db = Some booking
    /\ Booking.userId booking = userId
    /\ row = BookingsService.updateData dto booking
    /\ db' = mkDb (courts db) (clients db)
               (map (fun x => if hasId id x
                              then BookingsService.updateData dto x else x)
                    (bookings db))
               (courtAvailabilities db)
    /\ (isSome (UpdateBookingDto.startTime dto)
        || isSome (UpdateBookingDto.endTime dto) = true ->
        Booking.startTime row < Booking.endTime row
        /\ BookingsService.checkTimeSlotAvailability (Booking.courtId booking)
             (Booking.startTime row) (Booking.endTime row) (Some id) db = true).
Proof.
  rewrite dashboard_update_run.
  destruct (booking_findUnique id db) as [booking |] eqn:Hfind;
    [| discriminate].
  destruct (String.eqb_spec (Booking.userId booking) userId); [| discriminate].
  cbn [negb]. cbn zeta. unfold booking_update. rewrite Hfind.
  destruct (isSome _ || isSome _).
  - destruct (Z.leb_spec
                (orElse (UpdateBookingDto.endTime dto) (Booking.endTime booking))
                (orElse (UpdateBookingDto.startTime dto)
                   (Booking.startTime booking))); [discriminate |].
    destruct (BookingsService.checkTimeSlotAvailability _ _ _ _ db) eqn:Hcheck;
      [| discriminate].
    intros [= <- <-]. exists booking. repeat split; auto.
  - intros [= <- <-]. exists booking. repeat split; auto; discriminate.
Qed.

Lemma cancel_success (id userId : string) (db db' : Db) (row : Booking.t) :
  BookingsService.cancelBooking id userId db = (inr row, db') ->
  exists (booking : Booking.t) (g : Booking.t -> Booking.t),
    booking_findUnique id db = Some booking
    /\ Booking.userId booking = userId
    /\ ActiveBooking booking
    /\ row = cancelledRow booking
    /\ (forall x,
          Booking.id (g x) = Booking.id x
          /\ Booking.status (g x) = StatusCancelled
          /\ Booking.startTime (g x) = Booking.startTime x
          /\ Booking.endTime (g x) = Booking.endTime x
          /\ Booking.courtId (g x) = Booking.courtId x)
    /\ db' = mkDb (courts db) (clients db)
               (map (fun x => if hasId id x then g x else x) (bookings db))
               (courtAvailabilities db).
Proof.
  unfold BookingsService.cancelBooking, BookingsService.findOne. run.
  destruct (booking_findUnique id db) as [booking |] eqn:Hfind;
    [| discriminate].
  cbn. destruct (String.eqb_spec (Booking.userId booking) userId);
    [| discriminate].
  cbn. unfold ActiveBooking.
  destruct (Booking.status booking) eqn:Hstatus; try discriminate;
    unfold booking_update; rewrite Hfind;
    intros [= <- <-]; exists booking;
    exists (fun b =>
              Booking.mk (Booking.id b) (Booking.bookingDate b)
                (Booking.startTime b) (Booking.endTime b) (Booking.duration b)
                StatusCancelled
                (match Booking.paymentStatus booking with
                 | PaymentPaid => PaymentRefunded
                 | _ => PaymentPending
                 end)
                (Booking.courtId b) (Booking.clientId b) (Booking.userId b));
    (split; [reflexivity |]); (split; [assumption |]);
    (split; [auto |]);
    (split; [reflexivity |]);
    (split; [intros x; repeat split |]); reflexivity.
Qed.

Lemma remove_success (id userId : string) (db db' : Db) (message : string) :
  BookingsService.remove id userId db = (inr message, db') ->
  db' = withoutBooking db id
  /\ exists booking,
      booking_findUnique id db = Some booking
      /\ Booking.userId booking = userId.
Proof.
  unfold BookingsService.remove, booking_delete. run.
  destruct (booking_findUnique id db) as [booking |] eqn:Hfind;
    [| discriminate].
  destruct (String.eqb_spec (Booking.userId booking) userId); [| discriminate].
  cbn. rewrite Hfind. intros [= <- <-]. split; [reflexivity |].
  exists booking. auto.
Qed.

(** *** Identifiers stay keys *)

Lemma ids_of_update (id : string) (g : Booking.t -> Booking.t)
  (l : list Booking.t) :
  (forall x, Booking.id (g x) = Booking.id x) ->
  map Booking.id (map (fun x => if hasId id x then g x else x) l)
  = map Booking.id l.
Proof.
  intros Hg. rewrite map_map. apply map_ext. intros x.
  destruct (hasId id x); [apply Hg | reflexivity].
Qed.

Lemma NoDup_ids_filter {A : Type} (key : A -> string) (p : A -> bool)
  (l : list A) :
  NoDup (map key l) -> NoDup (map key (filter p l)).
Proof.
  induction l as [| a l IH]; cbn; [auto |].
  intros Hnd. inversion Hnd as [| ? ? Hnotin Hnd']; subst.
  destruct (p a); cbn; [constructor |]; auto.
  intros Hin. apply Hnotin. apply in_map_iff in Hin.
  destruct Hin as [x [Hx Hin]]. apply filter_In in Hin.
  apply in_map_iff. exists x. tauto.
Qed.

Lemma NoDup_ids_append {A : Type} (key : A -> string) (l : list A) (a : A) :
  NoDup (map key l) -> ~ In (key a) (map key l) ->
  NoDup (map key (l ++ [a])).
Proof.
  intros Hnd Hnotin. rewrite map_app. cbn.
  apply NoDup_app; [exact Hnd | repeat constructor; intros [] |].
  intros x Hx [<- | []]. contradiction.
Qed.

Lemma booking_step_keeps_ids (allowed : UpdateBookingDto.t -> Prop)
  (db db' : Db) :
  BookingStep allowed db db' ->
  NoDup (bookingIds db) -> NoDup (bookingIds db').
Proof.
  unfold bookingIds.
  intros [userId dto uuid d d' row Hfresh Hrun
         | dto uuid d d' row Hfresh Hrun
         | id userId dto d d' row _ Hrun
         | id userId d d' row Hrun
         | id userId d d' message Hrun] Hnd.
  - apply dashboard_create_success in Hrun.
    destruct Hrun as [-> [-> _]]. cbn [withNewBooking bookings].
    apply NoDup_ids_append; assumption.
  - apply public_create_success_inv in Hrun.
    destruct Hrun as [court [_ [_ [-> [-> _]]]]]. cbn [withNewBooking bookings].
    apply NoDup_ids_append; assumption.
  - apply dashboard_update_success in Hrun.
    destruct Hrun as [booking [_ [_ [_ [-> _]]]]]. cbn [bookings].
    now rewrite ids_of_update.
  - apply cancel_success in Hrun.
    destruct Hrun as [booking [g [_ [_ [_ [_ [Hg ->]]]]]]]. cbn [bookings].
    rewrite ids_of_update; [assumption | apply Hg].
  - apply remove_success in Hrun. destruct Hrun as [-> _].
    cbn [withoutBooking bookings]. now apply NoDup_ids_filter.
Qed.

(** *** Courts stay free of double bookings *)

(** A table whose active rows are rows of a table free of double bookings
    is free of double bookings. *)
Lemma NoDoubleBooking_of_active_rows (db db' : Db) :
  (forall x, In x (bookings db') -> ActiveBooking x -> In x (bookings db)) ->
  NoDoubleBooking db -> NoDoubleBooking db'.
Proof.
  intros Hsub Hinv a b Ha Hb Hid Hcourt Hacta Hactb.
  apply Hinv; auto.
Qed.

Lemma cancelled_is_not_active (b : Booking.t) :
  Booking.status b = StatusCancelled -> ~ ActiveBooking b.
Proof. unfold ActiveBooking. intros -> [H | H]; discriminate. Qed.

Lemma safe_step_keeps_courts_free (db db' : Db) :
  BookingStep WindowOnly db db' ->
  NoDup (bookingIds db) -> NoDoubleBooking db -> NoDoubleBooking db'.
Proof.
  intros [userId dto uuid d d' row Hfresh Hrun
         | dto uuid d d' row Hfresh Hrun
         | id userId dto d d' row [Hstatus Hcourt] Hrun
         | id userId d d' row Hrun
         | id userId d d' message Hrun] Hnd Hinv.
  - apply (dashboard_create_preserves_NoDoubleBooking _ _ _ _ _ _ Hinv Hrun).
  - apply (public_create_preserves_NoDoubleBooking _ _ _ _ _ Hinv Hrun).
  - apply (dashboard_update_preserves_NoDoubleBooking _ _ _ _ _ _
             Hnd Hstatus Hcourt Hinv Hrun).
  - apply cancel_success in Hrun.
    destruct Hrun as [booking [g [_ [_ [_ [_ [Hg ->]]]]]]].
    apply (NoDoubleBooking_of_active_rows d); [| exact Hinv].
    cbn [bookings]. intros x Hx Hactive. apply in_map_iff in Hx.
    destruct Hx as [y [<- Hy]]. destruct (hasId id y); [| exact Hy].
    exfalso. apply (cancelled_is_not_active (g y)); [apply Hg | exact Hactive].
  - apply remove_success in Hrun. destruct Hrun as [-> _].
    apply (NoDoubleBooking_of_active_rows d); [| exact Hinv].
    cbn [withoutBooking bookings]. intros x Hx _.
    apply filter_In in Hx. tauto.
Qed.

(** X1: from a database without duplicate ids and without double bookings,
    any run of successful creations (dashboard or public), updates that
    carry neither status nor court, cancellations and removals ends in a
    database without duplicate ids and without double bookings. *)
Theorem safe_runs_keep_courts_free :
  forall db db' : Db,
    NoDup (bookingIds db) ->
    NoDoubleBooking db ->
    BookingRun WindowOnly db db' ->
    NoDup (bookingIds db') /\ NoDoubleBooking db'.
Proof.
  intros db db' Hnd Hinv Hrun.
  induction Hrun as [db | db db' db'' Hrun IH Hstep]; [auto |].
  destruct (IH Hnd Hinv) as [Hnd' Hinv']. split.
  - apply (booking_step_keeps_ids _ _ _ Hstep Hnd').
  - apply (safe_step_keeps_courts_free _ _ Hstep Hnd' Hinv').
Qed.

(** The run that leads to [Sample.afterRun]. *)
Lemma sample_run (allowed : UpdateBookingDto.t -> Prop) :
  allowed (Sample.windowUpdate (Sample.at_ 15 0) (Sample.at_ 16 0)) ->
  BookingRun allowed Sample.emptyDb Sample.afterRun.
Proof.
  intros Hallowed.
  eapply RunStep; [eapply RunStep; [eapply RunStep; [apply RunDone |] |] |].
  - eapply (StepCreate allowed Sample.owner
              (Sample.createDto (Sample.at_ 14 0) (Sample.at_ 15 0) None None)
              "booking-1").
    + intros [].
    + vm_compute. reflexivity.
  - eapply (StepUpdate allowed "booking-1" Sample.owner
              (Sample.windowUpdate (Sample.at_ 15 0) (Sample.at_ 16 0)));
      [exact Hallowed | vm_compute; reflexivity].
  - eapply (StepCancel allowed "booking-1" Sample.owner).
    vm_compute. reflexivity.
Defined.

(** The three operations of the sample run, from the sample data. *)
Lemma safe_runs_keep_courts_free_witness :
  NoDup (bookingIds Sample.afterRun) /\ NoDoubleBooking Sample.afterRun.
Proof.
  apply (safe_runs_keep_courts_free Sample.emptyDb Sample.afterRun).
  - constructor.
  - intros a b [].
  - apply sample_run. split; reflexivity.
Defined.

(** *** Stored bookings stay in order *)

Lemma step_keeps_bookings_ordered (db db' : Db) :
  BookingStep AnyUpdate db db' ->
  NoDup (bookingIds db) ->
  Forall OrderedBooking (bookings db) ->
  Forall OrderedBooking (bookings db').
Proof.
  intros [userId dto uuid d d' row Hfresh Hrun
         | dto uuid d d' row Hfresh Hrun
         | id userId dto d d' row _ Hrun
         | id userId d d' row Hrun
         | id userId d d' message Hrun] Hnd Hordered.
  - apply dashboard_create_success in Hrun.
    destruct Hrun as [-> [-> [Hlt _]]]. cbn [withNewBooking bookings].
    apply Forall_app. split; [exact Hordered |].
    repeat constructor. exact Hlt.
  - apply public_create_success_inv in Hrun.
    destruct Hrun as [court [_ [_ [-> [-> [Hduration _]]]]]].
    cbn [withNewBooking bookings].
    apply Forall_app. split; [exact Hordered |].
    repeat constructor. unfold OrderedBooking. cbn.
    destruct (Z_lt_le_dec (publicStart dto) (publicEnd dto)) as [| Hle];
      [assumption |].
    exfalso.
    assert ((publicEnd dto - publicStart dto) / (1000 * 60) <= 0)
      by (apply Z.div_le_upper_bound; lia).
    lia.
  - apply dashboard_update_success in Hrun.
    destruct Hrun as [booking [Hfind [_ [-> [-> Htimes]]]]]. cbn [bookings].
    apply Forall_map. rewrite Forall_forall in *. intros x Hx.
    destruct (hasId id x) eqn:Hid; [| now apply Hordered].
    assert (Hbooking : In booking (bookings d) /\ hasId id booking = true)
      by (apply find_some in Hfind; exact Hfind).
    destruct Hbooking as [Hbin Hbid].
    assert (x = booking).
    { apply (same_id_same_row _ _ _ Hnd Hx Hbin).
      unfold hasId in *. apply String.eqb_eq in Hid, Hbid. congruence. }
    subst x.
    destruct (isSome (UpdateBookingDto.startTime dto)
              || isSome (UpdateBookingDto.endTime dto)) eqn:Hgiven.
    + apply Htimes. reflexivity.
    + apply orb_false_elim in Hgiven. destruct Hgiven as [Hs He].
      unfold OrderedBooking. cbn.
      destruct (UpdateBookingDto.startTime dto); [discriminate |].
      destruct (UpdateBookingDto.endTime dto); [discriminate |].
      cbn. now apply Hordered.
  - apply cancel_success in Hrun.
    destruct Hrun as [booking [g [_ [_ [_ [_ [Hg ->]]]]]]]. cbn [bookings].
    apply Forall_map. rewrite Forall_forall in *. intros x Hx.
    destruct (hasId id x); [| now apply Hordered].
    unfold OrderedBooking.
    destruct (Hg x) as [_ [_ [-> [-> _]]]]. now apply Hordered.
  - apply remove_success in Hrun. destruct Hrun as [-> _].
    cbn [withoutBooking bookings]. rewrite Forall_forall in *.
    intros x Hx. apply filter_In in Hx. now apply Hordered.
Qed.

(** X2: from a database without duplicate ids in which every booking ends
    after it starts, any run of successful creations, updates of any
    kind, cancellations and removals ends in such a database. *)
Theorem runs_keep_bookings_ordered :
  forall db db' : Db,
    NoDup (bookingIds db) ->
    Forall OrderedBooking (bookings db) ->
    BookingRun AnyUpdate db db' ->
    NoDup (bookingIds db') /\ Forall OrderedBooking (bookings db').
Proof.
  intros db db' Hnd Hordered Hrun.
  induction Hrun as [db | db db' db'' Hrun IH Hstep]; [auto |].
  destruct (IH Hnd Hordered) as [Hnd' Hordered']. split.
  - apply (booking_step_keeps_ids _ _ _ Hstep Hnd').
  - apply (step_keeps_bookings_ordered _ _ Hstep Hnd' Hordered').
Qed.

Lemma runs_keep_bookings_ordered_witness :
  NoDup (bookingIds Sample.afterRun)
  /\ Forall OrderedBooking (bookings Sample.afterRun).
Proof.
  apply (runs_keep_bookings_ordered Sample.emptyDb Sample.afterRun).
  - constructor.
  - constructor.
  - apply sample_run. exact I.
Defined.

(** ** Ownership of a booking *)

(** X3: a caller who does not own a booking can neither read, update, cancel
    nor remove it: each of the four operations is rejected with the
    forbidden error and leaves the database as it was. *)
Theorem non_owner_cannot_touch_booking :
  forall (id userId : string) (dto : UpdateBookingDto.t) (db : Db)
         (booking : Booking.t),
    booking_findUnique id db = Some booking ->
    Booking.userId booking <> userId ->
    Forbidden (BookingsService.findOne id userId db) db
    /\ Forbidden (BookingsService.update id userId dto db) db
    /\ Forbidden (BookingsService.cancelBooking id userId db) db
    /\ Forbidden (BookingsService.remove id userId db) db.
Proof.
  intros id userId dto db booking Hfind Howner.
  assert (Hneq : String.eqb (Booking.userId booking) userId = false)
    by now apply String.eqb_neq.
  unfold Forbidden. repeat split.
  - unfold BookingsService.findOne. run. rewrite Hfind, Hneq.
    eexists. reflexivity.
  - rewrite dashboard_update_run, Hfind, Hneq. eexists. reflexivity.
  - unfold BookingsService.cancelBooking, BookingsService.findOne. run.
    rewrite Hfind. cbn. rewrite Hneq. eexists. reflexivity.
  - unfold BookingsService.remove. run. rewrite Hfind, Hneq.
    eexists. reflexivity.
Qed.

(** Another user on the paid booking of the sample data. *)
Lemma non_owner_cannot_touch_booking_witness :
  Forbidden (BookingsService.remove "booking-1" "owner-2" Sample.paidDb)
    Sample.paidDb.
Proof.
  apply (non_owner_cannot_touch_booking "booking-1" "owner-2"
           (Sample.statusUpdate StatusCancelled) Sample.paidDb
           Sample.paidBooking).
  - reflexivity.
  - discriminate.
Defined.

(** ** Removal of a booking *)

Lemma find_filter_other (id id' : string) (l : list Booking.t) :
  id' <> id ->
  find (hasId id') (filter (fun x => negb (hasId id x)) l)
  = find (hasId id') l.
Proof.
  intros Hne. induction l as [| a l IH]; cbn; [reflexivity |].
  destruct (hasId id a) eqn:Ha, (hasId id' a) eqn:Ha'; cbn;
    rewrite ?Ha'; try reflexivity; try exact IH.
  unfold hasId in *. apply String.eqb_eq in Ha, Ha'. congruence.
Qed.

Lemma find_filter_self (id : string) (l : list Booking.t) :
  find (hasId id) (filter (fun x => negb (hasId id x)) l) = None.
Proof.
  apply find_all_false. intros x Hx. apply filter_In in Hx.
  destruct Hx as [_ Hx]. now apply negb_true_iff in Hx.
Qed.

(** The run of [remove], by the row found under the id. *)
Lemma remove_run (id userId : string) (db : Db) :
  (booking_findUnique id db = None ->
   BookingsService.remove id userId db
   = (inl (NotFoundException "Reserva no encontrada"), db))
  /\ (forall booking : Booking.t,
        booking_findUnique id db = Some booking ->
        Booking.userId booking = userId ->
        BookingsService.remove id userId db
        = (inr "Reserva eliminada exitosamente", withoutBooking db id)).
Proof.
  unfold BookingsService.remove, booking_delete. run. split.
  - intros ->. reflexivity.
  - intros booking Hfind Howner. rewrite Hfind.
    apply String.eqb_eq in Howner. rewrite Howner. cbn.
    rewrite Hfind. reflexivity.
Qed.

(** X4: [remove] of a missing booking is rejected with the not-found error.
    [remove] by the owner deletes the booking: it is no longer found, every
    other booking is found as before, and nothing else changes. *)
Theorem remove_deletes_the_booking :
  forall (id userId : string) (db : Db),
    (booking_findUnique id db = None ->
     NotFound (BookingsService.remove id userId db) db)
    /\ (forall booking : Booking.t,
          booking_findUnique id db = Some booking ->
          Booking.userId booking = userId ->
          BookingsService.remove id userId db
          = (inr "Reserva eliminada exitosamente", withoutBooking db id)
          /\ booking_findUnique id (withoutBooking db id) = None
          /\ (forall id', id' <> id ->
                booking_findUnique id' (withoutBooking db id)
                = booking_findUnique id' db)
          /\ (forall x, In x (bookings (withoutBooking db id)) <->
                        In x (bookings db) /\ Booking.id x <> id)).
Proof.
  intros id userId db. split.
  - intros Hfind. unfold NotFound, BookingsService.remove. run.
    rewrite Hfind. eexists. reflexivity.
  - intros booking Hfind Howner. repeat split.
    + unfold BookingsService.remove, booking_delete. run.
      rewrite Hfind. apply String.eqb_eq in Howner. rewrite Howner. cbn.
      rewrite Hfind. reflexivity.
    + apply find_filter_self.
    + intros id' Hne. apply (find_filter_other id id' _ Hne).
    + cbn in H. apply filter_In in H. tauto.
    + cbn in H. apply filter_In in H. destruct H as [_ H].
      unfold hasId in H. apply negb_true_iff, String.eqb_neq in H. exact H.
    + intros [Hin Hne]. cbn. apply filter_In. split; [exact Hin |].
      unfold hasId. now apply negb_true_iff, String.eqb_neq.
Qed.

Lemma remove_deletes_the_booking_witness :
  BookingsService.remove "booking-1" Sample.owner Sample.paidDb
  = (inr "Reserva eliminada exitosamente",
     withoutBooking Sample.paidDb "booking-1")
  /\ booking_findUnique "booking-1" (withoutBooking Sample.paidDb "booking-1")
     = None.
Proof.
  destruct (remove_deletes_the_booking "booking-1" Sample.owner Sample.paidDb)
    as [_ Hremove].
  destruct (Hremove Sample.paidBooking eq_refl eq_refl) as [Hrun [Hgone _]].
  split; assumption.
Defined.

Lemma filter_out_fresh (id : string) (l : list Booking.t) :
  ~ In id (map Booking.id l) ->
  filter (fun x => negb (hasId id x)) l = l.
Proof.
  induction l as [| a l IH]; cbn; [reflexivity |].
  intros Hfresh. destruct (hasId id a) eqn:Ha; cbn.
  - exfalso. apply Hfresh. left. unfold hasId in Ha.
    now apply String.eqb_eq in Ha.
  - f_equal. apply IH. intros Hin. apply Hfresh. now right.
Qed.

Lemma find_fresh (id : string) (l : list Booking.t) :
  ~ In id (map Booking.id l) -> find (hasId id) l = None.
Proof.
  intros Hfresh. apply find_all_false. intros x Hx.
  unfold hasId. apply String.eqb_neq. intros Heq. apply Hfresh.
  rewrite <- Heq. now apply in_map.
Qed.

Lemma find_appended (id : string) (l : list Booking.t) (row : Booking.t) :
  ~ In id (map Booking.id l) ->
  Booking.id row = id ->
  find (hasId id) (l ++ [row]) = Some row.
Proof.
  intros Hfresh Hrow. induction l as [| a l IH]; cbn.
  - unfold hasId. now rewrite Hrow, String.eqb_refl.
  - destruct (hasId id a) eqn:Ha.
    + exfalso. apply Hfresh. left. unfold hasId in Ha.
      now apply String.eqb_eq in Ha.
    + apply IH. intros Hin. apply Hfresh. now right.
Qed.

Lemma filter_out_appended (id : string) (l : list Booking.t)
  (row : Booking.t) :
  ~ In id (map Booking.id l) ->
  Booking.id row = id ->
  filter (fun x => negb (hasId id x)) (l ++ [row]) = l.
Proof.
  intros Hfresh Hrow. rewrite filter_app, (filter_out_fresh id l Hfresh).
  cbn. unfold hasId. rewrite Hrow, String.eqb_refl. cbn. apply app_nil_r.
Qed.

(** X5: a booking that has just been created by the dashboard can be removed
    by its creator, and the removal gives back the database from before
    the creation. *)
Theorem create_then_remove_restores :
  forall (userId : string) (dto : CreateBookingDto.t) (uuid : string)
         (db db' : Db) (row : Booking.t),
    ~ In uuid (bookingIds db) ->
    BookingsService.create userId dto uuid db = (inr row, db') ->
    BookingsService.remove uuid userId db'
    = (inr "Reserva eliminada exitosamente", db).
Proof.
  intros userId dto uuid db db' row Hfresh Hrun.
  apply dashboard_create_success in Hrun. destruct Hrun as [-> [-> _]].
  set (row := dashboardRow userId dto uuid).
  assert (Hfind : booking_findUnique uuid (withNewBooking db row) = Some row)
    by (apply find_appended; [exact Hfresh | reflexivity]).
  destruct (remove_run uuid userId (withNewBooking db row)) as [_ Hremove].
  rewrite (Hremove row Hfind eq_refl).
  f_equal. unfold withoutBooking. cbn [withNewBooking bookings courts clients
                                         courtAvailabilities].
  rewrite filter_out_appended; [| exact Hfresh | reflexivity].
  now destruct db.
Qed.

Lemma create_then_remove_restores_witness :
  BookingsService.remove "booking-1" Sample.owner
    (withNewBooking Sample.emptyDb
       (dashboardRow Sample.owner
          (Sample.createDto (Sample.at_ 14 0) (Sample.at_ 15 0) None None)
          "booking-1"))
  = (inr "Reserva eliminada exitosamente", Sample.emptyDb).
Proof.
  apply (create_then_remove_restores Sample.owner
           (Sample.createDto (Sample.at_ 14 0) (Sample.at_ 15 0) None None)
           "booking-1" Sample.emptyDb _
           (dashboardRow Sample.owner
              (Sample.createDto (Sample.at_ 14 0) (Sample.at_ 15 0) None None)
              "booking-1")).
  - intros [].
  - vm_compute. reflexivity.
Defined.

(** ** A window that has just been booked *)

(** X6: after a successful dashboard creation that stores an active booking,
    the same window on the same court is no longer available, so that a
    second creation of the same DTO is rejected with the conflict error
    and stores nothing. *)
Theorem dashboard_create_twice_conflicts :
  forall (userId : string) (dto : CreateBookingDto.t) (uuid uuid' : string)
         (db db' : Db) (row : Booking.t),
    BookingsService.create userId dto uuid db = (inr row, db') ->
    ActiveBooking row ->
    BookingsService.checkTimeSlotAvailability (CreateBookingDto.courtId dto)
      (CreateBookingDto.startTime dto) (CreateBookingDto.endTime dto) None db'
    = false
    /\ BookingsService.create userId dto uuid' db'
       = (inl (ConflictException
                 "La cancha no está disponible en el horario seleccionado"),
          db').
Proof.
  intros userId dto uuid uuid' db db' row Hrun Hactive.
  apply dashboard_create_success in Hrun.
  destruct Hrun as [-> [-> [Hlt [_ [court [client [Hco [Hcou [Hcl Hclu]]]]]]]]].
  set (row := dashboardRow userId dto uuid) in *.
  assert (Hcheck :
            BookingsService.checkTimeSlotAvailability
              (CreateBookingDto.courtId dto) (CreateBookingDto.startTime dto)
              (CreateBookingDto.endTime dto) None (withNewBooking db row)
            = false).
  { rewrite checkTimeSlotAvailability_formula.
    apply andb_false_iff. left. apply negb_false_iff, existsb_exists.
    exists row. split; [cbn; apply in_or_app; right; now left |].
    unfold conflictingBookingWhere.
    apply isActiveStatus_ActiveBooking in Hactive. rewrite Hactive.
    cbn [row dashboardRow Booking.courtId truthy].
    rewrite String.eqb_refl. cbn [andb].
    unfold timeOverlapWhere. cbn [row dashboardRow Booking.startTime
                                      Booking.endTime].
    rewrite andb_true_r. zbool. }
  split; [exact Hcheck |].
  rewrite dashboard_create_run.
  change (court_findUnique (CreateBookingDto.courtId dto)
            (withNewBooking db row))
    with (court_findUnique (CreateBookingDto.courtId dto) db).
  change (client_findUnique (CreateBookingDto.clientId dto)
            (withNewBooking db row))
    with (client_findUnique (CreateBookingDto.clientId dto) db).
  rewrite Hco, Hcl, Hcou, Hclu, String.eqb_refl, Hcheck. cbn [negb].
  destruct (Z.leb_spec (CreateBookingDto.endTime dto)
              (CreateBookingDto.startTime dto)); [lia | reflexivity].
Qed.

Lemma dashboard_create_twice_conflicts_witness :
  BookingsService.create Sample.owner
    (Sample.createDto (Sample.at_ 14 0) (Sample.at_ 15 0) None None)
    "booking-2"
    (withNewBooking Sample.emptyDb
       (dashboardRow Sample.owner
          (Sample.createDto (Sample.at_ 14 0) (Sample.at_ 15 0) None None)
          "booking-1"))
  = (inl (ConflictException
            "La cancha no está disponible en el horario seleccionado"),
     withNewBooking Sample.emptyDb
       (dashboardRow Sample.owner
          (Sample.createDto (Sample.at_ 14 0) (Sample.at_ 15 0) None None)
          "booking-1")).
Proof.
  apply (dashboard_create_twice_conflicts Sample.owner
           (Sample.createDto (Sample.at_ 14 0) (Sample.at_ 15 0) None None)
           "booking-1" "booking-2" Sample.emptyDb _
           (dashboardRow Sample.owner
              (Sample.createDto (Sample.at_ 14 0) (Sample.at_ 15 0) None None)
              "booking-1")).
  - vm_compute. reflexivity.
  - left. reflexivity.
Defined.

(** X7: after a successful public creation, a second creation of the same DTO
    is rejected with the bad-request error of an existing booking and
    stores nothing. *)
Theorem public_create_twice_rejected :
  forall (dto : CreatePublicBookingDto.t) (uuid uuid' : string)
         (db db' : Db) (row : Booking.t),
    PublicBookingsController.createBooking dto uuid db = (inr row, db') ->
    PublicBookingsController.createBooking dto uuid' db'
    = (inl (BadRequestException "Ya existe una reserva en ese horario"), db').
Proof.
  intros dto uuid uuid' db db' row Hrun.
  apply public_create_success_inv in Hrun.
  destruct Hrun as [court [Hcourt [Hactive [-> [-> [Hduration [Hav _]]]]]]].
  set (row := publicRow dto uuid court).
  apply andb_prop in Hav. destruct Hav as [Hblocks _].
  assert (Hlt : publicStart dto < publicEnd dto).
  { destruct (Z_lt_le_dec (publicStart dto) (publicEnd dto)) as [| Hle];
      [assumption |].
    exfalso.
    assert ((publicEnd dto - publicStart dto) / (1000 * 60) <= 0)
      by (apply Z.div_le_upper_bound; lia).
    lia. }
  rewrite public_create_run.
  change (court_findUnique (CreatePublicBookingDto.courtId dto)
            (withNewBooking db row))
    with (court_findUnique (CreatePublicBookingDto.courtId dto) db).
  change (publicBlockCheck dto (withNewBooking db row))
    with (publicBlockCheck dto db).
  rewrite Hcourt, Hactive, Hblocks. cbn [negb].
  destruct (Z.leb_spec ((publicEnd dto - publicStart dto) / (1000 * 60)) 0);
    [lia |].
  assert (Hex : existsb (publicConflictWhere dto)
                  (bookings (withNewBooking db row)) = true).
  { apply existsb_exists. exists row.
    split; [cbn; apply in_or_app; right; now left |].
    unfold publicConflictWhere. cbn [row publicRow Booking.courtId
                                         Booking.status isActiveStatus].
    rewrite String.eqb_refl. cbn [andb].
    unfold timeOverlapWhere. cbn [row publicRow Booking.startTime
                                      Booking.endTime].
    zbool. }
  rewrite Hex. reflexivity.
Qed.

Lemma public_create_twice_rejected_witness :
  PublicBookingsController.createBooking
    (Sample.publicDto (mkHHmm 14 0) (mkHHmm 15 0)) "booking-2"
    (withNewBooking Sample.emptyDb
       (publicRow (Sample.publicDto (mkHHmm 14 0) (mkHHmm 15 0)) "booking-1"
          Sample.court1))
  = (inl (BadRequestException "Ya existe una reserva en ese horario"),
     withNewBooking Sample.emptyDb
       (publicRow (Sample.publicDto (mkHHmm 14 0) (mkHHmm 15 0)) "booking-1"
          Sample.court1)).
Proof.
  apply (public_create_twice_rejected
           (Sample.publicDto (mkHHmm 14 0) (mkHHmm 15 0))
           "booking-1" "booking-2" Sample.emptyDb _
           (publicRow (Sample.publicDto (mkHHmm 14 0) (mkHHmm 15 0))
              "booking-1" Sample.court1)).
  vm_compute. reflexivity.
Defined.

(** ** Cancelling and removing free the window *)

Lemma conflict_after_update (courtId : string) (s e : Date) (id : string)
  (g : Booking.t -> Booking.t) (l : list Booking.t) :
  id <> "" ->
  (forall x, isActiveStatus (Booking.status (g x)) = false) ->
  existsb (conflictingBookingWhere courtId s e None)
    (map (fun x => if hasId id x then g x else x) l)
  = existsb (conflictingBookingWhere courtId s e (Some id)) l.
Proof.
  intros Hid Hg. induction l as [| a l IH]; cbn [map existsb]; [reflexivity |].
  rewrite IH. f_equal.
  unfold conflictingBookingWhere. cbn [truthy orElse].
  destruct (String.eqb_spec id ""); [contradiction |]. cbn [negb].
  unfold hasId. destruct (String.eqb (Booking.id a) id); cbn [negb].
  - rewrite Hg.
    destruct (String.eqb (Booking.courtId (g a)) courtId),
      (timeOverlapWhere s e (g a)), (String.eqb (Booking.courtId a) courtId),
      (isActiveStatus (Booking.status a)), (timeOverlapWhere s e a);
      reflexivity.
  - now rewrite !andb_true_r.
Qed.

Lemma conflict_after_delete (courtId : string) (s e : Date) (id : string)
  (l : list Booking.t) :
  id <> "" ->
  existsb (conflictingBookingWhere courtId s e None)
    (filter (fun x => negb (hasId id x)) l)
  = existsb (conflictingBookingWhere courtId s e (Some id)) l.
Proof.
  intros Hid. induction l as [| a l IH]; cbn [filter existsb]; [reflexivity |].
  assert (Ha : conflictingBookingWhere courtId s e (Some id) a
               = negb (hasId id a)
                 && conflictingBookingWhere courtId s e None a).
  { unfold conflictingBookingWhere, hasId. cbn [truthy orElse].
    destruct (String.eqb_spec id ""); [contradiction |]. cbn [negb].
    destruct (String.eqb (Booking.id a) id),
      (String.eqb (Booking.courtId a) courtId),
      (isActiveStatus (Booking.status a)), (timeOverlapWhere s e a);
      reflexivity. }
  rewrite Ha. destruct (hasId id a); cbn [negb andb existsb orb];
    rewrite IH; reflexivity.
Qed.

(** X8: once a booking is cancelled or removed, the availability check
    answers, for every court and window, what it answered before with that
    booking excluded. *)
Theorem cancel_and_remove_free_the_window :
  forall (id userId : string) (db db' : Db),
    id <> "" ->
    (exists row,
        BookingsService.cancelBooking id userId db = (inr row, db'))
    \/ (exists message,
          BookingsService.remove id userId db = (inr message, db')) ->
    forall (courtId : string) (s e : Date),
      BookingsService.checkTimeSlotAvailability courtId s e None db'
      = BookingsService.checkTimeSlotAvailability courtId s e (Some id) db.
Proof.
  intros id userId db db' Hid Hrun courtId s e.
  rewrite !checkTimeSlotAvailability_formula.
  destruct Hrun as [[row Hrun] | [message Hrun]].
  - apply cancel_success in Hrun.
    destruct Hrun as [booking [g [_ [_ [_ [_ [Hg ->]]]]]]].
    cbn [bookings courtAvailabilities].
    rewrite conflict_after_update; [reflexivity | exact Hid |].
    intros x. destruct (Hg x) as [_ [-> _]]. reflexivity.
  - apply remove_success in Hrun. destruct Hrun as [-> _].
    cbn [withoutBooking bookings courtAvailabilities].
    now rewrite conflict_after_delete.
Qed.

(** Cancelling the booking of the sample data frees its window. *)
Lemma cancel_and_remove_free_the_window_witness :
  BookingsService.checkTimeSlotAvailability "court-1"
    (Sample.at_ 14 0) (Sample.at_ 15 0) None
    (snd (BookingsService.cancelBooking "booking-1" Sample.owner
            Sample.bookedDb))
  = BookingsService.checkTimeSlotAvailability "court-1"
      (Sample.at_ 14 0) (Sample.at_ 15 0) (Some "booking-1") Sample.bookedDb.
Proof.
  apply (cancel_and_remove_free_the_window "booking-1" Sample.owner
           Sample.bookedDb).
  - discriminate.
  - left. eexists. vm_compute. reflexivity.
Defined.

(** ** The check on the blocks *)

(** The answer of the block check is decided by the first active block of
    the court and date that meets the window. *)
Lemma block_check_run (dto : CheckAvailabilityDto.t) (db : Db) :
  let blocks :=
    filter (activeBlockWhere (CheckAvailabilityDto.courtId dto)
              (CheckAvailabilityDto.date dto))
      (courtAvailabilities db) in
  let window :=
    blocksWindow (toMinutes (CheckAvailabilityDto.startTime dto))
      (toMinutes (CheckAvailabilityDto.endTime dto)) in
  match find window blocks with
  | None =>
      CourtAvailabilityService.checkAvailability dto db
      = AvailabilityCheck.mk true "Cancha disponible" None None None None
  | Some k =>
      exists message,
        CourtAvailabilityService.checkAvailability dto db
        = AvailabilityCheck.mk false message (Some (Block.reason k))
            (Some (Block.id k))
            (match Block.endTime k with
             | Some _ => Block.startTime k
             | None => None
             end)
            (match Block.startTime k with
             | Some _ => Block.endTime k
             | None => None
             end)
  end.
Proof.
  cbn zeta. unfold CourtAvailabilityService.checkAvailability,
    courtAvailability_findMany, toMinutes.
  rewrite findBlocking_find.
  destruct (filter _ (courtAvailabilities db)) as [| k0 blocks] eqn:Hblocks;
    [reflexivity |].
  cbn [List.length]. rewrite <- Hblocks.
  destruct (Z.eqb_spec (Z.of_nat (S (List.length blocks))) 0); [lia |].
  destruct (find _ _) as [k |]; [| reflexivity].
  destruct (Block.startTime k), (Block.endTime k); eexists; reflexivity.
Qed.


(** The two availability paths compute the same block answer. *)
Lemma block_check_available (dto : CheckAvailabilityDto.t) (db : Db) :
  AvailabilityCheck.available (CourtAvailabilityService.checkAvailability dto db)
  = negb (existsb
            (blocksWindow (toMinutes (CheckAvailabilityDto.startTime dto))
               (toMinutes (CheckAvailabilityDto.endTime dto)))
            (filter (activeBlockWhere (CheckAvailabilityDto.courtId dto)
                       (CheckAvailabilityDto.date dto))
               (courtAvailabilities db))).
Proof.
  pose proof (block_check_run dto db) as Hrun. cbn zeta in Hrun.
  rewrite <- isSome_find_existsb.
  destruct (find _ _) as [k |].
  - destruct Hrun as [message ->]. reflexivity.
  - rewrite Hrun. reflexivity.
Qed.

Lemma existsb_same {A : Type} (f g : A -> bool) (l : list A) :
  (forall x, f x = g x) -> existsb f l = existsb g l.
Proof.
  intros Hfg. induction l as [| a l IH]; cbn; [reflexivity |].
  now rewrite Hfg, IH.
Qed.

Lemma setHours_of_midnight (d : Date) (h m : Z) :
  d mod msPerDay = 0 -> 0 <= h < 24 -> 0 <= m < 60 ->
  setHours (setHours d h m 0 0) 0 0 0 0 = d.
Proof.
  unfold setHours, msPerDay, msPerHour, msPerMinute, msPerSecond.
  intros Hd Hh Hm. Z.to_euclidean_division_equations. lia.
Qed.

(** X10: for a date given at its local midnight and times within the day, the
    two checks of the public creation together answer what the
    availability check of the dashboard answers for the same window. *)
Theorem public_checks_agree_with_dashboard_check :
  forall (dto : CreatePublicBookingDto.t) (db : Db),
    CreatePublicBookingDto.date dto mod msPerDay = 0 ->
    0 <= hour (CreatePublicBookingDto.startTime dto) < 24 ->
    0 <= minute (CreatePublicBookingDto.startTime dto) < 60 ->
    0 <= hour (CreatePublicBookingDto.endTime dto) < 24 ->
    0 <= minute (CreatePublicBookingDto.endTime dto) < 60 ->
    publicAvailable dto db
    = BookingsService.checkTimeSlotAvailability
        (CreatePublicBookingDto.courtId dto) (publicStart dto) (publicEnd dto)
        None db.
Proof.
  intros dto db Hdate Hsh Hsm Heh Hem.
  rewrite checkTimeSlotAvailability_formula. unfold publicAvailable.
  rewrite andb_comm. f_equal.
  - f_equal. apply existsb_same. intros b.
    unfold publicConflictWhere, conflictingBookingWhere. cbn [truthy].
    now rewrite andb_true_r.
  - unfold publicBlockCheck. rewrite block_check_available.
    cbn [CheckAvailabilityDto.courtId CheckAvailabilityDto.date
           CheckAvailabilityDto.startTime CheckAvailabilityDto.endTime].
    unfold publicStart, publicEnd.
    rewrite setHours_of_midnight, !minutesOfDay_setHours by assumption.
    reflexivity.
Qed.

Lemma public_checks_agree_witness :
  publicAvailable (Sample.publicDto (mkHHmm 14 30) (mkHHmm 15 30))
    Sample.bookedDb
  = BookingsService.checkTimeSlotAvailability "court-1"
      (Sample.at_ 14 30) (Sample.at_ 15 30) None Sample.bookedDb.
Proof.
  apply (public_checks_agree_with_dashboard_check
           (Sample.publicDto (mkHHmm 14 30) (mkHHmm 15 30)) Sample.bookedDb);
    cbn; try lia; reflexivity.
Defined.

(** ** The public availability query *)

(** The public availability query, as the cascade of its checks. *)
Lemma public_availability_run (courtId : string) (date : Date)
  (startTime endTime : HHmm) (checkBookings : option string) (db : Db) :
  let dto :=
    CreatePublicBookingDto.mk courtId date startTime endTime true None None in
  PublicCourtsController.checkAvailability courtId date startTime endTime
    checkBookings db =
  match court_findUnique courtId db with
  | None =>
      (inl (NotFoundException
              ("Cancha con ID " ++ courtId ++ " no encontrada")), db)
  | Some court =>
  if negb (Court.isActive court)
  then (inr (AvailabilityCheck.mk false
               "Esta cancha no está disponible actualmente"
               None None None None), db)
  else
  if negb (AvailabilityCheck.available (publicBlockCheck dto db))
  then (inr (publicBlockCheck dto db), db)
  else
  if match checkBookings with
     | Some text => String.eqb text "true"
     | None => false
     end
     && existsb (publicConflictWhere dto) (bookings db)
  then (inr (AvailabilityCheck.mk false "Ya hay una reserva en este horario"
               None None None None), db)
  else (inr (AvailabilityCheck.mk true "Cancha disponible"
               None None None None), db)
  end.
Proof.
  cbn zeta. unfold PublicCourtsController.checkAvailability. run.
  destruct (court_findUnique courtId db) as [court |]; [| reflexivity].
  destruct (negb (Court.isActive court)); [reflexivity |].
  change (CourtAvailabilityService.checkAvailability _ db)
    with (publicBlockCheck
            (CreatePublicBookingDto.mk courtId date startTime endTime true
               None None) db).
  destruct (negb (AvailabilityCheck.available _)); [reflexivity |].
  destruct checkBookings as [text |]; [| reflexivity].
  destruct (String.eqb text "true"); [| reflexivity].
  cbn. unfold booking_count. rewrite count_positive_existsb.
  change (fun b => String.eqb (Booking.courtId b) courtId
                   && isActiveStatus (Booking.status b)
                   && timeOverlapWhere (setHours date (hour startTime)
                                          (minute startTime) 0 0)
                        (setHours date (hour endTime) (minute endTime) 0 0) b)
    with (publicConflictWhere
            (CreatePublicBookingDto.mk courtId date startTime endTime true
               None None)).
  destruct (existsb _ _); reflexivity.
Qed.



(** X12: when the public availability query with [checkBookings = true]
    answers available, a public creation for the same court, date and
    times that has a positive duration and the needed identifiers is
    stored. *)
Theorem public_availability_then_create :
  forall (dto : CreatePublicBookingDto.t) (uuid : string) (db : Db)
         (result : AvailabilityCheck.t),
    fst (PublicCourtsController.checkAvailability
           (CreatePublicBookingDto.courtId dto)
           (CreatePublicBookingDto.date dto)
           (CreatePublicBookingDto.startTime dto)
           (CreatePublicBookingDto.endTime dto) (Some "true") db)
    = inr result ->
    AvailabilityCheck.available result = true ->
    0 < (publicEnd dto - publicStart dto) / (1000 * 60) ->
    publicIdsGiven dto = true ->
    exists court : Court.t,
      PublicBookingsController.createBooking dto uuid db
      = (inr (publicRow dto uuid court),
         withNewBooking db (publicRow dto uuid court)).
Proof.
  intros dto uuid db result Hrun Havailable Hduration Hids.
  rewrite public_availability_run in Hrun. cbn zeta in Hrun.
  change (publicBlockCheck _ db) with (publicBlockCheck dto db) in Hrun.
  change (publicConflictWhere _) with (publicConflictWhere dto) in Hrun.
  destruct (court_findUnique _ db) as [court |] eqn:Hcourt; [| discriminate].
  exists court.
  destruct (Court.isActive court) eqn:Hactive; cbn [negb] in Hrun;
    [| injection Hrun as <-; discriminate].
  destruct (AvailabilityCheck.available (publicBlockCheck dto db)) eqn:Hblocks;
    cbn [negb] in Hrun; [| injection Hrun as <-; congruence].
  cbn [String.eqb andb] in Hrun.
  destruct (existsb (publicConflictWhere dto) (bookings db)) eqn:Hbookings;
    [injection Hrun as <-; discriminate |].
  apply public_create_success; auto.
  - cbn [Booking.duration publicRow]. lia.
  - unfold publicAvailable. now rewrite Hblocks, Hbookings.
Qed.

Lemma public_availability_then_create_witness :
  exists court : Court.t,
    PublicBookingsController.createBooking
      (Sample.publicDto (mkHHmm 15 0) (mkHHmm 16 0)) "booking-2"
      Sample.bookedDb
    = (inr (publicRow (Sample.publicDto (mkHHmm 15 0) (mkHHmm 16 0))
              "booking-2" court),
       withNewBooking Sample.bookedDb
         (publicRow (Sample.publicDto (mkHHmm 15 0) (mkHHmm 16 0))
            "booking-2" court)).
Proof.
  apply (public_availability_then_create
           (Sample.publicDto (mkHHmm 15 0) (mkHHmm 16 0)) "booking-2"
           Sample.bookedDb
           (AvailabilityCheck.mk true "Cancha disponible" None None None None)).
  - vm_compute. reflexivity.
  - reflexivity.
  - reflexivity.
  - reflexivity.
Defined.

(** ** Ordered listings *)

Lemma insertSorted_Permutation {A : Type} (le : A -> A -> bool) (a : A)
  (l : list A) :
  Permutation (insertSorted le a l) (a :: l).
Proof.
  induction l as [| x l IH]; cbn; [reflexivity |].
  destruct (le a x); [reflexivity |].
  rewrite IH. apply perm_swap.
Qed.

(** [orderBy] returns the rows it was given, each as often as given. *)
Lemma orderBy_Permutation {A : Type} (le : A -> A -> bool) (l : list A) :
  Permutation (orderBy le l) l.
Proof.
  induction l as [| a l IH]; cbn; [reflexivity |].
  rewrite insertSorted_Permutation. now constructor.
Qed.

Lemma orderBy_In {A : Type} (le : A -> A -> bool) (l : list A) (x : A) :
  In x (orderBy le l) <-> In x l.
Proof.
  split; apply Permutation_in;
    [| symmetry]; apply orderBy_Permutation.
Qed.

Lemma insertSorted_InOrder {A : Type} (le : A -> A -> bool) (a : A)
  (l : list A) :
  (forall x y, le x y = false -> le y x = true) ->
  (forall x y z, le x y = true -> le y z = true -> le x z = true) ->
  InOrder le l -> InOrder le (insertSorted le a l).
Proof.
  intros Htotal Htrans. induction l as [| x l IH]; cbn.
  - intros _. split; [intros y [] | exact I].
  - intros [Hx Hl]. destruct (le a x) eqn:Hax.
    + cbn. repeat split; auto.
      intros y [<- | Hy]; [exact Hax |].
      apply (Htrans a x y Hax). now apply Hx.
    + cbn. split; [| now apply IH].
      intros y Hy.
      apply (Permutation_in _ (insertSorted_Permutation le a l)) in Hy.
      destruct Hy as [<- | Hy]; [now apply Htotal | now apply Hx].
Qed.

(** For a total and transitive order, [orderBy] returns its rows in that
    order. *)
Lemma orderBy_InOrder {A : Type} (le : A -> A -> bool) (l : list A) :
  (forall x y, le x y = false -> le y x = true) ->
  (forall x y z, le x y = true -> le y z = true -> le x z = true) ->
  InOrder le (orderBy le l).
Proof.
  intros Htotal Htrans. induction l as [| a l IH]; cbn; [exact I |].
  now apply insertSorted_InOrder.
Qed.

Lemma byDateThenStartAsc_total (x y : Booking.t) :
  byDateThenStartAsc x y = false -> byDateThenStartAsc y x = true.
Proof. unfold byDateThenStartAsc. zbool. Qed.

Lemma byDateThenStartAsc_trans (x y z : Booking.t) :
  byDateThenStartAsc x y = true -> byDateThenStartAsc y z = true ->
  byDateThenStartAsc x z = true.
Proof. unfold byDateThenStartAsc. zbool. Qed.

(** ** Listing the active blocks of a range *)

(** X13: for a range [[startDate, endDate]] in order and stored blocks whose
    dates are in order, [getActiveBlocks] lists exactly the active blocks
    of the court whose inclusive date range meets the range, each once,
    by ascending start date. *)
Theorem getActiveBlocks_lists_the_blocks_of_the_range :
  forall (courtId : string) (startDate endDate : Date) (db : Db),
    startDate <= endDate ->
    Forall OrderedDates (courtAvailabilities db) ->
    let listed :=
      CourtAvailabilityService.getActiveBlocks courtId startDate endDate db in
    (forall k : Block.t,
        In k listed <->
        In k (courtAvailabilities db)
        /\ Block.courtId k = courtId
        /\ Block.isActive k = true
        /\ Block.startDate k <= endDate
        /\ startDate <= Block.endDate k)
    /\ InOrder (fun a b => Block.startDate a <=? Block.startDate b) listed
    /\ (NoDup (courtAvailabilities db) -> NoDup listed).
Proof.
  intros courtId startDate endDate db Hrange Hordered listed. subst listed.
  unfold CourtAvailabilityService.getActiveBlocks, courtAvailability_findMany.
  rewrite Forall_forall in Hordered. split; [| split].
  - intros k. rewrite orderBy_In, filter_In.
    unfold CourtAvailabilityService.activeBlocksWhere.
    rewrite !andb_true_iff, String.eqb_eq.
    split.
    + intros [Hin [[Hc Ha] Hdates]]. specialize (Hordered k Hin).
      unfold OrderedDates in Hordered. repeat split; auto.
      * revert Hdates. zbool.
      * revert Hdates. zbool.
    + intros [Hin [Hc [Ha [Hs He]]]]. specialize (Hordered k Hin).
      unfold OrderedDates in Hordered. repeat split; auto. zbool.
  - apply orderBy_InOrder; intros x y; [| intros z]; zbool.
  - intros Hnd.
    apply (Permutation_NoDup
             (Permutation_sym (orderBy_Permutation _ _))).
    now apply NoDup_filter.
Qed.

Lemma getActiveBlocks_witness :
  In (Sample.block "block-1" Sample.day Sample.day None None)
    (CourtAvailabilityService.getActiveBlocks "court-1"
       (Sample.day - msPerDay) (Sample.day + msPerDay) Sample.blockedDb).
Proof.
  destruct (getActiveBlocks_lists_the_blocks_of_the_range "court-1"
              (Sample.day - msPerDay) (Sample.day + msPerDay)
              Sample.blockedDb) as [Hlisted _].
  - unfold msPerDay. lia.
  - repeat constructor. unfold OrderedDates. cbn. lia.
  - apply Hlisted. cbn. unfold Sample.day, msPerDay.
    repeat split; try lia. now left.
Defined.

(** ** Listings of bookings *)

(** The range from midnight to 23:59:59.999 of the day of [d] holds the
    dates of that local day. *)
Lemma day_range_sameDay (d x : Date) :
  (setHours d 0 0 0 0 <=? x) && (x <=? setHours d 23 59 59 999) = true
  <-> sameDay x d.
Proof.
  unfold sameDay, setHours, msPerDay, msPerHour, msPerMinute, msPerSecond.
  rewrite andb_true_iff, Z.leb_le, Z.leb_le.
  pose proof (Z.mod_pos_bound d 86400000 ltac:(lia)).
  pose proof (Z.mod_pos_bound x 86400000 ltac:(lia)).
  pose proof (Z.div_mod d 86400000 ltac:(lia)).
  pose proof (Z.div_mod x 86400000 ltac:(lia)).
  split; intros; nia.
Qed.

Lemma byDateThenStartDesc_total (x y : Booking.t) :
  byDateThenStartDesc x y = false -> byDateThenStartDesc y x = true.
Proof. unfold byDateThenStartDesc. apply byDateThenStartAsc_total. Qed.

Lemma byDateThenStartDesc_trans (x y z : Booking.t) :
  byDateThenStartDesc x y = true -> byDateThenStartDesc y z = true ->
  byDateThenStartDesc x z = true.
Proof.
  unfold byDateThenStartDesc. intros Hxy Hyz.
  exact (byDateThenStartAsc_trans _ _ _ Hyz Hxy).
Qed.

(** X14: the dashboard listing of a court: a missing court and a court of
    another owner are rejected; otherwise the listing holds exactly the
    bookings of the court, of every status, that fall on the day asked for
    (all of them without a day), by ascending date and start, and nothing
    is written. *)
Theorem getCourtBookings_lists_the_court :
  forall (courtId userId : string) (date : option Date) (db : Db),
    match BookingsService.getCourtBookings courtId userId date db with
    | (inl e, db') =>
        db' = db
        /\ ((court_findUnique courtId db = None
             /\ e = NotFoundException "Cancha no encontrada")
            \/ (exists court,
                   court_findUnique courtId db = Some court
                   /\ Court.complexUserId court <> userId
                   /\ exists message, e = ForbiddenException message))
    | (inr listed, db') =>
        db' = db
        /\ (exists court,
               court_findUnique courtId db = Some court
               /\ Court.complexUserId court = userId)
        /\ (forall b : Booking.t,
               In b listed <->
               In b (bookings db)
               /\ Booking.courtId b = courtId
               /\ (forall d, date = Some d -> sameDay (Booking.bookingDate b) d))
        /\ InOrder byDateThenStartAsc listed
    end.
Proof.
  intros courtId userId date db.
  unfold BookingsService.getCourtBookings. run.
  destruct (court_findUnique courtId db) as [court |] eqn:Hcourt.
  2: { split; [reflexivity | left; split; reflexivity]. }
  destruct (String.eqb (Court.complexUserId court) userId) eqn:Howner; cbn.
  - apply String.eqb_eq in Howner. split; [reflexivity |].
    split; [now exists court |]. split.
    + intros b. rewrite orderBy_In. unfold booking_findMany.
      rewrite filter_In, andb_true_iff, String.eqb_eq.
      destruct date as [d |].
      * rewrite day_range_sameDay. split.
        -- intros [Hin [Hc Hd]]. repeat split; auto. now intros ? [= <-].
        -- intros [Hin [Hc Hd]]. repeat split; auto.
      * split.
        -- intros [Hin [Hc _]]. repeat split; auto. discriminate.
        -- intros [Hin [Hc _]]. repeat split; auto.
    + apply orderBy_InOrder.
      * apply byDateThenStartAsc_total.
      * apply byDateThenStartAsc_trans.
  - apply String.eqb_neq in Howner. split; [reflexivity |]. right.
    exists court. repeat split; auto. eexists. reflexivity.
Qed.

(** X15: the listing of [findAll]: without a user and without filters it holds
    every stored booking, of every user; with a user it holds only
    bookings of that user; with both dates it holds only bookings dated
    between them; in every case the rows come by descending date and
    start, each stored row at most once. *)
Theorem findAll_lists_by_filters :
  forall (userId : option string) (filters : BookingFilters.t) (db : Db),
    let listed := BookingsService.findAll userId filters db in
    (userId = None ->
     filters = BookingFilters.mk None None None None None ->
     Permutation listed (bookings db))
    /\ (forall u b, userId = Some u -> u <> "" -> In b listed ->
                    Booking.userId b = u)
    /\ (forall c b, BookingFilters.courtId filters = Some c -> c <> "" ->
                    In b listed -> Booking.courtId b = c)
    /\ (forall from to b,
           BookingFilters.dateFrom filters = Some from ->
           BookingFilters.dateTo filters = Some to ->
           In b listed -> from <= Booking.bookingDate b <= to)
    /\ (forall b, In b listed -> In b (bookings db))
    /\ InOrder byDateThenStartDesc listed.
Proof.
  intros userId filters db listed. subst listed.
  unfold BookingsService.findAll, booking_findMany.
  assert (Hw : forall b,
             In b (orderBy byDateThenStartDesc
                     (filter (BookingsService.findAllWhere userId filters)
                        (bookings db))) ->
             In b (bookings db)
             /\ BookingsService.findAllWhere userId filters b = true).
  { intros b. now rewrite orderBy_In, filter_In. }
  assert (Ht : forall s : string, s <> "" -> truthy (Some s) = true).
  { intros [| c s] Hs; [congruence | reflexivity]. }
  split; [| split; [| split; [| split; [| split]]]].
  - intros -> ->. etransitivity; [apply orderBy_Permutation |].
    cbn. clear. induction (bookings db) as [| a l IH]; cbn; auto.
  - intros u b -> Hu Hin. apply Hw in Hin as [_ Hin].
    unfold BookingsService.findAllWhere in Hin. rewrite (Ht u Hu) in Hin.
    cbn [orElse] in Hin. rewrite !andb_true_iff in Hin.
    now apply String.eqb_eq.
  - intros c b Hc Hne Hin. apply Hw in Hin as [_ Hin].
    unfold BookingsService.findAllWhere in Hin.
    rewrite Hc, (Ht c Hne) in Hin.
    cbn [orElse] in Hin. rewrite !andb_true_iff in Hin.
    now apply String.eqb_eq.
  - intros from to b Hfrom Hto Hin. apply Hw in Hin as [_ Hin].
    unfold BookingsService.findAllWhere in Hin. rewrite Hfrom, Hto in Hin.
    rewrite !andb_true_iff in Hin. lia.
  - intros b Hin. now apply Hw in Hin.
  - apply orderBy_InOrder.
    + apply byDateThenStartDesc_total.
    + apply byDateThenStartDesc_trans.
Qed.

(** ** Pages of the public query *)

Lemma ceilDiv_bounds (a b : Z) :
  0 < b -> (ceilDiv a b - 1) * b < a <= ceilDiv a b * b.
Proof.
  intros Hb. unfold ceilDiv.
  pose proof (Z.div_mod (- a) b ltac:(lia)).
  pose proof (Z.mod_pos_bound (- a) b Hb). nia.
Qed.

Lemma orDefault_positive (n : option Z) (d : Z) :
  1 <= d -> (forall x, n = Some x -> 1 <= x) -> 1 <= orDefault n d.
Proof.
  intros Hd Hn. unfold orDefault. destruct n as [x |]; [| exact Hd].
  specialize (Hn x eq_refl). destruct (Z.eqb_spec x 0); lia.
Qed.

Lemma orderBy_length {A} (le : A -> A -> bool) (l : list A) :
  List.length (orderBy le l) = List.length l.
Proof. apply Permutation_length, orderBy_Permutation. Qed.

(** Cutting a list into [n] pieces of [m] elements, enough to hold it,
    and joining the pieces gives the list back. *)
Lemma chunks_concat {A} (m n : nat) (l : list A) :
  (0 < m)%nat -> (List.length l <= n * m)%nat ->
  List.concat (map (fun p => firstn m (skipn (p * m) l)) (seq 0 n)) = l.
Proof.
  intros Hm. revert l. induction n as [| n IH]; intros l Hl.
  - destruct l; [reflexivity | cbn in Hl; lia].
  - cbn [seq map List.concat]. rewrite <- seq_shift, map_map.
    rewrite (map_ext _ (fun p => firstn m (skipn (p * m) (skipn m l)))).
    + rewrite IH; [apply firstn_skipn |]. rewrite length_skipn. lia.
    + intros p. rewrite skipn_skipn. f_equal. f_equal. lia.
Qed.

(** X16: the sizes of the pages of [queryBookings], for a page and a limit of
    at least 1 when they are given: [totalPages] is the least number of
    pages of [limit] rows that hold the [total] matching bookings; every
    page before the last one is full, the last one holds between 1 and
    [limit] rows, and a page after the last one is empty. *)
Theorem queryBookings_page_sizes :
  forall (query_ : QueryPublicBookingsDto.t) (db : Db),
    (forall n, QueryPublicBookingsDto.page query_ = Some n -> 1 <= n) ->
    (forall n, QueryPublicBookingsDto.limit query_ = Some n -> 1 <= n) ->
    let r := PublicBookingsController.queryBookings query_ db in
    let rows := Z.of_nat (List.length (BookingsPage.data r)) in
    BookingsPage.total r
    = Z.of_nat (List.length
                  (filter (PublicBookingsController.queryWhere query_)
                     (bookings db)))
    /\ (BookingsPage.totalPages r - 1) * BookingsPage.limit r
       < BookingsPage.total r
       <= BookingsPage.totalPages r * BookingsPage.limit r
    /\ (BookingsPage.page r < BookingsPage.totalPages r ->
        rows = BookingsPage.limit r)
    /\ (BookingsPage.page r = BookingsPage.totalPages r ->
        1 <= rows <= BookingsPage.limit r)
    /\ (BookingsPage.totalPages r < BookingsPage.page r ->
        BookingsPage.data r = []).
Proof.
  intros query_ db Hpage Hlimit r rows. subst rows r.
  unfold PublicBookingsController.queryBookings.
  cbn [BookingsPage.data BookingsPage.page BookingsPage.limit
         BookingsPage.total BookingsPage.totalPages].
  pose proof (orDefault_positive _ 1 ltac:(lia) Hpage) as Hp.
  pose proof (orDefault_positive _ 10 ltac:(lia) Hlimit) as Hl.
  set (page := orDefault (QueryPublicBookingsDto.page query_) 1) in *.
  set (limit := orDefault (QueryPublicBookingsDto.limit query_) 10) in *.
  unfold booking_count, booking_findMany, skipTake.
  set (matching :=
         filter (PublicBookingsController.queryWhere query_) (bookings db)).
  pose proof (ceilDiv_bounds (Z.of_nat (List.length matching)) limit
                ltac:(lia)) as Hceil.
  set (pages := ceilDiv (Z.of_nat (List.length matching)) limit) in *.
  assert (Hrows :
            Z.of_nat
              (List.length
                 (firstn (Z.to_nat limit)
                    (skipn (Z.to_nat ((page - 1) * limit))
                       (orderBy byDateThenStartAsc matching))))
            = Z.min limit
                (Z.max 0 (Z.of_nat (List.length matching)
                          - (page - 1) * limit))).
  { rewrite length_firstn, length_skipn, orderBy_length.
    assert (0 <= (page - 1) * limit) by nia. lia. }
  split; [reflexivity |]. split; [exact Hceil |].
  split; [| split].
  - intros Hlt. rewrite Hrows. nia.
  - intros Heq. rewrite Hrows. nia.
  - intros Hgt.
    apply length_zero_iff_nil. apply Nat2Z.inj. rewrite Hrows. nia.
Qed.

Lemma queryBookings_page_sizes_witness :
  let r :=
    PublicBookingsController.queryBookings
      (Sample.pageQuery None (Some 1) (Some 1)) Sample.threeBookingsDb in
  BookingsPage.total r = 2 /\ BookingsPage.totalPages r = 2
  /\ List.length (BookingsPage.data r) = 1%nat.
Proof.
  destruct (queryBookings_page_sizes
              (Sample.pageQuery None (Some 1) (Some 1))
              Sample.threeBookingsDb) as [Htotal [_ [Hfull _]]].
  - intros n [= <-]. lia.
  - intros n [= <-]. lia.
  - cbv zeta in *. split; [exact Htotal |]. split; [reflexivity |].
    apply Nat2Z.inj. apply Hfull. vm_compute. reflexivity.
Defined.

Lemma queryWhere_withPage (query_ : QueryPublicBookingsDto.t) (p : Z) :
  PublicBookingsController.queryWhere (withPage query_ p)
  = PublicBookingsController.queryWhere query_.
Proof. reflexivity. Qed.

(** X17: reading the pages 1 to [totalPages] of [queryBookings] one after the
    other, with a limit of at least 1 when it is given, gives every
    matching booking once, by ascending date and start. *)
Theorem queryBookings_pages_cover_the_matches :
  forall (query_ : QueryPublicBookingsDto.t) (db : Db),
    (forall n, QueryPublicBookingsDto.limit query_ = Some n -> 1 <= n) ->
    Permutation (pagesOf query_ db)
      (filter (PublicBookingsController.queryWhere query_) (bookings db))
    /\ InOrder byDateThenStartAsc (pagesOf query_ db).
Proof.
  intros query_ db Hlimit.
  pose proof (orDefault_positive _ 10 ltac:(lia) Hlimit) as Hl.
  assert (Hall :
            pagesOf query_ db
            = orderBy byDateThenStartAsc
                (filter (PublicBookingsController.queryWhere query_)
                   (bookings db))).
  { unfold pagesOf, PublicBookingsController.queryBookings.
    cbn [BookingsPage.data BookingsPage.totalPages].
    unfold booking_count, booking_findMany, skipTake.
    set (limit := orDefault (QueryPublicBookingsDto.limit query_) 10) in *.
    set (matching :=
           filter (PublicBookingsController.queryWhere query_) (bookings db)).
    pose proof (ceilDiv_bounds (Z.of_nat (List.length matching)) limit
                  ltac:(lia)) as Hceil.
    set (pages := ceilDiv (Z.of_nat (List.length matching)) limit) in *.
    erewrite map_ext.
    - apply (chunks_concat (Z.to_nat limit) (Z.to_nat pages)); [lia |].
      rewrite orderBy_length. nia.
    - intros p. cbn beta. rewrite queryWhere_withPage.
      fold matching. cbn [withPage QueryPublicBookingsDto.limit
                            QueryPublicBookingsDto.page orDefault].
      fold limit.
      replace (Z.of_nat p + 1 =? 0) with false
        by (symmetry; apply Z.eqb_neq; lia).
      replace (Z.to_nat ((Z.of_nat p + 1 - 1) * limit))
        with (p * Z.to_nat limit)%nat
        by (rewrite Z.add_simpl_r, Z2Nat.inj_mul, Nat2Z.id by lia;
            reflexivity).
      reflexivity. }
  rewrite Hall. split.
  - apply orderBy_Permutation.
  - apply orderBy_InOrder.
    + apply byDateThenStartAsc_total.
    + apply byDateThenStartAsc_trans.
Qed.

Lemma queryBookings_pages_cover_witness :
  InOrder byDateThenStartAsc
    (pagesOf (Sample.pageQuery None None (Some 1)) Sample.threeBookingsDb).
Proof.
  apply (queryBookings_pages_cover_the_matches
           (Sample.pageQuery None None (Some 1)) Sample.threeBookingsDb).
  intros n [= <-]. lia.
Defined.

(** ** Filters of the public listings *)

Lemma skipTake_In {A} (skip take : Z) (l : list A) (x : A) :
  In x (skipTake skip take l) -> In x l.
Proof.
  unfold skipTake. intros Hin.
  rewrite <- (firstn_skipn (Z.to_nat skip) l). apply in_or_app. right.
  rewrite <- (firstn_skipn (Z.to_nat take) (skipn (Z.to_nat skip) l)).
  apply in_or_app. now left.
Qed.

Lemma BookingStatus_toString_eqb (a b : BookingStatus) :
  String.eqb (BookingStatus_toString a) (BookingStatus_toString b) = true
  <-> a = b.
Proof. destruct a, b; cbn; split; congruence. Qed.

(** X18: the filters of [queryBookings]: every listed booking is stored;
    without a status in the query it is pending or confirmed, with a
    status it has that status, whichever it is; with a date it falls on
    that day.  Without a date the two time filters are ignored. *)
Theorem queryBookings_filters :
  forall (query_ : QueryPublicBookingsDto.t) (db : Db),
    (forall b : Booking.t,
        In b (BookingsPage.data
                (PublicBookingsController.queryBookings query_ db)) ->
        In b (bookings db)
        /\ (QueryPublicBookingsDto.status query_ = None ->
            isActiveStatus (Booking.status b) = true)
        /\ (forall s, QueryPublicBookingsDto.status query_ = Some s ->
                      Booking.status b = s)
        /\ (forall d, QueryPublicBookingsDto.date query_ = Some d ->
                      sameDay (Booking.bookingDate b) d))
    /\ (QueryPublicBookingsDto.date query_ = None ->
        PublicBookingsController.queryBookings query_ db
        = PublicBookingsController.queryBookings (withoutTimes query_) db).
Proof.
  intros query_ db. split.
  - intros b Hin. unfold PublicBookingsController.queryBookings in Hin.
    cbn [BookingsPage.data] in Hin. apply skipTake_In in Hin.
    rewrite orderBy_In in Hin. unfold booking_findMany in Hin.
    apply filter_In in Hin as [Hin Hw]. split; [exact Hin |].
    unfold PublicBookingsController.queryWhere in Hw.
    rewrite !andb_true_iff in Hw.
    destruct Hw as [[[[Hstatus _] Hdate] _] _].
    split; [| split].
    + intros Hnone. now rewrite Hnone in Hstatus.
    + intros s Hs. rewrite Hs in Hstatus.
      now apply BookingStatus_toString_eqb.
    + intros d Hd. rewrite Hd in Hdate. now apply day_range_sameDay.
  - intros Hdate.
    assert (Hw : PublicBookingsController.queryWhere (withoutTimes query_)
                 = PublicBookingsController.queryWhere query_).
    { unfold PublicBookingsController.queryWhere, withoutTimes.
      cbn [QueryPublicBookingsDto.status QueryPublicBookingsDto.courtId
             QueryPublicBookingsDto.date QueryPublicBookingsDto.startTime
             QueryPublicBookingsDto.endTime].
      rewrite Hdate.
      destruct (QueryPublicBookingsDto.startTime query_),
        (QueryPublicBookingsDto.endTime query_); reflexivity. }
    unfold PublicBookingsController.queryBookings. rewrite Hw. reflexivity.
Qed.

(** X19: the listing of [getBookingsByCourt] holds exactly the pending and
    confirmed bookings of the court, dated between the two dates when
    both are given, by ascending date and start; with only one of the
    two dates the listing is the one without dates. *)
Theorem getBookingsByCourt_lists_active_bookings :
  forall (courtId : string) (startDate endDate : option Date) (db : Db),
    let listed :=
      PublicBookingsController.getBookingsByCourt courtId startDate endDate db
    in
    (forall b : Booking.t,
        In b listed <->
        In b (bookings db)
        /\ Booking.courtId b = courtId
        /\ isActiveStatus (Booking.status b) = true
        /\ (forall s e, startDate = Some s -> endDate = Some e ->
                        s <= Booking.bookingDate b <= e))
    /\ InOrder byDateThenStartAsc listed
    /\ (startDate = None \/ endDate = None ->
        listed
        = PublicBookingsController.getBookingsByCourt courtId None None db).
Proof.
  intros courtId startDate endDate db listed. subst listed.
  unfold PublicBookingsController.getBookingsByCourt, booking_findMany.
  split; [| split].
  - intros b. rewrite orderBy_In, filter_In, !andb_true_iff, String.eqb_eq.
    destruct startDate as [s |], endDate as [e |];
      try (split;
           [ intros [Hin [[Hc Ha] _]];
             split; [| split; [| split]]; auto; discriminate
           | intros [Hin [Hc [Ha _]]]; split; [| split; [split |]]; auto ]).
    rewrite andb_true_iff, !Z.leb_le. split.
    + intros [Hin [[Hc Ha] Hd]]. split; [| split; [| split]]; auto.
      intros ? ? [= <-] [= <-]. lia.
    + intros [Hin [Hc [Ha Hd]]]. specialize (Hd s e eq_refl eq_refl).
      split; [| split; [split |]]; auto.
  - apply orderBy_InOrder.
    + apply byDateThenStartAsc_total.
    + apply byDateThenStartAsc_trans.
  - intros [-> | ->]; [reflexivity |]. now destruct startDate.
Qed.

(** ** Counts of the bookings *)

Lemma count_by_status (where_ : Booking.t -> bool) (l : list Booking.t) :
  let withStatus (status : BookingStatus) (b : Booking.t) :=
    where_ b
    && String.eqb (BookingStatus_toString (Booking.status b))
         (BookingStatus_toString status) in
  List.length (filter where_ l)
  = (List.length (filter (withStatus StatusPending) l)
     + List.length (filter (withStatus StatusConfirmed) l)
     + List.length (filter (withStatus StatusCancelled) l)
     + List.length (filter (withStatus StatusCompleted) l))%nat.
Proof.
  cbv zeta. induction l as [| a l IH]; [reflexivity |].
  cbn [filter]. destruct (where_ a); cbn [andb]; [| exact IH].
  destruct (Booking.status a);
    repeat match goal with
      | |- context [String.eqb ?x ?y] =>
          let v := eval vm_compute in (String.eqb x y) in
          change (String.eqb x y) with v
      end;
    cbn [List.length]; lia.
Qed.

(** X20: the four counts by status of [getBookingStats] add up to its total:
    every booking of the user in the range is counted under exactly one
    status. *)
Theorem getBookingStats_counts_add_up :
  forall (userId : string) (dateFrom dateTo : option Date) (db : Db),
    let stats := BookingsService.getBookingStats userId dateFrom dateTo db in
    BookingStats.total stats
    = BookingStats.pending stats + BookingStats.confirmed stats
      + BookingStats.cancelled stats + BookingStats.completed stats
    /\ 0 <= BookingStats.pending stats
    /\ 0 <= BookingStats.confirmed stats
    /\ 0 <= BookingStats.cancelled stats
    /\ 0 <= BookingStats.completed stats.
Proof.
  intros userId dateFrom dateTo db stats. subst stats.
  unfold BookingsService.getBookingStats, booking_count.
  cbn [BookingStats.total BookingStats.pending BookingStats.confirmed
         BookingStats.cancelled BookingStats.completed].
  rewrite (count_by_status
             (BookingsService.statsWhere userId dateFrom dateTo)
             (bookings db)).
  cbv zeta. lia.
Qed.

(** ** Operations on the blocks *)

(** [findOne] on a block, by the row and the court found. *)
Lemma block_findOne_run (id userId : string) (db : Db) :
  CourtAvailabilityService.findOne id userId db =
  match courtAvailability_findUnique id db with
  | None =>
      (inl (NotFoundException ("Bloqueo con ID " ++ id ++ " no encontrado")),
       db)
  | Some availability =>
      match court_findUnique (Block.courtId availability) db with
      | None => (inl InternalServerError, db)
      | Some court =>
          if String.eqb (Court.complexUserId court) userId
          then (inr availability, db)
          else (inl (ForbiddenException
                       "No tienes permiso para ver este bloqueo"), db)
      end
  end.
Proof.
  unfold CourtAvailabilityService.findOne. run.
  destruct (courtAvailability_findUnique id db) as [k |]; [| reflexivity].
  destruct (court_findUnique (Block.courtId k) db) as [c |]; [| reflexivity].
  now destruct (String.eqb (Court.complexUserId c) userId).
Qed.

Lemma block_findOne_success (id userId : string) (db db' : Db) (k : Block.t) :
  CourtAvailabilityService.findOne id userId db = (inr k, db') ->
  db' = db
  /\ courtAvailability_findUnique id db = Some k
  /\ exists court,
      court_findUnique (Block.courtId k) db = Some court
      /\ Court.complexUserId court = userId.
Proof.
  rewrite block_findOne_run.
  destruct (courtAvailability_findUnique id db) as [row |]; [| discriminate].
  destruct (court_findUnique (Block.courtId row) db) as [c |] eqn:Hc;
    [| discriminate].
  destruct (String.eqb (Court.complexUserId c) userId) eqn:Ho;
    [| discriminate].
  intros [= <- <-]. apply String.eqb_eq in Ho.
  split; [reflexivity |]. split; [reflexivity |]. now exists c.
Qed.

Lemma block_update_success (id userId : string)
  (dto : UpdateCourtAvailabilityDto.t) (db db' : Db) (k : Block.t) :
  CourtAvailabilityService.update id userId dto db = (inr k, db') ->
  db' = withBlocksUpdated db id (CourtAvailabilityService.updateData dto)
  /\ (forall s e,
         UpdateCourtAvailabilityDto.startDate dto = Some s ->
         UpdateCourtAvailabilityDto.endDate dto = Some e -> s <= e)
  /\ (forall s e,
         UpdateCourtAvailabilityDto.startTime dto = Some (Some s) ->
         UpdateCourtAvailabilityDto.endTime dto = Some (Some e) ->
         toMinutes s < toMinutes e).
Proof.
  unfold CourtAvailabilityService.update. unfold bind at 1.
  destruct (CourtAvailabilityService.findOne id userId db) as [[e | row] db1]
    eqn:Hfind; [discriminate |].
  apply block_findOne_success in Hfind as [-> [Hrow _]]. run.
  unfold toMinutes.
  destruct (UpdateCourtAvailabilityDto.startDate dto) as [sd |],
    (UpdateCourtAvailabilityDto.endDate dto) as [ed |];
    try destruct (Z.ltb_spec ed sd) as [| Hdates]; try discriminate;
    destruct (UpdateCourtAvailabilityDto.startTime dto) as [[ts |] |],
      (UpdateCourtAvailabilityDto.endTime dto) as [[te |] |];
    cbn [join];
    try destruct (Z.leb_spec (hour te * 60 + minute te)
                    (hour ts * 60 + minute ts)) as [| Htimes];
    try discriminate;
    unfold courtAvailability_update; rewrite Hrow; intros [= _ <-];
    (split; [reflexivity |]);
    (split; intros s e Hs He; try discriminate;
     injection Hs as <-; injection He as <-; assumption).
Qed.

Lemma block_toggle_success (id userId : string) (db db' : Db) (k : Block.t) :
  CourtAvailabilityService.toggleActive id userId db = (inr k, db') ->
  exists row,
    courtAvailability_findUnique id db = Some row
    /\ CourtAvailabilityService.findOne id userId db = (inr row, db)
    /\ k = withActive (negb (Block.isActive row)) row
    /\ db' = withBlocksUpdated db id (withActive (negb (Block.isActive row))).
Proof.
  unfold CourtAvailabilityService.toggleActive, bind.
  destruct (CourtAvailabilityService.findOne id userId db) as [[e | row] db1]
    eqn:Hfind; [discriminate |].
  pose proof Hfind as Hfound.
  apply block_findOne_success in Hfound as [-> [Hrow _]].
  unfold courtAvailability_update. rewrite Hrow. intros [= <- <-].
  exists row. repeat split; auto.
Qed.

Lemma block_remove_success (id userId : string) (db db' : Db)
  (message : string) :
  CourtAvailabilityService.remove id userId db = (inr message, db') ->
  db' = withoutBlock db id.
Proof.
  unfold CourtAvailabilityService.remove. unfold bind at 1.
  destruct (CourtAvailabilityService.findOne id userId db) as [[e | row] db1]
    eqn:Hfind; [discriminate |].
  apply block_findOne_success in Hfind as [-> [Hrow _]]. run.
  unfold courtAvailability_delete. rewrite Hrow. now intros [= _ <-].
Qed.

Lemma updateData_keeps_invariant (dto : UpdateCourtAvailabilityDto.t)
  (x : Block.t) :
  WholeFields dto ->
  (forall s e,
      UpdateCourtAvailabilityDto.startDate dto = Some s ->
      UpdateCourtAvailabilityDto.endDate dto = Some e -> s <= e) ->
  (forall s e,
      UpdateCourtAvailabilityDto.startTime dto = Some (Some s) ->
      UpdateCourtAvailabilityDto.endTime dto = Some (Some e) ->
      toMinutes s < toMinutes e) ->
  BlockInvariant x ->
  BlockInvariant (CourtAvailabilityService.updateData dto x).
Proof.
  intros [Hd Ht] Hdates Htimes [Hxd Hxt].
  unfold BlockInvariant, OrderedDates, OrderedTimes in *.
  unfold CourtAvailabilityService.updateData. cbn.
  destruct (UpdateCourtAvailabilityDto.startDate dto) as [s |],
    (UpdateCourtAvailabilityDto.endDate dto) as [e |];
    try discriminate Hd; cbn [orElse];
    (split; [first [now apply Hdates | exact Hxd] |]);
    destruct (UpdateCourtAvailabilityDto.startTime dto) as [[ts |] |],
      (UpdateCourtAvailabilityDto.endTime dto) as [[te |] |];
    try discriminate Ht; cbn [orElse];
    intros bs be Hbs Hbe; try discriminate;
    first [ now apply Hxt
          | injection Hbs as <-; injection Hbe as <-; now apply Htimes ].
Qed.

Lemma block_step_keeps_invariant (db db' : Db) :
  BlockStep db db' ->
  Forall BlockInvariant (courtAvailabilities db) ->
  Forall BlockInvariant (courtAvailabilities db').
Proof.
  intros Hstep Hinv. destruct Hstep as
    [userId dto uuid db db' row Hfresh Hrun
    | id userId dto db db' row Hwhole Hrun
    | id userId db db' row Hrun
    | id userId db db' message Hrun].
  - apply blackout_create_establishes_invariant in Hrun as [Hrow ->].
    apply Forall_app. split; [exact Hinv | now constructor].
  - apply block_update_success in Hrun as [-> [Hdates Htimes]].
    cbn. rewrite Forall_forall in *. intros x Hx.
    apply in_map_iff in Hx as [y [<- Hy]].
    destruct (String.eqb (Block.id y) id); [| now apply Hinv].
    apply updateData_keeps_invariant; auto.
  - apply block_toggle_success in Hrun as [found [_ [_ [_ ->]]]].
    cbn. rewrite Forall_forall in *. intros x Hx.
    apply in_map_iff in Hx as [y [<- Hy]].
    destruct (String.eqb (Block.id y) id); [| now apply Hinv].
    exact (Hinv y Hy).
  - apply block_remove_success in Hrun as ->.
    cbn. rewrite Forall_forall in *. intros x Hx.
    apply filter_In in Hx as [Hx _]. now apply Hinv.
Qed.

(** X21: blocks that start before they end, in their dates and in their times,
    stay so over any sequence of successful creations, updates that carry
    both dates or none and both times or none, switches of the active
    flag and removals. *)
Theorem block_runs_keep_blocks_ordered :
  forall db db' : Db,
    BlockRun db db' ->
    Forall BlockInvariant (courtAvailabilities db) ->
    Forall BlockInvariant (courtAvailabilities db').
Proof.
  intros db db' Hrun Hinv. induction Hrun as [| db db' db'' _ IH Hstep].
  - exact Hinv.
  - apply (block_step_keeps_invariant db' db'' Hstep). now apply IH.
Qed.

Lemma sample_block_run : BlockRun Sample.emptyDb Sample.afterBlockRun.
Proof.
  eapply BlockRunStep; [eapply BlockRunStep; [eapply BlockRunStep |] |].
  - apply BlockRunDone.
  - eapply (BlockCreate Sample.owner Sample.blockDto "block-1").
    + intros [].
    + vm_compute. reflexivity.
  - eapply (BlockUpdate "block-1" Sample.owner Sample.wholeUpdate).
    + split; reflexivity.
    + vm_compute. reflexivity.
  - eapply (BlockToggle "block-1" Sample.owner).
    vm_compute. reflexivity.
Defined.

Lemma block_runs_keep_blocks_ordered_witness :
  Forall BlockInvariant (courtAvailabilities Sample.afterBlockRun).
Proof.
  apply (block_runs_keep_blocks_ordered Sample.emptyDb Sample.afterBlockRun).
  - exact sample_block_run.
  - constructor.
Defined.

(** ** Ownership of a block *)



(** ** Switching a block *)

Lemma block_find_In (id : string) (l : list Block.t) (row : Block.t) :
  find (fun b => String.eqb (Block.id b) id) l = Some row ->
  In row l /\ Block.id row = id.
Proof.
  intros Hfind. apply find_some in Hfind as [Hin Hid].
  now apply String.eqb_eq in Hid.
Qed.

Lemma block_same_id_same_row (l : list Block.t) (a b : Block.t) :
  NoDup (map Block.id l) ->
  In a l -> In b l -> Block.id a = Block.id b -> a = b.
Proof.
  induction l as [| x l IH]; cbn; [intros _ [] |].
  intros Hnd Ha Hb Hid. inversion Hnd as [| ? ? Hnotin Hnd']; subst.
  destruct Ha as [-> | Ha], Hb as [-> | Hb].
  - reflexivity.
  - exfalso. apply Hnotin. rewrite Hid. now apply in_map.
  - exfalso. apply Hnotin. rewrite <- Hid. now apply in_map.
  - now apply IH.
Qed.

Lemma block_find_updated (id : string) (g : Block.t -> Block.t)
  (l : list Block.t) (row : Block.t) :
  (forall x, Block.id (g x) = Block.id x) ->
  find (fun b => String.eqb (Block.id b) id) l = Some row ->
  find (fun b => String.eqb (Block.id b) id)
    (map (fun x => if String.eqb (Block.id x) id then g x else x) l)
  = Some (g row).
Proof.
  intros Hg. induction l as [| a l IH]; cbn; [discriminate |].
  destruct (String.eqb (Block.id a) id) eqn:Ha.
  - intros [= <-]. now rewrite Hg, Ha.
  - rewrite Ha. exact IH.
Qed.

(** X23: with distinct identifiers of the blocks, switching a block twice
    gives the database back: the second switch succeeds, returns the
    block as it was stored, and undoes the first one. *)
Theorem toggleActive_twice_restores :
  forall (id userId : string) (db db1 : Db) (k1 : Block.t),
    NoDup (blockIds db) ->
    CourtAvailabilityService.toggleActive id userId db = (inr k1, db1) ->
    exists k : Block.t,
      courtAvailability_findUnique id db = Some k
      /\ Block.isActive k1 = negb (Block.isActive k)
      /\ CourtAvailabilityService.toggleActive id userId db1 = (inr k, db).
Proof.
  intros id userId db db1 k1 Hnodup Hrun.
  apply block_toggle_success in Hrun as [row [Hrow [Hfind [-> ->]]]].
  exists row. split; [exact Hrow |]. split; [reflexivity |].
  apply block_findOne_success in Hfind as [_ [_ [court [Hcourt Howner]]]].
  set (flag := negb (Block.isActive row)).
  assert (Hrow1 : courtAvailability_findUnique id
                    (withBlocksUpdated db id (withActive flag))
                  = Some (withActive flag row)).
  { unfold courtAvailability_findUnique, withBlocksUpdated. cbn.
    now apply block_find_updated. }
  unfold CourtAvailabilityService.toggleActive, bind.
  rewrite block_findOne_run, Hrow1.
  change (court_findUnique (Block.courtId (withActive flag row))
            (withBlocksUpdated db id (withActive flag)))
    with (court_findUnique (Block.courtId row) db).
  rewrite Hcourt. apply String.eqb_eq in Howner. rewrite Howner.
  unfold courtAvailability_update. rewrite Hrow1.
  apply block_find_In in Hrow as [Hin Hid].
  f_equal.
  - f_equal. subst flag. destruct row. cbn. now rewrite negb_involutive.
  - unfold withBlocksUpdated. destruct db as [cs cl bs ks]. cbn in *.
    f_equal. rewrite map_map. rewrite <- (map_id ks) at 2.
    apply map_ext_in. intros x Hx.
    destruct (String.eqb (Block.id x) id) eqn:Hx'.
    + cbn [withActive Block.id]. rewrite Hx'.
      apply String.eqb_eq in Hx'.
      assert (x = row)
        by (apply (block_same_id_same_row ks); auto; congruence).
      subst x flag. destruct row. cbn. now rewrite negb_involutive.
    + now rewrite Hx'.
Qed.

Lemma toggleActive_twice_witness :
  exists k : Block.t,
    CourtAvailabilityService.toggleActive "block-1" Sample.owner
      (snd (CourtAvailabilityService.toggleActive "block-1" Sample.owner
              Sample.blockedDb))
    = (inr k, Sample.blockedDb).
Proof.
  destruct (toggleActive_twice_restores "block-1" Sample.owner
              Sample.blockedDb
              (snd (CourtAvailabilityService.toggleActive "block-1"
                      Sample.owner Sample.blockedDb))
              (withActive false
                 (Sample.block "block-1" Sample.day Sample.day None None)))
    as [k [_ [_ Hback]]].
  - repeat constructor. intros [].
  - reflexivity.
  - exists k. exact Hback.
Defined.

(** ** A block that is switched off *)

Lemma filter_switched_off (id : string) (f : Block.t -> bool)
  (l : list Block.t) :
  (forall x, f x = true -> Block.isActive x = true) ->
  filter f (map (fun x => if String.eqb (Block.id x) id
                          then withActive false x else x) l)
  = filter f (filter (fun x => negb (String.eqb (Block.id x) id)) l).
Proof.
  intros Hactive. induction l as [| a l IH]; cbn; [reflexivity |].
  destruct (String.eqb (Block.id a) id); cbn.
  - destruct (f (withActive false a)) eqn:Hf; [| exact IH].
    apply Hactive in Hf. discriminate Hf.
  - now rewrite IH.
Qed.

(** X24: switching an active block off has the effect of removing it on every
    reader of the active blocks: the removal would succeed too, and the
    check on the blocks, the listing of the active blocks and the public
    slots of a day are the same after either. *)
Theorem switched_off_block_is_as_removed :
  forall (id userId : string) (db db1 : Db) (k : Block.t),
    CourtAvailabilityService.toggleActive id userId db = (inr k, db1) ->
    Block.isActive k = false ->
    CourtAvailabilityService.remove id userId db
    = (inr "Bloqueo eliminado exitosamente", withoutBlock db id)
    /\ (forall checkDto,
           CourtAvailabilityService.checkAvailability checkDto db1
           = CourtAvailabilityService.checkAvailability checkDto
               (withoutBlock db id))
    /\ (forall courtId startDate endDate,
           CourtAvailabilityService.getActiveBlocks courtId startDate endDate
             db1
           = CourtAvailabilityService.getActiveBlocks courtId startDate
               endDate (withoutBlock db id))
    /\ (forall courtId date,
           fst (PublicCourtsController.getAvailableSlots courtId date db1)
           = fst (PublicCourtsController.getAvailableSlots courtId date
                    (withoutBlock db id))).
Proof.
  intros id userId db db1 k Hrun Hoff.
  apply block_toggle_success in Hrun as [row [Hrow [Hfind [-> ->]]]].
  cbn in Hoff. rewrite Hoff.
  assert (Hfilter : forall f,
             (forall x, f x = true -> Block.isActive x = true) ->
             courtAvailability_findMany f
               (withBlocksUpdated db id (withActive false))
             = courtAvailability_findMany f (withoutBlock db id)).
  { intros f Hf. unfold courtAvailability_findMany. cbn.
    now apply filter_switched_off. }
  split; [| split; [| split]].
  - unfold CourtAvailabilityService.remove. unfold bind at 1.
    rewrite Hfind. run. unfold courtAvailability_delete. now rewrite Hrow.
  - intros checkDto. unfold CourtAvailabilityService.checkAvailability.
    rewrite Hfilter; [reflexivity |].
    intros x Hx. unfold activeBlockWhere in Hx.
    rewrite !andb_true_iff in Hx. tauto.
  - intros courtId startDate endDate.
    unfold CourtAvailabilityService.getActiveBlocks.
    rewrite Hfilter; [reflexivity |].
    intros x Hx. unfold CourtAvailabilityService.activeBlocksWhere in Hx.
    rewrite !andb_true_iff in Hx. tauto.
  - intros courtId date.
    unfold PublicCourtsController.getAvailableSlots. run.
    change (court_findUnique courtId
              (withBlocksUpdated db id (withActive false)))
      with (court_findUnique courtId db).
    change (court_findUnique courtId (withoutBlock db id))
      with (court_findUnique courtId db).
    destruct (court_findUnique courtId db); [| reflexivity].
    cbn [fst]. rewrite Hfilter; [reflexivity |].
    intros x Hx. unfold activeBlockWhere in Hx.
    rewrite !andb_true_iff in Hx. tauto.
Qed.

Lemma switched_off_block_witness :
  CourtAvailabilityService.remove "block-1" Sample.owner Sample.blockedDb
  = (inr "Bloqueo eliminado exitosamente",
     withoutBlock Sample.blockedDb "block-1").
Proof.
  apply (switched_off_block_is_as_removed "block-1" Sample.owner
           Sample.blockedDb
           (snd (CourtAvailabilityService.toggleActive "block-1"
                   Sample.owner Sample.blockedDb))
           (withActive false
              (Sample.block "block-1" Sample.day Sample.day None None))).
  - reflexivity.
  - reflexivity.
Defined.

(** ** The slots of a day *)

Lemma insertByStartTime_In (b x : Booking.t) (l : list Booking.t) :
  In x (insertByStartTime b l) <-> x = b \/ In x l.
Proof.
  induction l as [| a l IH]; cbn.
  - split; intros [H | H]; auto.
  - destruct (Booking.startTime b <=? Booking.startTime a); cbn.
    + split; intros [H | H]; auto.
    + rewrite IH. split; intros H; intuition auto.
Qed.

Lemma orderByStartTimeAsc_In (x : Booking.t) (l : list Booking.t) :
  In x (orderByStartTimeAsc l) <-> In x l.
Proof.
  unfold orderByStartTimeAsc. induction l as [| a l IH]; cbn; [tauto |].
  rewrite insertByStartTime_In, IH. split; intros [H | H]; auto.
Qed.

(** The bookings that the dashboard listing fetches. *)
Lemma bookingsOfDay_In (courtId : string) (date : Date) (db : Db)
  (b : Booking.t) :
  In b (BookingsService.bookingsOfDay courtId date db)
  <-> BookedOn db courtId date b.
Proof.
  unfold BookingsService.bookingsOfDay, BookedOn, booking_findMany.
  rewrite orderByStartTimeAsc_In, filter_In.
  rewrite <- isActiveStatus_ActiveBooking, <- day_range_sameDay.
  rewrite !andb_true_iff, String.eqb_eq. tauto.
Qed.



(** X25: the slot of index [k] of the dashboard listing, for stored bookings
    that start before they end: it starts [k] half hours after 06:00; it
    is marked unavailable exactly when an active booking of the court,
    dated on that day, overlaps it; and a booking id that it carries is
    the id of such a booking. *)
Theorem dashboard_slot_availability :
  forall (courtId : string) (date : Date) (db : Db) (k : nat),
    (k < 34)%nat ->
    Forall OrderedBooking (bookings db) ->
    exists slot : Slot.t,
      nth_error (BookingsService.getAvailableSlots courtId date db) k
      = Some slot
      /\ Slot.startTime slot = slotStartOf date k
      /\ Slot.endTime slot = slotStartOf date k + 30 * msPerMinute
      /\ (Slot.available slot = false <->
          exists b, BookedOn db courtId date b
                    /\ overlaps (Slot.startTime slot) (Slot.endTime slot)
                         (Booking.startTime b) (Booking.endTime b) = true)
      /\ (forall id, Slot.bookingId slot = Some id ->
            Slot.available slot = false
            /\ exists b, BookedOn db courtId date b
                         /\ Booking.id b = id
                         /\ overlaps (Slot.startTime slot) (Slot.endTime slot)
                              (Booking.startTime b) (Booking.endTime b)
                            = true).
Proof.
  intros courtId date db k Hk Hordered.
  rewrite Forall_forall in Hordered.
  rewrite dashboard_slots_closed_form, nth_error_map, nth_error_seq.
  destruct (Nat.ltb_spec k 34) as [_ | ?]; [| lia].
  cbn [option_map Nat.add]. fold (slotStartOf date k).
  eexists. split; [reflexivity |].
  unfold BookingsService.slotAt. rewrite setMinutes_plus_30.
  cbn [Slot.startTime Slot.endTime Slot.available Slot.bookingId].
  set (t := slotStartOf date k). set (e := t + 30 * msPerMinute).
  assert (Hlt : t < e) by (subst e; unfold msPerMinute; lia).
  set (fetched := BookingsService.bookingsOfDay courtId date db).
  assert (Hthree : forall b, In b fetched ->
             ((t >=? Booking.startTime b) && (t <? Booking.endTime b)
              || (e >? Booking.startTime b) && (e <=? Booking.endTime b)
              || (t <=? Booking.startTime b) && (e >=? Booking.endTime b))
             = overlaps t e (Booking.startTime b) (Booking.endTime b)).
  { intros b Hb. apply bookingsOfDay_In in Hb as [Hb _].
    specialize (Hordered b Hb). unfold OrderedBooking in Hordered.
    unfold overlaps. zbool. }
  split; [reflexivity |]. split; [reflexivity |]. split.
  - rewrite negb_false_iff, existsb_exists. split.
    + intros [b [Hb Hover]]. exists b. rewrite <- (Hthree b Hb).
      split; [now apply bookingsOfDay_In | exact Hover].
    + intros [b [Hb Hover]]. apply bookingsOfDay_In in Hb. exists b.
      split; [exact Hb |]. now rewrite (Hthree b Hb).
  - intros id. destruct (existsb _ fetched) eqn:Hbooked; [| discriminate].
    destruct (find _ fetched) as [b |] eqn:Hfind; [| discriminate].
    intros [= <-]. split; [reflexivity |].
    apply find_some in Hfind as [Hb Htwo]. exists b.
    split; [now apply bookingsOfDay_In |]. split; [reflexivity |].
    rewrite <- (Hthree b Hb). now rewrite Htwo.
Qed.

(** The 14:00 slot of the sample day, with the booking from 14:00 to
    15:00. *)
Lemma dashboard_slot_availability_witness :
  exists slot : Slot.t,
    nth_error
      (BookingsService.getAvailableSlots "court-1" Sample.day Sample.bookedDb)
      16
    = Some slot
    /\ Slot.startTime slot = Sample.at_ 14 0.
Proof.
  destruct (dashboard_slot_availability "court-1" Sample.day Sample.bookedDb
              16) as [slot [Hnth [Hstart _]]].
  - lia.
  - repeat constructor.
  - exists slot. split; [exact Hnth |]. rewrite Hstart. reflexivity.
Defined.




(** ** A booking and its own window *)

(** X27: for a stored active booking on a court without double bookings and
    without an active block on its day: its window is reported busy to a
    check that excludes nothing and free to a check that excludes the
    booking, so that the owner's update that carries the same two times
    is accepted. *)
Theorem booking_keeps_its_own_window :
  forall (id : string) (dto : UpdateBookingDto.t) (db : Db)
         (booking : Booking.t),
    NoDoubleBooking db ->
    Forall OrderedBooking (bookings db) ->
    id <> "" ->
    booking_findUnique id db = Some booking ->
    ActiveBooking booking ->
    courtAvailability_findMany
      (activeBlockWhere (Booking.courtId booking)
         (setHours (Booking.startTime booking) 0 0 0 0)) db = [] ->
    UpdateBookingDto.startTime dto = Some (Booking.startTime booking) ->
    UpdateBookingDto.endTime dto = Some (Booking.endTime booking) ->
    BookingsService.checkTimeSlotAvailability (Booking.courtId booking)
      (Booking.startTime booking) (Booking.endTime booking) None db = false
    /\ BookingsService.checkTimeSlotAvailability (Booking.courtId booking)
         (Booking.startTime booking) (Booking.endTime booking) (Some id) db
       = true
    /\ exists db' : Db,
        BookingsService.update id (Booking.userId booking) dto db
        = (inr (BookingsService.updateData dto booking), db').
Proof.
  intros id dto db booking Hfree Hordered Hid Hfind Hactive Hblocks Hs He.
  rewrite Forall_forall in Hordered.
  pose proof Hfind as Hin. apply find_some in Hin as [Hin Hsame].
  apply String.eqb_eq in Hsame.
  pose proof (Hordered booking Hin) as Hwindow.
  unfold OrderedBooking in Hwindow.
  apply isActiveStatus_ActiveBooking in Hactive.
  assert (Hbusy :
            BookingsService.checkTimeSlotAvailability
              (Booking.courtId booking) (Booking.startTime booking)
              (Booking.endTime booking) None db = false).
  { rewrite checkTimeSlotAvailability_formula.
    apply andb_false_intro1. apply negb_false_iff, existsb_exists.
    exists booking. split; [exact Hin |].
    unfold conflictingBookingWhere, timeOverlapWhere.
    rewrite String.eqb_refl, Hactive. cbn. zbool. }
  assert (Hself :
            BookingsService.checkTimeSlotAvailability
              (Booking.courtId booking) (Booking.startTime booking)
              (Booking.endTime booking) (Some id) db = true).
  { rewrite checkTimeSlotAvailability_formula.
    unfold courtAvailability_findMany in Hblocks. rewrite Hblocks.
    cbn [existsb negb]. rewrite andb_true_r.
    apply negb_true_iff, not_true_is_false. intros Hex.
    apply existsb_exists in Hex as [b [Hb Hw]].
    unfold conflictingBookingWhere in Hw.
    assert (Ht : truthy (Some id) = true).
    { destruct id; [congruence | reflexivity]. }
    rewrite Ht in Hw. cbn [orElse] in Hw.
    rewrite !andb_true_iff in Hw.
    destruct Hw as [[[Hcourt Hact] Hover] Hother].
    apply String.eqb_eq in Hcourt.
    apply negb_true_iff, String.eqb_neq in Hother.
    apply isActiveStatus_ActiveBooking in Hact, Hactive.
    pose proof (Hfree b booking Hb Hin ltac:(congruence) Hcourt Hact Hactive)
      as Hno.
    pose proof (Hordered b Hb) as Hbw. unfold OrderedBooking in Hbw.
    unfold timeOverlapWhere in Hover. unfold overlaps in Hno.
    revert Hover Hno. zbool. }
  split; [exact Hbusy |]. split; [exact Hself |].
  rewrite dashboard_update_run, Hfind, String.eqb_refl, Hs, He.
  cbn [negb isSome orb orElse].
  destruct (Z.leb_spec (Booking.endTime booking) (Booking.startTime booking));
    [lia |].
  rewrite Hself. unfold booking_update. rewrite Hfind.
  eexists. reflexivity.
Qed.

(** The booking from 14:00 to 15:00 of the sample data. *)
Lemma booking_keeps_its_own_window_witness :
  BookingsService.checkTimeSlotAvailability "court-1"
    (Sample.at_ 14 0) (Sample.at_ 15 0) (Some "booking-1") Sample.bookedDb
  = true.
Proof.
  apply (booking_keeps_its_own_window "booking-1"
           (Sample.windowUpdate (Sample.at_ 14 0) (Sample.at_ 15 0))
           Sample.bookedDb
           (Sample.booking "booking-1" (Sample.at_ 14 0) (Sample.at_ 15 0)
              StatusPending)).
  - intros a b [<- | []] [<- | []] Hne. now contradiction Hne.
  - repeat constructor.
  - discriminate.
  - reflexivity.
  - left. reflexivity.
  - reflexivity.
  - reflexivity.
  - reflexivity.
Defined.

(** ** The listing of the blocks *)

(** X28: the listing of [findAll] on the blocks holds exactly the stored
    blocks of the courts of the caller's complexes that pass the optional
    filters on the court and on the active flag, by descending start
    date; an empty court filter is ignored. *)
Theorem blocks_findAll_lists_own_blocks :
  forall (userId : string) (courtId : option string) (isActive : option bool)
         (db : Db),
    let listed := CourtAvailabilityService.findAll userId courtId isActive db in
    (forall k : Block.t,
        In k listed <->
        In k (courtAvailabilities db)
        /\ (exists court,
               court_findUnique (Block.courtId k) db = Some court
               /\ Court.complexUserId court = userId)
        /\ (forall c, courtId = Some c -> c <> "" -> Block.courtId k = c)
        /\ (forall flag, isActive = Some flag -> Block.isActive k = flag))
    /\ InOrder (fun a b => Block.startDate b <=? Block.startDate a) listed
    /\ (courtId = Some "" ->
        listed = CourtAvailabilityService.findAll userId None isActive db).
Proof.
  intros userId courtId isActive db listed. subst listed.
  unfold CourtAvailabilityService.findAll, courtAvailability_findMany.
  split; [| split].
  - intros k. rewrite orderBy_In, filter_In.
    unfold CourtAvailabilityService.findAllWhere.
    rewrite !andb_true_iff.
    assert (Howner :
              match court_findUnique (Block.courtId k) db with
              | Some court => String.eqb (Court.complexUserId court) userId
              | None => false
              end = true
              <-> exists court,
                  court_findUnique (Block.courtId k) db = Some court
                  /\ Court.complexUserId court = userId).
    { destruct (court_findUnique (Block.courtId k) db) as [c |].
      - rewrite String.eqb_eq. split.
        + intros Hc. now exists c.
        + now intros [c' [[= <-] Hc]].
      - split; [discriminate | now intros [c' [? _]]]. }
    assert (Hcourt :
              (if truthy courtId
               then String.eqb (Block.courtId k) (orElse courtId "")
               else true) = true
              <-> forall c, courtId = Some c -> c <> "" -> Block.courtId k = c).
    { destruct courtId as [[| ch c] |]; cbn.
      - split; [| reflexivity]. intros _ c [= <-] Hne. congruence.
      - rewrite String.eqb_eq. split.
        + intros Hc c' [= <-] _. exact Hc.
        + intros Hc. apply Hc; [reflexivity | discriminate].
      - split; [| reflexivity]. intros _ c. discriminate. }
    assert (Hflag :
              match isActive with
              | Some flag => Bool.eqb (Block.isActive k) flag
              | None => true
              end = true
              <-> forall flag, isActive = Some flag -> Block.isActive k = flag).
    { destruct isActive as [flag |].
      - rewrite Bool.eqb_true_iff. split.
        + now intros Hf flag' [= <-].
        + intros Hf. now apply Hf.
      - split; [| reflexivity]. intros _ flag. discriminate. }
    rewrite Howner, Hcourt, Hflag. tauto.
  - apply orderBy_InOrder; intros x y; [| intros z]; zbool.
  - intros ->. reflexivity.
Qed.
